(** * rgbw-ctrl firmware: a shallow embedding of the state and colour core

    The development follows the C++ headers under [main/include]
    and, for the packets of a remote, [main/src/controller.cpp]:
    - [throttled_value.hh]             -> [ThrottledValue]
    - [async_esp_alexa_color_utils.hh] -> [AsyncEspAlexaColorUtils]
    - [controller_hardware.hh]         -> [ControllerHardware]
    - [light.hh]                       -> [Light], [LightStore]
    - [output_manager.hh]              -> [Output]
    - [async_esp_alexa_device.hh]      -> [AsyncEspAlexaDevice]
    - [async_esp_alexa_manager.hh]     -> [AsyncEspAlexaManager]
    - [alexa_integration.hh]           -> [AlexaIntegration]
    - [async_esp_alexa_web_handler.hh] -> [AsyncEspAlexaWebHandler]
    - [esp_now_handler_controller.hh]  -> [EspNow], [ControllerHandler]
    - [controller.cpp]                 -> [Controller]
    - [websocket_handler.hh]           -> [WebSocket]

    Conventions.
    - Fixed-width integers are [Z] with the wrap-around written out;
      [unsigned long] is 32 bits wide on the ESP32.
    - The C++ type [float] is IEEE-754 binary32, modelled with the
      parametric soft-float of the standard library ([SpecFloat]) at
      precision 24 and maximal exponent 128.  Every operation rounds
      to nearest, ties to even, and a product followed by a sum is
      rounded twice (no fused multiply-add).
    - [log], [pow] and [exp] are functions of the C library whose results
      IEEE-754 does not fix; the definitions that call them take them
      as parameters.
    - Objects are records updated functionally; an operation that can
      abort returns an [option].
    - A [bool] member of a packed structure is kept as its byte where
      the code copies the structure as bytes; a string read through a
      [char] pointer is read from the memory behind the pointer. *)

From Stdlib Require Import ZArith NArith Lia List Bool String Ascii DecimalString.
From Stdlib Require Import Floats.SpecFloat.
Import ListNotations.

Local Open Scope Z_scope.

(** ** Fixed-width integers *)

Definition wrap (bits : Z) (z : Z) : Z := z mod 2 ^ bits.

Definition u8 (z : Z) : Z := wrap 8 z.
Definition u16 (z : Z) : Z := wrap 16 z.
Definition u32 (z : Z) : Z := wrap 32 z.

Definition is_u8 (z : Z) : Prop := 0 <= z <= 255.
Definition is_u16 (z : Z) : Prop := 0 <= z <= 65535.
Definition is_u32 (z : Z) : Prop := 0 <= z < 2 ^ 32.

(** [std::clamp(v, lo, hi)] on integers: [(v < lo) ? lo : (hi < v) ? hi : v]. *)
Definition clampZ (v lo hi : Z) : Z :=
  if v <? lo then lo else if hi <? v then hi else v.

(** Bounded universal quantification, decided by running through
    [0 .. n-1]; used to settle facts about 8-bit inputs by evaluation. *)
Fixpoint forall_below (n : nat) (p : Z -> bool) : bool :=
  match n with
  | O => true
  | S k => p (Z.of_nat k) && forall_below k p
  end.

(** The same over a block of [2 ^ bits] consecutive integers from
    [base], splitting the block in halves. *)
Fixpoint forall_block (bits : nat) (base : Z) (p : Z -> bool) : bool :=
  match bits with
  | O => p base
  | S k =>
      if forall_block k base p then forall_block k (base + 2 ^ Z.of_nat k) p
      else false
  end.

(** ** binary32 arithmetic *)

Module F32.

Definition prec : Z := 24.
Definition emax : Z := 128.

Definition t : Type := spec_float.

Definition add : t -> t -> t := SFadd prec emax.
Definition sub : t -> t -> t := SFsub prec emax.
Definition mul : t -> t -> t := SFmul prec emax.
Definition div : t -> t -> t := SFdiv prec emax.

Definition ltb : t -> t -> bool := SFltb.
Definition leb : t -> t -> bool := SFleb.
Definition eqb : t -> t -> bool := SFeqb.

(** Conversion of an integer, as [static_cast<float>(n)] does. *)
Definition of_Z (z : Z) : t := binary_normalize prec emax z 0 false.

(** A decimal literal [n / 10^k] (written [n e-k f] in the source),
    correctly rounded: the quotient is taken with spare bits and a
    sticky bit, then rounded once. *)
Definition of_decimal (n : Z) (k : Z) : t :=
  let d := 10 ^ k in
  let a := Z.abs n in
  let q := (a * 2 ^ 64) / d in
  let sticky := if (a * 2 ^ 64) mod d =? 0 then 0 else 1 in
  let m := 2 * q + sticky in
  binary_normalize prec emax (if n <? 0 then - m else m) (-65) (n <? 0).

Definition zero : t := S754_zero false.

(** Truncation toward zero, the value part of a float-to-integer
    conversion.  Infinities and NaN, for which C++ leaves the
    conversion undefined, are sent to 0. *)
Definition trunc (x : t) : Z :=
  match x with
  | S754_finite s m e =>
      let a := if 0 <=? e then Z.pos m * 2 ^ e else Z.pos m / 2 ^ (- e) in
      if s then - a else a
  | _ => 0
  end.

(** [static_cast<uint8_t>(x)], [static_cast<uint16_t>(x)] and
    [static_cast<int>(x)].  A value outside the target range is
    undefined behaviour in C++; the model wraps it into the type. *)
Definition to_u8 (x : t) : Z := u8 (trunc x).
Definition to_u16 (x : t) : Z := u16 (trunc x).
Definition to_int (x : t) : Z := trunc x.

(** [fmod(x, y)]: the exact remainder of [x / y] truncated toward
    zero, carrying the sign of [x]. *)
Definition fmod (x y : t) : t :=
  match x, y with
  | S754_nan, _ | _, S754_nan => S754_nan
  | S754_infinity _, _ => S754_nan
  | _, S754_zero _ => S754_nan
  | _, S754_infinity _ => x
  | S754_zero _, _ => x
  | S754_finite sx mx ex, S754_finite _ my ey =>
      let e := Z.min ex ey in
      let X := Z.pos mx * 2 ^ (ex - e) in
      let Y := Z.pos my * 2 ^ (ey - e) in
      let R := X mod Y in
      binary_normalize prec emax (if sx then - R else R) e sx
  end.

(** [std::max({a, b, c})] and [std::min({a, b, c})]: a left-to-right
    scan keeping the first extremal element, compared with [<]. *)
Definition max2 (acc x : t) : t := if ltb acc x then x else acc.
Definition min2 (acc x : t) : t := if ltb x acc then x else acc.
Definition max3 (a b c : t) : t := max2 (max2 a b) c.
Definition min3 (a b c : t) : t := min2 (min2 a b) c.

(** [std::clamp(v, lo, hi)]. *)
Definition clamp (v lo hi : t) : t :=
  if ltb v lo then lo else if ltb hi v then hi else v.

(** The neighbouring binary32 values. *)
Definition succ : t -> t := SFsucc prec emax.
Definition pred : t -> t := SFpred prec emax.

Definition is_nan (x : t) : bool :=
  match x with S754_nan => true | _ => false end.

(** [std::abs] on [float]. *)
Definition abs : t -> t := SFabs.

(** Two binary32 values with the same sign, mantissa and exponent. *)
Definition same (x y : t) : bool :=
  match x, y with
  | S754_zero a, S754_zero b => Bool.eqb a b
  | S754_infinity a, S754_infinity b => Bool.eqb a b
  | S754_nan, S754_nan => true
  | S754_finite a m e, S754_finite b n f => Bool.eqb a b && Pos.eqb m n && (e =? f)
  | _, _ => false
  end.

End F32.

(** ** async_esp_alexa_color_utils.hh *)

Module AsyncEspAlexaColorUtils.

Definition ALEXA_MIN_BRI_VAL : Z := 1.
Definition ALEXA_MAX_BRI_VAL : Z := 254.
Definition ALEXA_MIN_SAT_VAL : Z := 0.
Definition ALEXA_MAX_SAT_VAL : Z := 254.
Definition RGB_MIN_VAL : Z := 0.
Definition RGB_MAX_VAL : Z := 255.
Definition HUE_MIN_VAL : Z := 0.
Definition HUE_MAX_VAL : Z := 65535.
Definition CT_MIN_MIREDS : Z := 153.
Definition CT_MAX_MIREDS : Z := 500.

Definition FZ (z : Z) : F32.t := F32.of_Z z.

(** [hsToRgb]: full-brightness colour of a hue/saturation pair. *)
Definition hsToRgb (hue saturation : Z) : Z * Z * Z :=
  let h := F32.div (FZ hue) (FZ (HUE_MAX_VAL - HUE_MIN_VAL)) in
  let s := F32.div (FZ saturation) (FZ (ALEXA_MAX_SAT_VAL - ALEXA_MIN_SAT_VAL)) in
  let i := F32.to_int (F32.mul h (FZ 6)) in
  let f := F32.sub (F32.mul h (FZ 6)) (FZ i) in
  let p := F32.mul (FZ RGB_MAX_VAL) (F32.sub (FZ 1) s) in
  let q := F32.mul (FZ RGB_MAX_VAL) (F32.sub (FZ 1) (F32.mul f s)) in
  let t := F32.mul (FZ RGB_MAX_VAL)
             (F32.sub (FZ 1) (F32.mul (F32.sub (FZ 1) f) s)) in
  match Z.rem i 6 with
  | 0 => (RGB_MAX_VAL, F32.to_u8 t, F32.to_u8 p)
  | 1 => (F32.to_u8 q, RGB_MAX_VAL, F32.to_u8 p)
  | 2 => (F32.to_u8 p, RGB_MAX_VAL, F32.to_u8 t)
  | 3 => (F32.to_u8 p, F32.to_u8 q, RGB_MAX_VAL)
  | 4 => (F32.to_u8 t, F32.to_u8 p, RGB_MAX_VAL)
  | 5 => (RGB_MAX_VAL, F32.to_u8 p, F32.to_u8 q)
  | _ => (RGB_MIN_VAL, RGB_MIN_VAL, RGB_MIN_VAL)
  end.

(** One output channel of [hsvToRgb]: scale, clamp to [0, 255], cast. *)
Definition scaleChannel (c : Z) (factor : F32.t) : Z :=
  F32.to_u8 (F32.clamp (F32.mul (FZ c) factor) (FZ RGB_MIN_VAL) (FZ RGB_MAX_VAL)).

Definition hsvToRgb (hue saturation value : Z) : Z * Z * Z :=
  let '(r, g, b) := hsToRgb hue saturation in
  let factor := F32.div (FZ value) (FZ (ALEXA_MAX_BRI_VAL - ALEXA_MIN_BRI_VAL)) in
  (scaleChannel r factor, scaleChannel g factor, scaleChannel b factor).

(** [std::min({r, g, b})] on [uint8_t]. *)
Definition min3Z (r g b : Z) : Z :=
  let m := if g <? r then g else r in
  if b <? m then b else m.

Definition hsvToRgbw (hue saturation value : Z) : Z * Z * Z * Z :=
  let '(r, g, b) := hsvToRgb hue saturation value in
  let w := min3Z r g b in
  (u8 (r - w), u8 (g - w), u8 (b - w), w).

(** [rgbToHsv].  The unqualified [fmod] receives two [float]
    arguments; whether the [float] or the [double] overload is
    chosen the result is the same, since the remainder is exact and
    the product with [60.0f] fits a double exactly before the
    assignment to [float h] rounds it once. *)
Definition hueDegrees (fr fg fb mx delta : F32.t) : F32.t :=
  let h :=
    if F32.ltb F32.zero delta then
      if F32.eqb mx fr then
        F32.mul (FZ 60) (F32.fmod (F32.div (F32.sub fg fb) delta) (FZ 6))
      else if F32.eqb mx fg then
        F32.mul (FZ 60) (F32.add (F32.div (F32.sub fb fr) delta) (FZ 2))
      else
        F32.mul (FZ 60) (F32.add (F32.div (F32.sub fr fg) delta) (FZ 4))
    else F32.zero in
  if F32.ltb h F32.zero then F32.add h (FZ 360) else h.

(** The scaled saturation [s * ALEXA_MAX_SAT_VAL] and value
    [v * ALEXA_MAX_BRI_VAL], before their casts to [uint8_t]. *)
Definition satScaled (mx delta : F32.t) : F32.t :=
  let s := if F32.eqb mx F32.zero then F32.zero else F32.div delta mx in
  F32.mul s (FZ ALEXA_MAX_SAT_VAL).

Definition valScaled (mx : F32.t) : F32.t := F32.mul mx (FZ ALEXA_MAX_BRI_VAL).

Definition satOf (mx delta : F32.t) : Z := F32.to_u8 (satScaled mx delta).

Definition valOf (mx : F32.t) : Z :=
  Z.max (F32.to_u8 (valScaled mx)) ALEXA_MIN_BRI_VAL.

Definition unit255 (c : Z) : F32.t :=
  F32.div (FZ c) (FZ (RGB_MAX_VAL - RGB_MIN_VAL)).

Definition rgbToHsv (r g b : Z) : Z * Z * Z :=
  let fr := unit255 r in
  let fg := unit255 g in
  let fb := unit255 b in
  let mx := F32.max3 fr fg fb in
  let mn := F32.min3 fr fg fb in
  let delta := F32.sub mx mn in
  let h := hueDegrees fr fg fb mx delta in
  let hue := F32.to_u16 (F32.mul (F32.div h (FZ 360)) (FZ 65535)) in
  (hue, satOf mx delta, valOf mx).

Definition rgbwToHsv (r g b w : Z) : Z * Z * Z :=
  let r_adj := u8 (Z.min RGB_MAX_VAL (r + w)) in
  let g_adj := u8 (Z.min RGB_MAX_VAL (g + w)) in
  let b_adj := u8 (Z.min RGB_MAX_VAL (b + w)) in
  rgbToHsv r_adj g_adj b_adj.

Definition KELVIN_MIN : F32.t := FZ 2000.
Definition KELVIN_MAX : F32.t := FZ 6500.

(** Tanner Helland's coefficients, as the [float] literals of the source. *)
Definition CT_GREEN_A : F32.t := F32.of_decimal 99470802 6.
Definition CT_GREEN_B : F32.t := F32.of_decimal (-161119568) 6.
Definition CT_BLUE_A : F32.t := F32.of_decimal 138517731 6.
Definition CT_BLUE_B : F32.t := F32.of_decimal (-305044793) 6.
Definition CT_RED_A : F32.t := F32.of_decimal 329698727 6.
Definition CT_RED_EXP : F32.t := F32.of_decimal (-13320476) 8.
Definition CT_GREEN2_A : F32.t := F32.of_decimal 28812217 5.
Definition CT_GREEN2_EXP : F32.t := F32.of_decimal (-7551485) 8.

Section Transcendental.

(** [log] and [pow] come from the C library; their results are not
    fixed by IEEE-754, so they are taken as given functions on
    binary32 values. *)
Variable logf : F32.t -> F32.t.
Variable powf : F32.t -> F32.t -> F32.t.

Definition clamp255 (x : F32.t) : F32.t :=
  F32.clamp x (FZ RGB_MIN_VAL) (FZ RGB_MAX_VAL).

(** The branch taken when [kelvin <= 6600.0f]. *)
Definition kelvinLower (kelvin : F32.t) : F32.t * F32.t * F32.t :=
  let r := FZ RGB_MAX_VAL in
  let g := clamp255
             (F32.add (F32.mul CT_GREEN_A (logf (F32.div kelvin (FZ 100)))) CT_GREEN_B) in
  let b := if F32.leb kelvin (FZ 1900) then FZ RGB_MIN_VAL
           else clamp255
                  (F32.add
                     (F32.mul CT_BLUE_A
                        (logf (F32.div (F32.sub kelvin (FZ 1000)) (FZ 100))))
                     CT_BLUE_B) in
  (r, g, b).

(** The branch taken otherwise. *)
Definition kelvinUpper (kelvin : F32.t) : F32.t * F32.t * F32.t :=
  let x := F32.div (F32.sub kelvin (FZ 6000)) (FZ 100) in
  let r := clamp255 (F32.mul CT_RED_A (powf x CT_RED_EXP)) in
  let g := clamp255 (F32.mul CT_GREEN2_A (powf x CT_GREEN2_EXP)) in
  (r, g, FZ RGB_MAX_VAL).

(** The body of [kelvinToRgb] after its first statement, on the
    already clamped temperature. *)
Definition kelvinBranches (kelvin : F32.t) : F32.t * F32.t * F32.t :=
  if F32.leb kelvin (FZ 6600) then kelvinLower kelvin else kelvinUpper kelvin.

Definition kelvinToRgb (kelvin : F32.t) : F32.t * F32.t * F32.t :=
  let kelvin := F32.clamp kelvin KELVIN_MIN KELVIN_MAX in
  kelvinBranches kelvin.

Definition ctToRgb (brightness colorTemperature : Z) : Z * Z * Z :=
  let kelvin := F32.div (FZ 1000000) (FZ colorTemperature) in
  let '(r, g, b) := kelvinToRgb kelvin in
  let factor := F32.div (FZ brightness) (FZ RGB_MAX_VAL) in
  (F32.to_u8 (F32.mul r factor),
   F32.to_u8 (F32.mul g factor),
   F32.to_u8 (F32.mul b factor)).

Definition ctToRgbw (brightness colorTemperature : Z) : Z * Z * Z * Z :=
  let '(r, g, b) := ctToRgb brightness colorTemperature in
  let w := min3Z r g b in
  (u8 (r - w), u8 (g - w), u8 (b - w), w).

End Transcendental.

Definition DEFAULT_CT_WHEN_OFF : Z := CT_MAX_MIREDS.
Definition DEFAULT_BRI_WHEN_OFF : Z := ALEXA_MIN_BRI_VAL.
Definition KELVIN_TO_MIREDS : F32.t := FZ 1000000.

(** The default of the parameter [maxChromaDiff], [20.0f]. *)
Definition defaultChromaDiff : F32.t := FZ 20.

(** [isCtLikeColor]: the largest pairwise channel difference against
    the threshold. *)
Definition isCtLikeColor (r g b : Z) (maxChromaDiff : F32.t) : bool :=
  let rf := FZ r in
  let gf := FZ g in
  let bf := FZ b in
  let chroma :=
    F32.max3 (F32.abs (F32.sub rf gf)) (F32.abs (F32.sub rf bf))
      (F32.abs (F32.sub gf bf)) in
  F32.leb chroma maxChromaDiff.

Section Exponential.

(** [exp] of the C library, taken as a given function on binary32. *)
Variable expf : F32.t -> F32.t.

(** [rgbToCtBrightness]: brightness and colour temperature in mireds. *)
Definition rgbToCtBrightness (r g b : Z) : Z * Z :=
  let rf := FZ r in
  let gf := FZ g in
  let bf := FZ b in
  let brightness := F32.max3 rf gf bf in
  if F32.eqb brightness F32.zero then (0, DEFAULT_CT_WHEN_OFF)
  else if negb (isCtLikeColor r g b defaultChromaDiff) then
    (F32.to_u8 brightness, DEFAULT_CT_WHEN_OFF)
  else
    let r_norm := F32.div rf brightness in
    let g_norm := F32.div gf brightness in
    let b_norm := F32.div bf brightness in
    let kelvin :=
      if F32.leb b_norm r_norm then
        F32.mul (FZ 1000) (expf (F32.div (F32.sub b_norm CT_BLUE_B) CT_BLUE_A))
      else
        F32.mul (FZ 100) (expf (F32.div (F32.sub g_norm CT_GREEN_B) CT_GREEN_A)) in
    let kelvin := F32.clamp kelvin KELVIN_MIN KELVIN_MAX in
    let ct := F32.to_u16 (F32.div KELVIN_TO_MIREDS kelvin) in
    let bri := F32.to_u8 (F32.clamp brightness (FZ RGB_MIN_VAL) (FZ RGB_MAX_VAL)) in
    (bri, ct).

End Exponential.

End AsyncEspAlexaColorUtils.

(** ** throttled_value.hh *)

Module ThrottledValue.

Section Gate.

(** The throttled type and its [operator==]. *)
Variable T : Type.
Variable eqT : T -> T -> bool.

(** [mutex] is [true] while the [std::mutex] is held. *)
Record t : Type := mk {
  lastValue : T;
  lastSendTime : Z;
  throttleInterval : Z;
  mutex : bool
}.

(** The constructor; [init] is the default-constructed [T]. *)
Definition make (init : T) (intervalMs : Z) : t :=
  {| lastValue := init; lastSendTime := 0;
     throttleInterval := u32 intervalMs; mutex := false |}.

Definition lock (g : t) : t :=
  {| lastValue := lastValue g; lastSendTime := lastSendTime g;
     throttleInterval := throttleInterval g; mutex := true |}.

Definition unlock (g : t) : t :=
  {| lastValue := lastValue g; lastSendTime := lastSendTime g;
     throttleInterval := throttleInterval g; mutex := false |}.

(** [now - lastSendTime] on [unsigned long], 32 bits wide on the target. *)
Definition elapsed (now last : Z) : Z := u32 (now - last).

(** [shouldSend]: the answer and the gate afterwards. *)
Definition shouldSend (g : t) (now : Z) (newValue : T) : bool * t :=
  if mutex g then (false, g)
  else
    let g := lock g in
    if (elapsed now (lastSendTime g) <? throttleInterval g)
       || eqT newValue (lastValue g)
    then (false, unlock g)
    else (true, unlock g).

(** [setLastSent]; the [std::lock_guard] is released on return. *)
Definition setLastSent (g : t) (time : Z) (value : T) : t :=
  let g := lock g in
  unlock {| lastValue := value; lastSendTime := time;
            throttleInterval := throttleInterval g; mutex := mutex g |}.

End Gate.

Arguments lastValue {T} _.
Arguments lastSendTime {T} _.
Arguments throttleInterval {T} _.
Arguments mutex {T} _.
Arguments make {T} _ _.
Arguments shouldSend {T} _ _ _ _.
Arguments setLastSent {T} _ _ _.

End ThrottledValue.

(** ** color.hh (not in the tree): the channel enumeration *)

(** Modelled from the spec: the [Color] enumeration of [color.hh],
    whose four values index the channels in the order red, green,
    blue, white ([static_cast<size_t>(Color::White) < 4]). *)
Inductive Color : Type := Red | Green | Blue | White.

(** [std::array<A, 4>] *)
Module Array4.

Record t (A : Type) : Type := mk { a0 : A; a1 : A; a2 : A; a3 : A }.

Arguments mk {A} _ _ _ _.
Arguments a0 {A} _.
Arguments a1 {A} _.
Arguments a2 {A} _.
Arguments a3 {A} _.

(** [static_cast<size_t>(color)] *)
Definition index (c : Color) : nat :=
  match c with Red => 0 | Green => 1 | Blue => 2 | White => 3 end.

Definition at_ {A} (a : t A) (c : Color) : A :=
  match c with Red => a0 a | Green => a1 a | Blue => a2 a | White => a3 a end.

Definition set {A} (a : t A) (c : Color) (x : A) : t A :=
  match c with
  | Red => mk x (a1 a) (a2 a) (a3 a)
  | Green => mk (a0 a) x (a2 a) (a3 a)
  | Blue => mk (a0 a) (a1 a) x (a3 a)
  | White => mk (a0 a) (a1 a) (a2 a) x
  end.

Definition map {A B} (f : A -> B) (a : t A) : t B :=
  mk (f (a0 a)) (f (a1 a)) (f (a2 a)) (f (a3 a)).

Definition to_list {A} (a : t A) : list A := [a0 a; a1 a; a2 a; a3 a].

Definition any_of {A} (p : A -> bool) (a : t A) : bool :=
  existsb p (to_list a).

Definition eqb {A} (eqA : A -> A -> bool) (a b : t A) : bool :=
  eqA (a0 a) (a0 b) && eqA (a1 a) (a1 b) && eqA (a2 a) (a2 b) && eqA (a3 a) (a3 b).

End Array4.

(** ** Abnormal termination *)

(** An operation that can abort (an unchecked [std::optional::value()])
    returns [None] in that case. *)
Definition bind {A B} (m : option A) (k : A -> option B) : option B :=
  match m with Some a => k a | None => None end.

Notation "x <- m ;; k" := (bind m (fun x => k))
  (at level 61, m at next level, right associativity).

(** ** controller_hardware.hh *)

Module ControllerHardware.

(** [getPwmChannel], on the numeric values of the [gpio_num_t] pins. *)
Definition getPwmChannel (pin : Z) : option Z :=
  match pin with
  | 21 => Some 0
  | 17 => Some 1
  | 4 => Some 2
  | 13 => Some 3
  | 16 => Some 4
  | 19 => Some 5
  | 18 => Some 6
  | _ => None
  end.

End ControllerHardware.

(** ** light.hh *)

Module Light.

(** [Light::State], two packed bytes.  [flag] is the byte that holds
    the member [bool on]: an assignment of a [bool] stores 1 or 0,
    while a copy of the structure ([memcpy], [operator=]) keeps
    whatever byte it is given.  Read as a condition the member is
    true exactly when its byte is not 0. *)
Record State : Type := mkRaw { flag : Z; value : Z }.

(** The member [on], read as a [bool]. *)
Definition on (s : State) : bool := negb (flag s =? 0).

(** The state that the initialisers [{on, value}] build. *)
Definition mkState (b : bool) (v : Z) : State :=
  mkRaw (if b then 1 else 0) v.

(** [operator==] and [operator!=]: the members are compared as the
    bytes they are. *)
Definition State_eqb (a b : State) : bool :=
  (flag a =? flag b) && (value a =? value b).

Definition State_neqb (a b : State) : bool :=
  negb (flag a =? flag b) || negb (value a =? value b).

Definition ON_VALUE : Z := 255.
Definition OFF_VALUE : Z := 0.
Definition MIN_BRIGHTNESS : Z := OFF_VALUE + 1.
Definition MAX_BRIGHTNESS : Z := ON_VALUE.

(** The members the modelled operations read or write.  The duty
    last handed to [ledcWrite] is exactly [lastWrittenValue]; the
    preference store and the persistence timer are touched by
    [setup], [restore] and [handle] only. *)
Record t : Type := mk {
  invert : bool;
  pin : Z;
  state : State;
  lastWrittenValue : option Z
}.

(** The constructor [Light(pin, invert)]. *)
Definition make (pin : Z) (invert : bool) : t :=
  {| invert := invert; pin := pin;
     state := mkState false 0; lastWrittenValue := None |}.

Definition withState (l : t) (s : State) : t :=
  {| invert := invert l; pin := pin l; state := s;
     lastWrittenValue := lastWrittenValue l |}.

Definition optZ_eqb (a : option Z) (b : Z) : bool :=
  match a with Some x => x =? b | None => false end.

(** [update]: recompute the duty and write it when it changed. *)
Definition update (l : t) : option t :=
  let channel := ControllerHardware.getPwmChannel (pin l) in
  let duty := if on (state l) then value (state l) else OFF_VALUE in
  let outputValue := u8 (if invert l then MAX_BRIGHTNESS - duty else duty) in
  if negb (optZ_eqb (lastWrittenValue l) outputValue) then
    match channel with
    | Some _ =>
        Some {| invert := invert l; pin := pin l; state := state l;
                lastWrittenValue := Some outputValue |}
    | None => None
    end
  else Some l.

Definition toggle (l : t) : option t :=
  let on1 := negb (on (state l)) in
  let value1 :=
    if on1 && (value (state l) =? OFF_VALUE) then MAX_BRIGHTNESS
    else value (state l) in
  update (withState l (mkState on1 value1)).

Definition setValue (l : t) (v : Z) : option t :=
  update (withState l (mkRaw (flag (state l)) v)).

Definition setOn (l : t) (stateFlag : bool) : option t :=
  update (withState l (mkState stateFlag (value (state l)))).

Definition setState (l : t) (s : State) : option t :=
  update (withState l s).

(** [makeVisible] does not call [update]. *)
Definition makeVisible (l : t) : t :=
  withState l
    (mkState true
       (if value (state l) =? OFF_VALUE then MAX_BRIGHTNESS else value (state l))).

(** The light sits on a pin that has a PWM channel. *)
Definition wired (l : t) : Prop :=
  ControllerHardware.getPwmChannel (pin l) <> None.

Definition isOn (l : t) : bool := on (state l).
Definition isOff (l : t) : bool := negb (on (state l)).
Definition isVisible (l : t) : bool := on (state l) && (0 <? value (state l)).
Definition getValue (l : t) : Z := value (state l).
Definition getState (l : t) : State := state l.

(** [lround]: to the nearest integer, halves away from zero. *)
Definition lround (x : F32.t) : Z :=
  match x with
  | S754_finite s m e =>
      let a :=
        if 0 <=? e then Z.pos m * 2 ^ e
        else
          let d := 2 ^ (- e) in
          let q := Z.pos m / d in
          if d <=? 2 * (Z.pos m mod d) then q + 1 else q in
      if s then - a else a
  | _ => 0
  end.

Section Stepping.

(** [pow] of the C library, taken as a given function on binary32. *)
Variable powf : F32.t -> F32.t -> F32.t.

Definition gamma : F32.t := F32.of_decimal 22 1.

Definition perceptualBrightnessStep (currentValue : Z) (increase : bool) : Z :=
  let linear :=
    powf (F32.div (F32.of_Z currentValue) (F32.of_Z MAX_BRIGHTNESS))
         (F32.div (F32.of_Z 1) gamma) in
  let linear :=
    F32.add linear
      (if increase then F32.of_decimal 5 2 else F32.of_decimal (-5) 2) in
  let linear := F32.clamp linear (F32.of_Z 0) (F32.of_Z 1) in
  let value := lround (F32.mul (powf linear gamma) (F32.of_Z MAX_BRIGHTNESS)) in
  clampZ (u8 value) MIN_BRIGHTNESS MAX_BRIGHTNESS.

Definition increaseBrightness (l : t) : option t :=
  if value (state l) =? MAX_BRIGHTNESS then Some l
  else
    let step := perceptualBrightnessStep (value (state l)) true in
    update (withState l (mkRaw (flag (state l)) step)).

Definition decreaseBrightness (l : t) : option t :=
  if isOff l || (value (state l) =? MIN_BRIGHTNESS) then Some l
  else
    let step := perceptualBrightnessStep (value (state l)) false in
    update (withState l (mkRaw (flag (state l)) step)).

(** [n] successive calls of [decreaseBrightness]. *)
Fixpoint decreaseBrightnessTimes (n : nat) (l : t) : option t :=
  match n with
  | O => Some l
  | S k => l1 <- decreaseBrightness l ;; decreaseBrightnessTimes k l1
  end.

End Stepping.

(** The duty [update] computes for the light: [on ? value : 0],
    taken from 255 when the output is inverted. *)
Definition outputValue (l : t) : Z :=
  let duty := if on (state l) then value (state l) else OFF_VALUE in
  u8 (if invert l then MAX_BRIGHTNESS - duty else duty).

End Light.

(** ** Preferences (the NVS store of the Arduino core) *)

Module Preferences.

(** The byte entries of one namespace.  A put shadows the older entry
    of the same key.  As in the Arduino core, a [bool] is kept as the
    byte 1 or 0 and read back by comparing with 1. *)
Definition t : Type := list (string * Z).


Definition putUChar (s : t) (key : string) (v : Z) : t := (key, u8 v) :: s.


Definition putBool (s : t) (key : string) (b : bool) : t :=
  putUChar s key (if b then 1 else 0).


End Preferences.

(** ** light.hh: persistence *)

Module LightStore.

Definition PERSIST_DEBOUNCE_MS : Z := 500.

Definition decimal (n : Z) : string :=
  NilZero.string_of_uint (N.to_uint (Z.to_N n)).

(** [snprintf(key, 5, "%02u<suffix>", static_cast<unsigned>(pin))]:
    at least two digits, the suffix, cut to four characters. *)
Definition keyOf (pin : Z) (suffix : string) : string :=
  let digits := decimal (u32 pin) in
  let padded := if (String.length digits <? 2)%nat then ("0" ++ digits)%string
                else digits in
  substring 0 4 (padded ++ suffix)%string.

Definition onKey (l : Light.t) : string := keyOf (Light.pin l) "o".
Definition valueKey (l : Light.t) : string := keyOf (Light.pin l) "v".

(** The members of [Light] that persistence uses. *)
Record t : Type := mk {
  prefs : Preferences.t;
  lastPersistedState : Light.State;
  lastPersistTime : Z
}.

(** The members as the constructor leaves them, over a given store. *)
Definition fresh (store : Preferences.t) : t :=
  {| prefs := store; lastPersistedState := Light.mkState false 0;
     lastPersistTime := 0 |}.

(** [Light::handle] *)
Definition handle (l : Light.t) (p : t) (now : Z) : t :=
  if Light.State_neqb (Light.state l) (lastPersistedState p)
     && (PERSIST_DEBOUNCE_MS <=? u32 (now - lastPersistTime p))
  then
    {| prefs :=
         Preferences.putUChar
           (Preferences.putBool (prefs p) (onKey l) (Light.on (Light.state l)))
           (valueKey l) (Light.value (Light.state l));
       lastPersistedState := Light.state l;
       lastPersistTime := now |}
  else p.


End LightStore.

(** ** output_manager.hh *)

Module Output.

(** [Output::State]: four packed [Light::State], eight bytes. *)
Record State : Type := mkState { values : Array4.t Light.State }.

Definition State_eqb (a b : State) : bool :=
  Array4.eqb Light.State_eqb (values a) (values b).

Definition State_isOn (s : State) (c : Color) : bool :=
  Light.on (Array4.at_ (values s) c).

Definition State_getValue (s : State) (c : Color) : Z :=
  Light.value (Array4.at_ (values s) c).

Definition State_anyOn (s : State) : bool :=
  Array4.any_of Light.on (values s).

Definition sizeofState : Z := 8.

(** The packed bytes of a [State], as [reinterpret_cast<uint8_t*>]
    sees them: per channel the byte of [on], then [value]. *)
Definition State_bytes (s : State) : list Z :=
  flat_map (fun c => [Light.flag c; Light.value c])
           (Array4.to_list (values s)).

(** [memcpy] of eight bytes into a [State]: per channel one byte into
    [on], kept as it is written, and one into [value]. *)
Definition State_of_bytes (p : list Z) : State :=
  let chan (i : nat) :=
    Light.mkRaw (nth (2 * i) p 0) (nth (2 * i + 1) p 0) in
  mkState (Array4.mk (chan 0%nat) (chan 1%nat) (chan 2%nat) (chan 3%nat)).

Record Manager : Type := mkManager {
  lights : Array4.t Light.t;
  colorNotificationThrottle : ThrottledValue.t State
}.

Definition defaultState : State :=
  mkState (Array4.mk (Light.mkState false 0) (Light.mkState false 0)
                     (Light.mkState false 0) (Light.mkState false 0)).

(** The constructor [Manager(red, green, blue, white)]. *)
Definition makeManager (red green blue white : Z) : Manager :=
  {| lights := Array4.mk (Light.make red false) (Light.make green false)
                         (Light.make blue false) (Light.make white false);
     colorNotificationThrottle := ThrottledValue.make defaultState 500 |}.

(** All four lights sit on pins with a PWM channel, as the output
    pins of the controller board do. *)
Definition wired (m : Manager) : Prop :=
  forall c, Light.wired (Array4.at_ (lights m) c).

Definition withLights (m : Manager) (ls : Array4.t Light.t) : Manager :=
  {| lights := ls; colorNotificationThrottle := colorNotificationThrottle m |}.

Definition setValue (m : Manager) (v : Z) (c : Color) : option Manager :=
  l <- Light.setValue (Array4.at_ (lights m) c) v ;;
  Some (withLights m (Array4.set (lights m) c l)).

Definition setOn (m : Manager) (b : bool) (c : Color) : option Manager :=
  l <- Light.setOn (Array4.at_ (lights m) c) b ;;
  Some (withLights m (Array4.set (lights m) c l)).

Definition setColor3 (m : Manager) (r g b : Z) : option Manager :=
  m <- setValue m r Red ;; m <- setValue m g Green ;; setValue m b Blue.

Definition setColor4 (m : Manager) (r g b w : Z) : option Manager :=
  m <- setValue m r Red ;; m <- setValue m g Green ;;
  m <- setValue m b Blue ;; setValue m w White.

(** [setState]: the loop over the four lights, in index order. *)
Definition setState (m : Manager) (s : State) : option Manager :=
  l0 <- Light.setState (Array4.a0 (lights m)) (Array4.a0 (values s)) ;;
  l1 <- Light.setState (Array4.a1 (lights m)) (Array4.a1 (values s)) ;;
  l2 <- Light.setState (Array4.a2 (lights m)) (Array4.a2 (values s)) ;;
  l3 <- Light.setState (Array4.a3 (lights m)) (Array4.a3 (values s)) ;;
  Some (withLights m (Array4.mk l0 l1 l2 l3)).

Definition anyOn (m : Manager) : bool := Array4.any_of Light.isOn (lights m).
Definition anyVisible (m : Manager) : bool := Array4.any_of Light.isVisible (lights m).
Definition getValue (m : Manager) (c : Color) : Z := Light.getValue (Array4.at_ (lights m) c).
Definition isOn (m : Manager) (c : Color) : bool := Light.isOn (Array4.at_ (lights m) c).

Definition getValues (m : Manager) : Array4.t Z := Array4.map Light.getValue (lights m).

Definition getState (m : Manager) : State :=
  mkState (Array4.map Light.getState (lights m)).

(** [OutputColorCallback::onWrite]: [payload] is the value written to
    the characteristic, [millis] the clock read by [millis()]. *)
Definition onWrite (m : Manager) (payload : list Z) (millis : Z) : option Manager :=
  if negb (Z.of_nat (List.length payload) =? sizeofState) then Some m
  else
    let state := State_of_bytes payload in
    m1 <- setState m state ;;
    Some {| lights := lights m1;
            colorNotificationThrottle :=
              ThrottledValue.setLastSent (colorNotificationThrottle m1) millis state |}.

(** A [for (auto& light : lights)] loop, in index order. *)
Definition forEachLight (f : Light.t -> option Light.t) (m : Manager) : option Manager :=
  l0 <- f (Array4.a0 (lights m)) ;;
  l1 <- f (Array4.a1 (lights m)) ;;
  l2 <- f (Array4.a2 (lights m)) ;;
  l3 <- f (Array4.a3 (lights m)) ;;
  Some (withLights m (Array4.mk l0 l1 l2 l3)).

(** [toggle(color)]: [setOn], then [makeVisible] when switching on. *)
Definition toggle (m : Manager) (c : Color) : option Manager :=
  let light := Array4.at_ (lights m) c in
  let on := negb (Light.isVisible light) in
  l1 <- Light.setOn light on ;;
  Some (withLights m
          (Array4.set (lights m) c (if on then Light.makeVisible l1 else l1))).

Definition toggleAll (m : Manager) : option Manager :=
  let on := anyVisible m in
  forEachLight
    (fun light =>
       if on then Light.setOn light false
       else l1 <- Light.setOn light true ;; Light.setValue l1 Light.ON_VALUE)
    m.

Definition turnOffAll (m : Manager) : option Manager :=
  forEachLight (fun light => Light.setOn light false) m.

Definition turnOnAll (m : Manager) : Manager :=
  withLights m (Array4.map Light.makeVisible (lights m)).

(** The four-flag overload of [setOn]. *)
Definition setOn4 (m : Manager) (r g b w : bool) : option Manager :=
  m <- setOn m r Red ;; m <- setOn m g Green ;;
  m <- setOn m b Blue ;; setOn m w White.

Definition setAll (m : Manager) (v : Z) (on : bool) : option Manager :=
  forEachLight (fun light => l1 <- Light.setValue light v ;; Light.setOn l1 on) m.

Section Brightness.

Variable powf : F32.t -> F32.t -> F32.t.

Definition increaseBrightness (m : Manager) : option Manager :=
  m1 <- (if negb (anyOn m) then
           forEachLight
             (fun light => Light.setState light (Light.mkState true Light.OFF_VALUE)) m
         else Some m) ;;
  forEachLight (Light.increaseBrightness powf) m1.

Definition decreaseBrightness (m : Manager) : option Manager :=
  if anyOn m then forEachLight (Light.decreaseBrightness powf) m else Some m.

End Brightness.

(** [OutputColorCallback::onRead]: the value set on the characteristic. *)
Definition onRead (m : Manager) : list Z := State_bytes (getState m).

(** [sendColorNotification].  [attached] tells whether the
    characteristic pointer is set and [notifyOk] what [notify()]
    returns; the first component is the value handed to the
    characteristic, if the call got that far. *)
Definition sendColorNotification (m : Manager) (attached notifyOk : bool) (now : Z)
  : option (list Z) * Manager :=
  if negb attached then (None, m)
  else
    let state := getState m in
    let '(send, gate) :=
      ThrottledValue.shouldSend State_eqb (colorNotificationThrottle m) now state in
    if negb send then
      (None, {| lights := lights m; colorNotificationThrottle := gate |})
    else
      (Some (State_bytes state),
       {| lights := lights m;
          colorNotificationThrottle :=
            if notifyOk then ThrottledValue.setLastSent gate now state else gate |}).

(** *** The REST handler *)

(** The query parameters of a request: each name with the number
    [value().toInt()] reads from its text. *)
Definition Request : Type := list (string * Z).

Fixpoint getParam (req : Request) (key : string) : option Z :=
  match req with
  | [] => None
  | (k, v) :: rest => if String.eqb k key then Some v else getParam rest key
  end.

Definition hasParam (req : Request) (key : string) : bool :=
  match getParam req key with Some _ => true | None => false end.

(** [extractUint8Param] of [http_manager.hh]. *)
Definition extractUint8Param (req : Request) (key : string) : option Z :=
  match getParam req key with
  | None => None
  | Some v => Some (u8 (clampZ v 0 255))
  end.

Definition value_or (o : option Z) (d : Z) : Z :=
  match o with Some v => v | None => d end.

Definition has_value (o : option Z) : bool :=
  match o with Some _ => true | None => false end.

(** [handleColorRequest]: the manager afterwards and the message sent. *)
Definition handleColorRequest (m : Manager) (req : Request) : option (Manager * string) :=
  let oldR := getValue m Red in
  let oldG := getValue m Green in
  let oldB := getValue m Blue in
  let oldW := getValue m White in
  let r := extractUint8Param req "r" in
  let g := extractUint8Param req "g" in
  let b := extractUint8Param req "b" in
  let w := extractUint8Param req "w" in
  m1 <- setColor4 m (value_or r oldR) (value_or g oldG) (value_or b oldB)
          (value_or w oldW) ;;
  m2 <- setOn4 m1 (has_value r) (has_value g) (has_value b) (has_value w) ;;
  Some (m2, "Color updated"%string).

(** The [State] that the braced list [{true, value}] initialises:
    the two initialisers fill the first channel, the other channels
    take their defaults. *)
Definition firstChannelState (v : Z) : State :=
  mkState (Array4.mk (Light.mkState true v) (Light.mkState false 0)
             (Light.mkState false 0) (Light.mkState false 0)).

Definition handleBrightnessRequest (m : Manager) (req : Request)
  : option (Manager * string) :=
  if negb (hasParam req "value") then Some (m, "Missing 'value' parameter"%string)
  else
    match extractUint8Param req "value" with
    | Some v =>
        m1 <- setState m (firstChannelState v) ;; Some (m1, "Brightness set"%string)
    | None =>
        m1 <- turnOffAll m ;; Some (m1, "Light turned off"%string)
    end.

Definition OUTPUT_COLOR : string := "/output/color".
Definition OUTPUT_BRIGHTNESS : string := "/output/brightness".

(** [handleRequest], for a request [canHandle] accepted. *)
Definition handleRequest (m : Manager) (url : string) (req : Request)
  : option (Manager * string) :=
  if String.eqb url OUTPUT_COLOR then handleColorRequest m req
  else handleBrightnessRequest m req.

End Output.

(** ** async_esp_alexa_device.hh *)

Module AsyncEspAlexaDevice.

(** *** The hardware id: [getMac24] *)

Definition hexDigit (c : ascii) : option Z :=
  let n := Z.of_nat (nat_of_ascii c) in
  if (48 <=? n) && (n <=? 57) then Some (n - 48)
  else if (97 <=? n) && (n <=? 102) then Some (n - 87)
  else if (65 <=? n) && (n <=? 70) then Some (n - 55)
  else None.

(** [strtol(s, nullptr, 16)] on a string that starts with its digits:
    the value of the longest prefix of hexadecimal digits. *)
Fixpoint strtol16_from (acc : Z) (s : string) : Z :=
  match s with
  | EmptyString => acc
  | String c r =>
      match hexDigit c with
      | Some d => strtol16_from (16 * acc + d) r
      | None => acc
      end
  end.

Definition strtol16 (s : string) : Z := strtol16_from 0 s.

(** [String::replace(":", "")] *)
Fixpoint removeColons (s : string) : string :=
  match s with
  | EmptyString => EmptyString
  | String c r =>
      if Ascii.eqb c ":"%char then removeColons r else String c (removeColons r)
  end.

Definition lowerChar (c : ascii) : ascii :=
  let n := nat_of_ascii c in
  if (Nat.leb 65 n && Nat.leb n 90)%bool then ascii_of_nat (n + 32) else c.

(** [String::toLowerCase()] *)
Fixpoint toLowerCase (s : string) : string :=
  match s with
  | EmptyString => EmptyString
  | String c r => String (lowerChar c) (toLowerCase r)
  end.

(** [getMac24], from the text [WiFi.macAddress()] returns. *)
Definition getMac24 (macAddress : string) : Z :=
  let escapedMac := toLowerCase (removeColons macAddress) in
  let macSubStr := substring 6 6 escapedMac in
  u32 (strtol16 macSubStr).

(** *** The light key *)

Definition INVALID_DEVICE_INDEX : Z := 255.

Definition encodeLightKey (macAddress : string) (idx : Z) : Z :=
  let mac24 := getMac24 macAddress in
  Z.lor (u32 (Z.shiftl mac24 7)) idx.

Definition decodeLightKey (macAddress : string) (key : Z) : Z :=
  let mac24 := getMac24 macAddress in
  if Z.shiftr key 7 =? mac24 then Z.land key 127 else INVALID_DEVICE_INDEX.

(** *** Update payloads *)

(** The part of a parsed [JsonObject] the handlers look at.
    [JInteger n] is a member for which [is<JsonInteger>()] holds,
    [JBool b] one for which [is<bool>()] holds. *)
Inductive JsonValue : Type :=
| JNull
| JBool (b : bool)
| JInteger (n : Z)
| JString (s : string).

Definition JsonObject : Type := list (string * JsonValue).

Fixpoint member (obj : JsonObject) (key : string) : JsonValue :=
  match obj with
  | [] => JNull
  | (k, v) :: rest => if String.eqb k key then v else member rest key
  end.

Definition asBool (v : JsonValue) : option bool :=
  match v with JBool b => Some b | _ => None end.

Definition asInteger (v : JsonValue) : option Z :=
  match v with JInteger n => Some n | _ => None end.

(** Conversion of an integer member to an unsigned type of [bits]
    bits: the value when it fits, 0 otherwise (ArduinoJson's rule). *)
Definition fitOrZero (bits : Z) (n : Z) : Z :=
  if (0 <=? n) && (n <? 2 ^ bits) then n else 0.

(** *** Devices *)

(** The closures this firmware installs as callbacks, by name. *)
Inductive Callback : Type :=
| HandleRgbwHsCommand
| HandleRgbwCtCommand
| HandleRgbCommand
| HandleSingleChannelCommand (color : Color).

Record Base : Type := mkBase { id : Z; name : string; on : bool }.

Record OnOff : Type := mkOnOff {
  base : Base;
  onOffCallback : option Callback
}.

Record Dimmable : Type := mkDimmable {
  onOff : OnOff;
  brightness : Z;
  brightnessCallback : option Callback
}.

Record WhiteSpectrum : Type := mkWhiteSpectrum {
  wsDimmable : Dimmable;
  wsColorTemperature : Z;
  wsCallback : option Callback
}.

Record ColorDev : Type := mkColorDev {
  cdDimmable : Dimmable;
  hue : Z;
  saturation : Z;
  colorCallback : option Callback
}.

Inductive ColorMode : Type := ct | hs.

Record ExtendedColor : Type := mkExtendedColor {
  ecDimmable : Dimmable;
  ecHue : Z;
  ecSaturation : Z;
  ecColorTemperature : Z;
  ecMode : ColorMode;
  ecColorTemperatureCallback : option Callback;
  ecColorCallback : option Callback
}.

(** The constructors, with callbacks unset and [id(0)]. *)
Definition newOnOff (name : string) (on : bool) : OnOff :=
  mkOnOff (mkBase 0 name on) None.

Definition newDimmable (name : string) (on : bool) (brightness : Z) : Dimmable :=
  mkDimmable (newOnOff name on) brightness None.

Definition newColorDev (name : string) (on : bool) (brightness hue saturation : Z)
  : ColorDev :=
  mkColorDev (newDimmable name on brightness) hue saturation None.

Definition newExtendedColor (name : string) (on : bool)
    (brightness hue saturation colorTemperature : Z) (mode : ColorMode)
  : ExtendedColor :=
  mkExtendedColor (newDimmable name on brightness) hue saturation
    colorTemperature mode None None.

(** Member updates through the hierarchy. *)
Definition Base_setOn (b : Base) (v : bool) : Base := mkBase (id b) (name b) v.
Definition Base_setId (b : Base) (i : Z) : Base := mkBase (u8 i) (name b) (on b).

Definition OnOff_mapBase (f : Base -> Base) (d : OnOff) : OnOff :=
  mkOnOff (f (base d)) (onOffCallback d).

Definition Dimmable_mapBase (f : Base -> Base) (d : Dimmable) : Dimmable :=
  mkDimmable (OnOff_mapBase f (onOff d)) (brightness d) (brightnessCallback d).

Definition Dimmable_base (d : Dimmable) : Base := base (onOff d).
Definition Dimmable_isOn (d : Dimmable) : bool := on (Dimmable_base d).
Definition Dimmable_getName (d : Dimmable) : string := name (Dimmable_base d).
Definition Dimmable_getId (d : Dimmable) : Z := id (Dimmable_base d).

Definition setBrightness (d : Dimmable) (b : Z) : Dimmable :=
  mkDimmable (onOff d) b (brightnessCallback d).

Definition setBrightnessCallback (d : Dimmable) (cb : Callback) : Dimmable :=
  mkDimmable (onOff d) (brightness d) (Some cb).

Definition ColorDev_setColor (d : ColorDev) (h s : Z) : ColorDev :=
  mkColorDev (cdDimmable d) h s (colorCallback d).

Definition ColorDev_setColorCallback (d : ColorDev) (cb : Callback) : ColorDev :=
  mkColorDev (cdDimmable d) (hue d) (saturation d) (Some cb).

Definition ExtendedColor_setColorTemperature (d : ExtendedColor) (c : Z) : ExtendedColor :=
  mkExtendedColor (ecDimmable d) (ecHue d) (ecSaturation d) c ct
    (ecColorTemperatureCallback d) (ecColorCallback d).

Definition ExtendedColor_setColor (d : ExtendedColor) (h s : Z) : ExtendedColor :=
  mkExtendedColor (ecDimmable d) h s (ecColorTemperature d) hs
    (ecColorTemperatureCallback d) (ecColorCallback d).

Definition ExtendedColor_setCallbacks (d : ExtendedColor) (cbColor cbCt : Callback)
  : ExtendedColor :=
  mkExtendedColor (ecDimmable d) (ecHue d) (ecSaturation d) (ecColorTemperature d)
    (ecMode d) (Some cbCt) (Some cbColor).

(** *** [handleStateUpdate], one definition per class *)

Definition Base_handleStateUpdate (b : Base) (obj : JsonObject) : Base :=
  match asBool (member obj "on") with
  | Some v => Base_setOn b v
  | None => b
  end.

Definition Dimmable_handleStateUpdate (d : Dimmable) (obj : JsonObject) : Dimmable :=
  let d := Dimmable_mapBase (fun b => Base_handleStateUpdate b obj) d in
  match asInteger (member obj "bri") with
  | Some n => setBrightness d (fitOrZero 8 n)
  | None => if Dimmable_isOn d then setBrightness d 254 else d
  end.

Definition WhiteSpectrum_handleStateUpdate (d : WhiteSpectrum) (obj : JsonObject)
  : WhiteSpectrum :=
  let dim := Dimmable_handleStateUpdate (wsDimmable d) obj in
  match asInteger (member obj "ct") with
  | Some n => mkWhiteSpectrum dim (fitOrZero 16 n) (wsCallback d)
  | None => mkWhiteSpectrum dim (wsColorTemperature d) (wsCallback d)
  end.

Definition ColorDev_handleStateUpdate (d : ColorDev) (obj : JsonObject) : ColorDev :=
  let d := mkColorDev (Dimmable_handleStateUpdate (cdDimmable d) obj)
             (hue d) (saturation d) (colorCallback d) in
  match asInteger (member obj "hue"), asInteger (member obj "sat") with
  | Some h, Some s => ColorDev_setColor d (fitOrZero 16 h) (fitOrZero 8 s)
  | _, _ => d
  end.

Definition ExtendedColor_handleStateUpdate (d : ExtendedColor) (obj : JsonObject)
  : ExtendedColor :=
  let d := mkExtendedColor (Dimmable_handleStateUpdate (ecDimmable d) obj)
             (ecHue d) (ecSaturation d) (ecColorTemperature d) (ecMode d)
             (ecColorTemperatureCallback d) (ecColorCallback d) in
  let d := match asInteger (member obj "ct") with
           | Some n => ExtendedColor_setColorTemperature d (fitOrZero 16 n)
           | None => d
           end in
  match asInteger (member obj "hue"), asInteger (member obj "sat") with
  | Some h, Some s => ExtendedColor_setColor d (fitOrZero 16 h) (fitOrZero 8 s)
  | _, _ => d
  end.

(** A device of any class, as the manager's vector of base pointers holds it. *)
Inductive Device : Type :=
| DOnOff (d : OnOff)
| DDimmable (d : Dimmable)
| DWhiteSpectrum (d : WhiteSpectrum)
| DColor (d : ColorDev)
| DExtendedColor (d : ExtendedColor).

Definition Device_mapBase (f : Base -> Base) (d : Device) : Device :=
  match d with
  | DOnOff x => DOnOff (OnOff_mapBase f x)
  | DDimmable x => DDimmable (Dimmable_mapBase f x)
  | DWhiteSpectrum x =>
      DWhiteSpectrum (mkWhiteSpectrum (Dimmable_mapBase f (wsDimmable x))
                        (wsColorTemperature x) (wsCallback x))
  | DColor x =>
      DColor (mkColorDev (Dimmable_mapBase f (cdDimmable x))
                (hue x) (saturation x) (colorCallback x))
  | DExtendedColor x =>
      DExtendedColor
        (mkExtendedColor (Dimmable_mapBase f (ecDimmable x)) (ecHue x)
           (ecSaturation x) (ecColorTemperature x) (ecMode x)
           (ecColorTemperatureCallback x) (ecColorCallback x))
  end.

Definition Device_base (d : Device) : Base :=
  match d with
  | DOnOff x => base x
  | DDimmable x => Dimmable_base x
  | DWhiteSpectrum x => Dimmable_base (wsDimmable x)
  | DColor x => Dimmable_base (cdDimmable x)
  | DExtendedColor x => Dimmable_base (ecDimmable x)
  end.

(** The virtual call [device->handleStateUpdate(obj)]. *)
Definition handleStateUpdate (d : Device) (obj : JsonObject) : Device :=
  match d with
  | DOnOff x => DOnOff (OnOff_mapBase (fun b => Base_handleStateUpdate b obj) x)
  | DDimmable x => DDimmable (Dimmable_handleStateUpdate x obj)
  | DWhiteSpectrum x => DWhiteSpectrum (WhiteSpectrum_handleStateUpdate x obj)
  | DColor x => DColor (ColorDev_handleStateUpdate x obj)
  | DExtendedColor x => DExtendedColor (ExtendedColor_handleStateUpdate x obj)
  end.

End AsyncEspAlexaDevice.

(** ** async_esp_alexa_manager.hh *)

Module AsyncEspAlexaManager.

(** The vector of devices; a device pointer is its position here. *)
Record t : Type := mk { devices : list AsyncEspAlexaDevice.Device }.

Definition empty : t := mk [].

(** [addDevice]: [setId(devices.size())], then [emplace_back]. *)
Definition addDevice (m : t) (d : AsyncEspAlexaDevice.Device) : t :=
  let i := Z.of_nat (List.length (devices m)) in
  mk (devices m ++
      [AsyncEspAlexaDevice.Device_mapBase
         (fun b => AsyncEspAlexaDevice.Base_setId b i) d]).

Definition deleteAllDevices (m : t) : t := mk [].

(** Assignment through the device pointer at position [i]. *)
Fixpoint updateAt (i : nat) (f : AsyncEspAlexaDevice.Device -> AsyncEspAlexaDevice.Device)
    (l : list AsyncEspAlexaDevice.Device) : list AsyncEspAlexaDevice.Device :=
  match l, i with
  | [], _ => []
  | d :: rest, O => f d :: rest
  | d :: rest, S k => d :: updateAt k f rest
  end.

End AsyncEspAlexaManager.

(** ** alexa_integration.hh *)

Module AlexaIntegration.

Import AsyncEspAlexaDevice.

Definition MAX_DEVICE_NAME_LENGTH : nat := 32.

Inductive Mode : Type := OFF | RGBW_DEVICE | RGB_DEVICE | MULTI_DEVICE.

(** [Settings]: the mode and four fixed buffers of 32 characters. *)
Record Settings : Type := mkSettings {
  integrationMode : Mode;
  deviceNames : Array4.t (list ascii)
}.

Definition NUL : ascii := zero.

(** A [String] built from a [const char] pointer: the characters up
    to the first NUL.  [mem] is the memory from the pointer on, not
    only the buffer the pointer belongs to; a memory that holds no
    NUL is read to its end. *)
Fixpoint c_str (mem : list ascii) : string :=
  match mem with
  | [] => EmptyString
  | c :: rest => if Ascii.eqb c NUL then EmptyString else String c (c_str rest)
  end.

(** [buf[0] == '\0'] *)
Definition emptyName (buf : list ascii) : bool :=
  match buf with
  | [] => true
  | c :: _ => Ascii.eqb c NUL
  end.

(** What [loadPreferences] leaves in a name buffer:
    [strncpy(buf, s, 31)] into the zeroed buffer, then [buf[31] = 0]. *)
Definition nameBuffer (s : string) : list ascii :=
  let chars := firstn (MAX_DEVICE_NAME_LENGTH - 1) (list_ascii_of_string s) in
  chars ++ repeat NUL (MAX_DEVICE_NAME_LENGTH - List.length chars).

(** The [ModeDevice] union is four pointer-sized words; a pointer is
    the position of the device in the manager's vector, [None] is
    [nullptr].  [rgbw.device], [rgb.rgbDevice] and [multi.devices[0]]
    share the first word, [rgb.standaloneDevice] and
    [multi.devices[1]] the second. *)
Definition ModeDevice : Type := Array4.t (option nat).

Definition noDevices : ModeDevice := Array4.mk None None None None.

(** The word each named member of the union occupies. *)
Definition rgbw_device : Color := Red.
Definition rgb_rgbDevice : Color := Red.
Definition rgb_standaloneDevice : Color := Green.

Record t : Type := mk {
  outputManager : Output.Manager;
  espAlexaManager : AsyncEspAlexaManager.t;
  settings : Settings;
  devices : ModeDevice
}.

Definition withDevices (a : t) (mgr : AsyncEspAlexaManager.t) (d : ModeDevice) : t :=
  {| outputManager := outputManager a; espAlexaManager := mgr;
     settings := settings a; devices := d |}.

Definition nextPointer (a : t) : nat :=
  List.length (AsyncEspAlexaManager.devices (espAlexaManager a)).

Definition clearDevices (a : t) : t :=
  withDevices a (AsyncEspAlexaManager.deleteAllDevices (espAlexaManager a)) noDevices.

Section Setup.

(** The four bytes of the address that [new] returned for the device
    at a position of the vector. *)
Variable addressBytes : nat -> list ascii.

(** The bytes of one pointer of [devices]; pointers are 32 bits wide. *)
Definition wordBytes (w : option nat) : list ascii :=
  match w with
  | None => repeat NUL 4
  | Some p => addressBytes p
  end.

(** The memory from [settings.deviceNames[i].data()] on: the rest of
    the names, which are packed, then [devices], which follows the
    settings in the object without padding. *)
Definition memoryAt (a : t) (i : Color) : list ascii :=
  let names := deviceNames (settings a) in
  match i with
  | Red => Array4.a0 names ++ Array4.a1 names ++ Array4.a2 names ++ Array4.a3 names
  | Green => Array4.a1 names ++ Array4.a2 names ++ Array4.a3 names
  | Blue => Array4.a2 names ++ Array4.a3 names
  | White => Array4.a3 names
  end ++ flat_map wordBytes (Array4.to_list (devices a)).

Definition setupRgbwDevice (a : t) : t :=
  let deviceName := c_str (memoryAt a Red) in
  let om := outputManager a in
  let '(h, s, v) :=
    AsyncEspAlexaColorUtils.rgbwToHsv (Output.getValue om Red) (Output.getValue om Green)
      (Output.getValue om Blue) (Output.getValue om White) in
  let on := Output.anyOn om in
  let device := newExtendedColor deviceName on v h s 500 hs in
  let p := nextPointer a in
  let mgr := AsyncEspAlexaManager.addDevice (espAlexaManager a)
               (DExtendedColor
                  (ExtendedColor_setCallbacks device
                     HandleRgbwHsCommand HandleRgbwCtCommand)) in
  withDevices a mgr (Array4.set (devices a) rgbw_device (Some p)).

Definition setupRgbDevice (a : t) : t :=
  if emptyName (Array4.a0 (deviceNames (settings a))) then a
  else
    let om := outputManager a in
    let vals := Output.getValues om in
    let on := Output.isOn om Red || Output.isOn om Green || Output.isOn om Blue in
    let '(h, s, v) :=
      AsyncEspAlexaColorUtils.rgbToHsv (Array4.a0 vals) (Array4.a1 vals) (Array4.a2 vals) in
    let device := newColorDev (c_str (memoryAt a Red)) on v h s in
    let p := nextPointer a in
    let mgr := AsyncEspAlexaManager.addDevice (espAlexaManager a)
                 (DColor (ColorDev_setColorCallback device HandleRgbCommand)) in
    withDevices a mgr (Array4.set (devices a) rgb_rgbDevice (Some p)).

(** [createSingleChannelDevice(settings.deviceNames[i].data(), color)]:
    [None] is the [nullptr] result. *)
Definition createSingleChannelDevice (a : t) (i : Color) (color : Color)
  : option Dimmable :=
  if emptyName (Array4.at_ (deviceNames (settings a)) i) then None
  else
    let value := Output.getValue (outputManager a) color in
    let on := Output.isOn (outputManager a) color in
    let device := newDimmable (c_str (memoryAt a i)) on value in
    Some (setBrightnessCallback device (HandleSingleChannelCommand color)).

(** [if (device) espAlexaManager.addDevice(device)], giving the pointer. *)
Definition addIfCreated (mgr : AsyncEspAlexaManager.t) (d : option Dimmable)
  : AsyncEspAlexaManager.t * option nat :=
  match d with
  | Some dev =>
      (AsyncEspAlexaManager.addDevice mgr (DDimmable dev),
       Some (List.length (AsyncEspAlexaManager.devices mgr)))
  | None => (mgr, None)
  end.

Definition setupStandaloneDevice (a : t) : t :=
  let created := createSingleChannelDevice a White White in
  let '(mgr, p) := addIfCreated (espAlexaManager a) created in
  withDevices a mgr (Array4.set (devices a) rgb_standaloneDevice p).

Definition setupMultiDevice (a : t) : t :=
  let rDevice := createSingleChannelDevice a Red Red in
  let gDevice := createSingleChannelDevice a Green Green in
  let bDevice := createSingleChannelDevice a Blue Blue in
  let wDevice := createSingleChannelDevice a White White in
  let '(mgr, pr) := addIfCreated (espAlexaManager a) rDevice in
  let '(mgr, pg) := addIfCreated mgr gDevice in
  let '(mgr, pb) := addIfCreated mgr bDevice in
  let '(mgr, pw) := addIfCreated mgr wDevice in
  withDevices a mgr (Array4.mk pr pg pb pw).

Definition setupDevices (a : t) : t :=
  match integrationMode (settings a) with
  | OFF => a
  | RGBW_DEVICE => setupRgbwDevice a
  | RGB_DEVICE => setupStandaloneDevice (setupRgbDevice a)
  | MULTI_DEVICE => setupMultiDevice a
  end.

(** [applySettings], without the write to the preference store. *)
Definition applySettings (a : t) (s : Settings) : t :=
  let a := {| outputManager := outputManager a; espAlexaManager := espAlexaManager a;
              settings := s; devices := devices a |} in
  setupDevices (clearDevices a).

End Setup.

(** A name buffer that holds a NUL: the string read from its start
    ends inside the buffer. *)
Definition terminated (buf : list ascii) : bool :=
  existsb (fun c => Ascii.eqb c NUL) buf.

(** The registered devices. *)
Definition registry (a : t) : list Device :=
  AsyncEspAlexaManager.devices (espAlexaManager a).

(** What [addDevice] stores for a device added at position [i]. *)
Definition registered (i : Z) (d : Device) : Device :=
  Device_mapBase (fun b => Base_setId b i) d.

(** The colour device [setupRgbDevice] builds from the output manager
    when the red name ends inside its buffer. *)
Definition rgbDeviceOf (a : t) : Device :=
  let om := outputManager a in
  let vals := Output.getValues om in
  let '(h, s, v) :=
    AsyncEspAlexaColorUtils.rgbToHsv (Array4.a0 vals) (Array4.a1 vals) (Array4.a2 vals) in
  DColor (ColorDev_setColorCallback
            (newColorDev (c_str (Array4.a0 (deviceNames (settings a))))
               (Output.isOn om Red || Output.isOn om Green || Output.isOn om Blue) v h s)
            HandleRgbCommand).

(** The dimmable device [setupStandaloneDevice] builds for white when
    the white name ends inside its buffer. *)
Definition whiteDeviceOf (a : t) : Device :=
  DDimmable (setBrightnessCallback
               (newDimmable (c_str (Array4.a3 (deviceNames (settings a))))
                  (Output.isOn (outputManager a) White)
                  (Output.getValue (outputManager a) White))
               (HandleSingleChannelCommand White)).

(** The end-to-end scenario: names ["Kitchen", "", "", "Lamp"]. *)
Definition kitchenLamp : Settings :=
  mkSettings RGB_DEVICE
    (Array4.mk (nameBuffer "Kitchen") (nameBuffer "") (nameBuffer "") (nameBuffer "Lamp")).

Definition isColorDevice (d : Device) : bool :=
  match d with DColor _ => true | _ => false end.

Definition isDimmableDevice (d : Device) : bool :=
  match d with DDimmable _ => true | _ => false end.

(** *** Commands: from a device callback to the output manager *)

(** The duty a single-channel command writes for an Alexa brightness:
    [brightness < 128 ? brightness : brightness + 1], as a byte. *)
Definition channelValueOf (brightness : Z) : Z :=
  u8 (if brightness <? 128 then brightness else brightness + 1).

Definition handleSingleChannelCommand (om : Output.Manager) (color : Color)
    (isOn : bool) (brightness : Z) : option Output.Manager :=
  om <- Output.setOn om isOn color ;;
  Output.setValue om (channelValueOf brightness) color.

Definition handleRgbCommand (om : Output.Manager) (isOn : bool)
    (brightness hue saturation : Z) : option Output.Manager :=
  let '(r, g, b) := AsyncEspAlexaColorUtils.hsvToRgb hue saturation brightness in
  om <- Output.setColor3 om r g b ;;
  om <- Output.setOn om isOn Red ;;
  om <- Output.setOn om isOn Green ;;
  Output.setOn om isOn Blue.

(** The hue/saturation overload of [handleRgbwCommand]. *)
Definition handleRgbwCommandHs (om : Output.Manager) (isOn : bool)
    (brightness hue saturation : Z) : option Output.Manager :=
  let '(r, g, b, w) := AsyncEspAlexaColorUtils.hsvToRgbw hue saturation brightness in
  om <- Output.setColor4 om r g b w ;;
  om <- Output.setOn om isOn Red ;;
  om <- Output.setOn om isOn Green ;;
  om <- Output.setOn om isOn Blue ;;
  Output.setOn om isOn White.

Section Dispatch.

Variable logf : F32.t -> F32.t.
Variable powf : F32.t -> F32.t -> F32.t.

(** The colour-temperature overload of [handleRgbwCommand]. *)
Definition handleRgbwCommandCt (om : Output.Manager) (isOn : bool)
    (brightness colorTemperature : Z) : option Output.Manager :=
  let '(r, g, b, w) :=
    AsyncEspAlexaColorUtils.ctToRgbw logf powf brightness colorTemperature in
  om <- Output.setColor4 om r g b w ;;
  om <- Output.setOn om isOn Red ;;
  om <- Output.setOn om isOn Green ;;
  om <- Output.setOn om isOn Blue ;;
  Output.setOn om isOn White.

(** A callback slot holds a closure of its own signature; a slot that
    is empty calls nothing. *)
Definition callBrightnessCallback (cb : option Callback) (om : Output.Manager)
    (isOn : bool) (brightness : Z) : option Output.Manager :=
  match cb with
  | Some (HandleSingleChannelCommand color) =>
      handleSingleChannelCommand om color isOn brightness
  | _ => Some om
  end.

Definition callColorCallback (cb : option Callback) (om : Output.Manager)
    (isOn : bool) (brightness hue saturation : Z) : option Output.Manager :=
  match cb with
  | Some HandleRgbCommand => handleRgbCommand om isOn brightness hue saturation
  | Some HandleRgbwHsCommand => handleRgbwCommandHs om isOn brightness hue saturation
  | _ => Some om
  end.

Definition callColorTemperatureCallback (cb : option Callback) (om : Output.Manager)
    (isOn : bool) (brightness colorTemperature : Z) : option Output.Manager :=
  match cb with
  | Some HandleRgbwCtCommand => handleRgbwCommandCt om isOn brightness colorTemperature
  | _ => Some om
  end.

(** [AsyncEspAlexaDimmableDevice::callAfterStateUpdateCallback]: the
    on/off callback, which nothing in this firmware installs, then the
    brightness callback. *)
Definition Dimmable_callAfter (d : Dimmable) (om : Output.Manager)
  : option Output.Manager :=
  callBrightnessCallback (brightnessCallback d) om (Dimmable_isOn d) (brightness d).

(** The virtual call [device->callAfterStateUpdateCallback()]. *)
Definition callAfterStateUpdateCallback (d : Device) (om : Output.Manager)
  : option Output.Manager :=
  match d with
  | DOnOff _ => Some om
  | DDimmable x => Dimmable_callAfter x om
  | DWhiteSpectrum x =>
      om <- Dimmable_callAfter (wsDimmable x) om ;;
      callColorTemperatureCallback (wsCallback x) om (Dimmable_isOn (wsDimmable x))
        (brightness (wsDimmable x)) (wsColorTemperature x)
  | DColor x =>
      om <- Dimmable_callAfter (cdDimmable x) om ;;
      callColorCallback (colorCallback x) om (Dimmable_isOn (cdDimmable x))
        (brightness (cdDimmable x)) (hue x) (saturation x)
  | DExtendedColor x =>
      om <- Dimmable_callAfter (ecDimmable x) om ;;
      om <- match ecMode x with
            | ct =>
                callColorTemperatureCallback (ecColorTemperatureCallback x) om
                  (Dimmable_isOn (ecDimmable x)) (brightness (ecDimmable x))
                  (ecColorTemperature x)
            | hs => Some om
            end ;;
      match ecMode x with
      | hs =>
          callColorCallback (ecColorCallback x) om (Dimmable_isOn (ecDimmable x))
            (brightness (ecDimmable x)) (ecHue x) (ecSaturation x)
      | ct => Some om
      end
  end.

End Dispatch.

(** *** State publication *)

(** [updateDevice]: a dimmable device mirrors one channel. *)
Definition updateDevice (d : Dimmable) (s : Output.State) (color : Color) : Dimmable :=
  let brightness :=
    clampZ (Output.State_getValue s color)
      AsyncEspAlexaColorUtils.ALEXA_MIN_BRI_VAL AsyncEspAlexaColorUtils.ALEXA_MAX_BRI_VAL in
  setBrightness
    (Dimmable_mapBase (fun b => Base_setOn b (Output.State_isOn s color)) d)
    brightness.

(** The body of [updateRgbDevice], on the colour device. *)
Definition updateColorDevice (d : ColorDev) (s : Output.State) : ColorDev :=
  let '(h, sat, v) :=
    AsyncEspAlexaColorUtils.rgbToHsv (Output.State_getValue s Red)
      (Output.State_getValue s Green) (Output.State_getValue s Blue) in
  let on := Output.State_isOn s Red || Output.State_isOn s Green
            || Output.State_isOn s Blue in
  let d := mkColorDev (Dimmable_mapBase (fun b => Base_setOn b on) (cdDimmable d))
             (hue d) (saturation d) (colorCallback d) in
  let d := ColorDev_setColor d h sat in
  mkColorDev (setBrightness (cdDimmable d) v) (hue d) (saturation d) (colorCallback d).

End AlexaIntegration.

(** ** async_esp_alexa_web_handler.hh *)

Module AsyncEspAlexaWebHandler.

Import AsyncEspAlexaDevice.

(** What a request is answered with. *)
Inductive Response : Type :=
| ListDevices
| DeviceState (idx : nat)
| Success (devId : Z)
| Registered
| NotFound
| NoResponse.

(** [handleLightsRequest]: [devId] is the number read from the URL
    after ["lights/"]. *)
Definition handleLightsRequest (devices : list Device) (macAddress : string) (devId : Z)
  : Response :=
  if devId =? 0 then ListDevices
  else
    let idx := decodeLightKey macAddress (u32 devId) in
    if idx <? Z.of_nat (List.length devices) then DeviceState (Z.to_nat idx)
    else NotFound.

Section Put.

Variable logf : F32.t -> F32.t.
Variable powf : F32.t -> F32.t -> F32.t.

(** [handleRequestWithBody] once the body has parsed to [obj];
    [stateUrl] says whether the URL contains ["state"].  The
    before-update callback, which nothing in this firmware sets,
    calls nothing. *)
Definition handleRequestWithBody (a : AlexaIntegration.t) (macAddress : string)
    (stateUrl : bool) (devId : Z) (obj : JsonObject)
  : option (AlexaIntegration.t * Response) :=
  match member obj "devicetype" with
  | JString _ => Some (a, Registered)
  | _ =>
      if stateUrl then
        let devices := AlexaIntegration.registry a in
        let idx := decodeLightKey macAddress (u32 devId) in
        if Z.of_nat (List.length devices) <=? idx then Some (a, NotFound)
        else
          match nth_error devices (Z.to_nat idx) with
          | None => Some (a, NotFound)
          | Some dev =>
              let dev' := handleStateUpdate dev obj in
              om <- AlexaIntegration.callAfterStateUpdateCallback logf powf dev'
                      (AlexaIntegration.outputManager a) ;;
              Some ({| AlexaIntegration.outputManager := om;
                       AlexaIntegration.espAlexaManager :=
                         AsyncEspAlexaManager.mk
                           (AsyncEspAlexaManager.updateAt (Z.to_nat idx)
                              (fun _ => dev') devices);
                       AlexaIntegration.settings := AlexaIntegration.settings a;
                       AlexaIntegration.devices := AlexaIntegration.devices a |},
                    Success (u32 devId))
          end
      else Some (a, NoResponse)
  end.

End Put.

End AsyncEspAlexaWebHandler.

(** ** esp_now_handler_controller.hh *)

Module EspNow.

Definition NAME_TOTAL_LENGTH : nat := 24.
Definition MAC_SIZE : nat := 6.

(** Element-wise [std::array] comparison. *)
Fixpoint array_eqb {A} (eqA : A -> A -> bool) (x y : list A) : bool :=
  match x, y with
  | [], [] => true
  | a :: x', b :: y' => eqA a b && array_eqb eqA x' y'
  | _, _ => false
  end.

(** [Device]: a name buffer of 24 characters and an address of 6 bytes. *)
Record Device : Type := mkDevice {
  name : list ascii;
  address : list Z
}.

(** [operator==] *)
Definition Device_eq (d other : Device) : bool :=
  array_eqb Ascii.eqb (name d) (name other)
  && array_eqb Z.eqb (address d) (address other).

(** [operator!=] *)
Definition Device_ne (d other : Device) : bool :=
  negb (array_eqb Ascii.eqb (name d) (name other))
  && negb (array_eqb Z.eqb (address d) (address other)).

(** A well-formed record: the buffers have their declared sizes. *)
Definition wellFormed (d : Device) : Prop :=
  List.length (name d) = NAME_TOTAL_LENGTH /\ List.length (address d) = MAC_SIZE.

(** A record from a name and an address, the name padded with NULs. *)
Definition device (n : string) (addr : list Z) : Device :=
  let chars := firstn (NAME_TOTAL_LENGTH - 1) (list_ascii_of_string n) in
  mkDevice (chars ++ repeat zero (NAME_TOTAL_LENGTH - List.length chars)) addr.

End EspNow.

(** ** esp_now_handler_controller.hh: the paired remotes *)

Module ControllerHandler.

Definition MAX_DEVICES_PER_MESSAGE : Z := 10.

(** [sizeof(Device)]: 24 name bytes and 6 address bytes, packed. *)
Definition sizeofDevice : nat := (EspNow.NAME_TOTAL_LENGTH + EspNow.MAC_SIZE)%nat.

(** [DeviceData]: a count and an array of ten records. *)
Record DeviceData : Type := mkDeviceData {
  deviceCount : Z;
  devices : list EspNow.Device
}.

(** A value-initialised record and the value-initialised [DeviceData]. *)
Definition zeroDevice : EspNow.Device :=
  EspNow.mkDevice (repeat zero EspNow.NAME_TOTAL_LENGTH) (repeat 0 EspNow.MAC_SIZE).

Definition emptyData : DeviceData :=
  mkDeviceData 0 (repeat zeroDevice (Z.to_nat MAX_DEVICES_PER_MESSAGE)).

(** A [char] seen as a byte, and back. *)
Definition byteOf (c : ascii) : Z := Z.of_nat (nat_of_ascii c).
Definition charOf (b : Z) : ascii := ascii_of_nat (Z.to_nat b).

(** [std::equal(address.begin(), address.end(), mac)]: the six bytes
    at [mac] against the address. *)
Definition addressIs (mac : list Z) (d : EspNow.Device) : bool :=
  EspNow.array_eqb Z.eqb (EspNow.address d) (firstn EspNow.MAC_SIZE mac).

(** The loop [for (i = 0; i < deviceCount; ++i)] over [devices[i]],
    returning at the first record that satisfies [p].  The array
    holds ten records; the loop of the model ends with the array. *)
Fixpoint firstAmong (n : nat) (ds : list EspNow.Device) (p : EspNow.Device -> bool)
  : option EspNow.Device :=
  match n, ds with
  | S k, d :: rest => if p d then Some d else firstAmong k rest p
  | _, _ => None
  end.

Definition isMacAllowed (data : DeviceData) (mac : list Z) : bool :=
  match firstAmong (Z.to_nat (deviceCount data)) (devices data) (addressIs mac) with
  | Some _ => true
  | None => false
  end.

Definition findDeviceByMac (data : DeviceData) (mac : list Z) : option EspNow.Device :=
  firstAmong (Z.to_nat (deviceCount data)) (devices data) (addressIs mac).

(** The bytes of one record, as laid out in memory. *)
Definition deviceBytes (d : EspNow.Device) : list Z :=
  map byteOf (EspNow.name d) ++ EspNow.address d.

(** [getDevicesBuffer]: the count, then every record of the array. *)
Definition getDevicesBuffer (data : DeviceData) : list Z :=
  deviceCount data :: flat_map deviceBytes (devices data).

(** [len] bytes of [data] from [offset]. *)
Definition bytesAt (data : list Z) (offset len : nat) : list Z :=
  firstn len (skipn offset data).

(** The record the two [copy_n] calls read at index [i]. *)
Definition deviceAt (data : list Z) (i : nat) : EspNow.Device :=
  let offset := (1 + i * sizeofDevice)%nat in
  EspNow.mkDevice
    (map charOf (bytesAt data offset EspNow.NAME_TOTAL_LENGTH))
    (bytesAt data (offset + EspNow.NAME_TOTAL_LENGTH) EspNow.MAC_SIZE).

(** [setDevicesBuffer(data, length)] followed by the assignment of
    [setDeviceData]; [data] holds the [length] bytes written. *)
Definition setDevicesBuffer (current : DeviceData) (data : list Z) : DeviceData :=
  let length := Z.of_nat (List.length data) in
  if length <? 1 then current
  else
    let count := nth 0 data 0 in
    let expectedSize := 1 + count * Z.of_nat sizeofDevice in
    if length <? expectedSize then current
    else
      let newCount := Z.min count MAX_DEVICES_PER_MESSAGE in
      mkDeviceData newCount
        (map (fun i => if Z.of_nat i <? newCount then deviceAt data i else zeroDevice)
             (seq 0 (Z.to_nat MAX_DEVICES_PER_MESSAGE))).

End ControllerHandler.

(** ** controller.cpp: packets from a remote *)

Module Controller.

Section Receive.

Variable powf : F32.t -> F32.t -> F32.t.

(** [onEspNowMessage]: the switch over [message->type], a byte; a
    byte that is no enumerator matches no case. *)
Definition onEspNowMessage (om : Output.Manager) (type : Z) : option Output.Manager :=
  match type with
  | 0 => Output.toggle om Red
  | 1 => Output.toggle om Green
  | 2 => Output.toggle om Blue
  | 3 => Output.toggle om White
  | 4 => Output.toggleAll om
  | 5 => Output.turnOffAll om
  | 6 => Some (Output.turnOnAll om)
  | 7 => Output.increaseBrightness powf om
  | 8 => Output.decreaseBrightness powf om
  | _ => Some om
  end.

Definition sizeofMessage : Z := 1.

(** [onDataReceived]: [mac] is the sender's address, [data] the
    [data_len] bytes received. *)
Definition onDataReceived (remotes : ControllerHandler.DeviceData) (om : Output.Manager)
    (mac : list Z) (data : list Z) : option Output.Manager :=
  if negb (ControllerHandler.isMacAllowed remotes mac) then Some om
  else if negb (Z.of_nat (List.length data) =? sizeofMessage) then Some om
  else onEspNowMessage om (nth 0 data 0).

End Receive.

End Controller.

(** ** websocket_handler.hh: the colour message *)

Module WebSocket.

(** [Message::Type::ON_COLOR] *)
Definition ON_COLOR : Z := 3.

(** [sizeof(ColorMessage)]: the type byte and the packed state. *)
Definition sizeofColorMessage : Z := 1 + Output.sizeofState.

(** The bytes of [ColorMessage(state)]. *)
Definition ColorMessage_bytes (s : Output.State) : list Z :=
  ON_COLOR :: Output.State_bytes s.

(** What became of a message handed to [sendThrottledMessage]. *)
Inductive Sent : Type :=
| NotSent
| ToClient (bytes : list Z)
| ToAll (bytes : list Z).

Section Throttled.

Variable T : Type.
Variable eqT : T -> T -> bool.
Variable bytesOf : T -> list Z.

(** [sendThrottledMessage].  [client] tells whether a client pointer
    was given, [enqueued] whether [binaryAll] returns [ENQUEUED]. *)
Definition sendThrottledMessage (state : T) (throttle : ThrottledValue.t T) (now : Z)
    (client enqueued : bool) : Sent * ThrottledValue.t T :=
  let '(send, throttle) := ThrottledValue.shouldSend eqT throttle now state in
  if negb send && negb client then (NotSent, throttle)
  else if client then (ToClient (bytesOf state), throttle)
  else if enqueued then
    (ToAll (bytesOf state), ThrottledValue.setLastSent throttle now state)
  else (ToAll (bytesOf state), throttle).

End Throttled.

(** The members of [Handler] the colour messages use. *)
Record Handler : Type := mkHandler {
  outputManager : Output.Manager;
  outputThrottle : ThrottledValue.t Output.State
}.

(** The constructor's [outputThrottle{200}]. *)
Definition makeHandler (om : Output.Manager) : Handler :=
  mkHandler om (ThrottledValue.make Output.defaultState 200).

(** [sendOutputColorMessage] *)
Definition sendOutputColorMessage (h : Handler) (now : Z) (client enqueued : bool)
  : Sent * Handler :=
  let '(sent, throttle) :=
    sendThrottledMessage Output.State Output.State_eqb ColorMessage_bytes
      (Output.getState (outputManager h)) (outputThrottle h) now client enqueued in
  (sent, mkHandler (outputManager h) throttle).

(** [handleColorMessage]: [data] is the frame received, [millis] the
    clock read by [millis()]. *)
Definition handleColorMessage (h : Handler) (data : list Z) (millis : Z) : option Handler :=
  if Z.of_nat (List.length data) <? sizeofColorMessage then Some h
  else
    let state := Output.State_of_bytes (skipn 1 data) in
    let throttle := ThrottledValue.setLastSent (outputThrottle h) millis state in
    om <- Output.setState (outputManager h) state ;;
    Some (mkHandler om throttle).

End WebSocket.

(** * Checks by evaluation *)

Module Checks.

Import AsyncEspAlexaColorUtils.

(** [unit255] keeps the order of the 8-bit inputs. *)
Definition unit255_order_at (a b : Z) : bool :=
  Bool.eqb (F32.ltb (unit255 a) (unit255 b)) (a <? b).

Definition unit255_order_row (a : Z) : bool :=
  forall_below 256 (unit255_order_at a).

(** For a maximum [M] and a minimum [m <= M]: the scaled saturation
    truncates into [0, 254] and the cast keeps it. *)
Definition inRange254 (z : Z) : bool := (0 <=? z) && (z <=? 254).

Definition satRange_at (M m : Z) : bool :=
  if M <? m then true
  else inRange254
         (F32.trunc (satScaled (unit255 M) (F32.sub (unit255 M) (unit255 m)))).

Definition satRange_row (M : Z) : bool := forall_below 256 (satRange_at M).

(** For a maximum [M]: the scaled value truncates into [0, 254]. *)
Definition valRange_at (M : Z) : bool :=
  inRange254 (F32.trunc (valScaled (unit255 M))).

(** Grey inputs have hue 0. *)
Definition greyHue_at (c : Z) : bool := fst (fst (rgbToHsv c c c)) =? 0.

End Checks.

(** * Further checks by evaluation *)

Module ColourChecks.

Import AsyncEspAlexaColorUtils.

(** Conversion of bytes to [float] keeps their order. *)
Definition byte_order_at (a b : Z) : bool :=
  Bool.eqb (F32.ltb (FZ a) (FZ b)) (a <? b).

Definition byte_order_row (a : Z) : bool := forall_below 256 (byte_order_at a).

(** The difference of two bytes is exact in [float]. *)
Definition byte_absdiff_at (a b : Z) : bool :=
  F32.same (F32.abs (F32.sub (FZ a) (FZ b))) (FZ (Z.abs (a - b))).

Definition byte_absdiff_row (a : Z) : bool := forall_below 256 (byte_absdiff_at a).

(** A byte against the default chroma threshold. *)
Definition byte_threshold_at (d : Z) : bool :=
  Bool.eqb (F32.leb (FZ d) defaultChromaDiff) (d <=? 20).

(** A byte converted to [float] and back, and its test against zero. *)
Definition byte_cast_at (c : Z) : bool :=
  (F32.to_u8 (FZ c) =? c) && Bool.eqb (F32.eqb (FZ c) F32.zero) (c =? 0)
  && (F32.to_u8 (F32.clamp (FZ c) (FZ RGB_MIN_VAL) (FZ RGB_MAX_VAL)) =? c).

(** The value component, against its integer formula. *)
Definition valExact_at (M : Z) : bool :=
  valOf (unit255 M) =? Z.max 1 (254 * M / 255).

(** The saturation component is the integer quotient or one less. *)
Definition satExact_at (M m : Z) : bool :=
  if M <? m then true
  else
    let s := satOf (unit255 M) (F32.sub (unit255 M) (unit255 m)) in
    let e := if M =? 0 then 0 else 254 * (M - m) / M in
    (e - 1 <=? s) && (s <=? e).

Definition satExact_row (M : Z) : bool := forall_below 256 (satExact_at M).

(** With no saturation [hsToRgb] is white for every hue. *)
Definition hsWhite_at (hue : Z) : bool :=
  let '(r, g, b) := hsToRgb hue 0 in
  (r =? 255) && (g =? 255) && (b =? 255).

(** A channel scaled by the factor of value 0 is 0. *)
Definition scaleZero_at (c : Z) : bool :=
  scaleChannel c (F32.div (FZ 0) (FZ (ALEXA_MAX_BRI_VAL - ALEXA_MIN_BRI_VAL))) =? 0.

(** The kelvin value of a 16-bit mired count is a number. *)
Definition kelvinNumber_at (ct : Z) : bool :=
  negb (F32.is_nan (F32.div (FZ 1000000) (FZ ct))).

(** Full red scaled by a brightness gives the brightness. *)
Definition redScale_at (b : Z) : bool :=
  F32.to_u8 (F32.mul (FZ RGB_MAX_VAL) (F32.div (FZ b) (FZ RGB_MAX_VAL))) =? b.

End ColourChecks.

(** * Properties *)

(** ** Integers *)

Lemma wrap_range (bits z : Z) : 0 <= bits -> 0 <= wrap bits z < 2 ^ bits.
Proof.
  intros Hb. unfold wrap. apply Z.mod_pos_bound. apply Z.pow_pos_nonneg; lia.
Qed.

Lemma u8_range (z : Z) : 0 <= u8 z <= 255.
Proof.
  pose proof (wrap_range 8 z ltac:(lia)) as H. unfold u8.
  change (2 ^ 8) with 256 in H. lia.
Qed.

Lemma u16_range (z : Z) : 0 <= u16 z <= 65535.
Proof.
  pose proof (wrap_range 16 z ltac:(lia)) as H. unfold u16.
  change (2 ^ 16) with 65536 in H. lia.
Qed.

Lemma u8_small (z : Z) : 0 <= z <= 255 -> u8 z = z.
Proof.
  intros H. unfold u8, wrap. change (2 ^ 8) with 256. apply Z.mod_small. lia.
Qed.

Lemma u32_small (z : Z) : 0 <= z < 2 ^ 32 -> u32 z = z.
Proof.
  intros H. unfold u32, wrap. apply Z.mod_small. exact H.
Qed.

Lemma forall_below_spec (n : nat) (p : Z -> bool) :
  forall_below n p = true ->
  forall z, 0 <= z < Z.of_nat n -> p z = true.
Proof.
  induction n as [|k IH]; intros H z Hz.
  - simpl in Hz. lia.
  - simpl in H. apply andb_true_iff in H as [Hk Hrest].
    destruct (Z.eq_dec z (Z.of_nat k)) as [->|Hne].
    + exact Hk.
    + apply IH; [exact Hrest | lia].
Qed.

(** ** Colour conversions *)

Section ColourFacts.

Import AsyncEspAlexaColorUtils.

Lemma unit255_order_checked : forall_below 256 Checks.unit255_order_row = true.
Proof. vm_cast_no_check (eq_refl true). Qed.

Lemma satRange_checked : forall_below 256 Checks.satRange_row = true.
Proof. vm_cast_no_check (eq_refl true). Qed.

Lemma valRange_checked : forall_below 256 Checks.valRange_at = true.
Proof. vm_cast_no_check (eq_refl true). Qed.

Lemma greyHue_checked : forall_below 256 Checks.greyHue_at = true.
Proof. vm_cast_no_check (eq_refl true). Qed.

Lemma below_256 (z : Z) : is_u8 z -> 0 <= z < Z.of_nat 256.
Proof. unfold is_u8. change (Z.of_nat 256) with 256. lia. Qed.

Lemma unit255_ltb (a b : Z) :
  is_u8 a -> is_u8 b -> F32.ltb (unit255 a) (unit255 b) = (a <? b).
Proof.
  intros Ha Hb.
  pose proof (forall_below_spec _ _ unit255_order_checked a (below_256 a Ha)) as H.
  pose proof (forall_below_spec _ _ H b (below_256 b Hb)) as H'.
  apply Bool.eqb_prop in H'. exact H'.
Qed.

Lemma max3_unit255 (r g b : Z) :
  is_u8 r -> is_u8 g -> is_u8 b ->
  F32.max3 (unit255 r) (unit255 g) (unit255 b) = unit255 (Z.max (Z.max r g) b).
Proof.
  intros Hr Hg Hb. unfold F32.max3, F32.max2.
  rewrite (unit255_ltb r g Hr Hg).
  destruct (Z.ltb_spec r g) as [Hlt|Hge].
  - rewrite (unit255_ltb g b Hg Hb).
    destruct (Z.ltb_spec g b); f_equal; lia.
  - rewrite (unit255_ltb r b Hr Hb).
    destruct (Z.ltb_spec r b); f_equal; lia.
Qed.

Lemma min3_unit255 (r g b : Z) :
  is_u8 r -> is_u8 g -> is_u8 b ->
  F32.min3 (unit255 r) (unit255 g) (unit255 b) = unit255 (Z.min (Z.min r g) b).
Proof.
  intros Hr Hg Hb. unfold F32.min3, F32.min2.
  rewrite (unit255_ltb g r Hg Hr).
  destruct (Z.ltb_spec g r) as [Hlt|Hge].
  - rewrite (unit255_ltb b g Hb Hg).
    destruct (Z.ltb_spec b g); f_equal; lia.
  - rewrite (unit255_ltb b r Hb Hr).
    destruct (Z.ltb_spec b r); f_equal; lia.
Qed.

(** The saturation cast is exact and lands in [0, 254]. *)
Lemma satOf_range (M m : Z) :
  is_u8 M -> is_u8 m -> m <= M ->
  satOf (unit255 M) (F32.sub (unit255 M) (unit255 m))
  = F32.trunc (satScaled (unit255 M) (F32.sub (unit255 M) (unit255 m)))
  /\ 0 <= satOf (unit255 M) (F32.sub (unit255 M) (unit255 m)) <= 254.
Proof.
  intros HM Hm Hle.
  pose proof (forall_below_spec _ _ satRange_checked M (below_256 M HM)) as H.
  pose proof (forall_below_spec _ _ H m (below_256 m Hm)) as H'.
  unfold Checks.satRange_at in H'.
  destruct (Z.ltb_spec M m) as [Hbad|_]; [lia|].
  apply andb_true_iff in H' as [Hlo Hhi].
  apply Z.leb_le in Hlo, Hhi.
  unfold satOf, F32.to_u8. rewrite u8_small by lia. split; [reflexivity | lia].
Qed.

(** The value cast is exact and [valOf] lands in [1, 254]. *)
Lemma valOf_range (M : Z) :
  is_u8 M ->
  F32.to_u8 (valScaled (unit255 M)) = F32.trunc (valScaled (unit255 M))
  /\ 1 <= valOf (unit255 M) <= 254.
Proof.
  intros HM.
  pose proof (forall_below_spec _ _ valRange_checked M (below_256 M HM)) as H.
  apply andb_true_iff in H as [Hlo Hhi].
  apply Z.leb_le in Hlo, Hhi.
  assert (E : F32.to_u8 (valScaled (unit255 M)) = F32.trunc (valScaled (unit255 M))).
  { unfold F32.to_u8. apply u8_small. lia. }
  split; [exact E|].
  unfold valOf. rewrite E. unfold ALEXA_MIN_BRI_VAL. lia.
Qed.

Lemma rgbToHsv_grey (c : Z) : is_u8 c -> fst (fst (rgbToHsv c c c)) = 0.
Proof.
  intros Hc.
  pose proof (forall_below_spec _ _ greyHue_checked c (below_256 c Hc)) as H.
  unfold Checks.greyHue_at in H. apply Z.eqb_eq in H. exact H.
Qed.

(** C2.  For 8-bit [r], [g], [b], [rgbToHsv] returns a hue in
    [0, 65535], a saturation in [0, 254] and a value in [1, 254];
    the value is never 0, and a grey input ([r = g = b], so that
    [delta] is 0) has hue 0. *)
Theorem rgbToHsv_ranges (r g b : Z) :
  is_u8 r -> is_u8 g -> is_u8 b ->
  let '(hue, sat, val) := rgbToHsv r g b in
  0 <= hue <= 65535 /\ 0 <= sat <= 254 /\ 1 <= val <= 254 /\ val <> 0
  /\ (r = g -> g = b -> hue = 0).
Proof.
  intros Hr Hg Hb.
  destruct (rgbToHsv r g b) as [[hue sat] val] eqn:E.
  assert (Hhue : hue = fst (fst (rgbToHsv r g b))) by (rewrite E; reflexivity).
  assert (Hsat : sat = snd (fst (rgbToHsv r g b))) by (rewrite E; reflexivity).
  assert (Hval : val = snd (rgbToHsv r g b)) by (rewrite E; reflexivity).
  clear E. unfold rgbToHsv in Hhue, Hsat, Hval. cbn [fst snd] in Hhue, Hsat, Hval.
  rewrite (max3_unit255 r g b Hr Hg Hb) in Hsat, Hval.
  rewrite (min3_unit255 r g b Hr Hg Hb) in Hsat.
  assert (HM : is_u8 (Z.max (Z.max r g) b)) by (unfold is_u8 in *; lia).
  assert (Hm : is_u8 (Z.min (Z.min r g) b)) by (unfold is_u8 in *; lia).
  pose proof (satOf_range _ _ HM Hm ltac:(lia)) as [_ Hs].
  pose proof (valOf_range _ HM) as [_ Hv].
  repeat split.
  - rewrite Hhue. apply u16_range.
  - rewrite Hhue. apply u16_range.
  - rewrite Hsat. apply Hs.
  - rewrite Hsat. apply Hs.
  - rewrite Hval. apply Hv.
  - rewrite Hval. apply Hv.
  - rewrite Hval. lia.
  - intros -> ->. rewrite Hhue.
    exact (rgbToHsv_grey b Hb).
Qed.

Lemma rgbToHsv_ranges_witness :
  let '(hue, sat, val) := rgbToHsv 10 20 30 in
  0 <= hue <= 65535 /\ 0 <= sat <= 254 /\ 1 <= val <= 254 /\ val <> 0
  /\ (10 = 20 -> 20 = 30 -> hue = 0).
Proof.
  apply (rgbToHsv_ranges 10 20 30); unfold is_u8; lia.
Defined.

End ColourFacts.

Section WhiteExtraction.

Import AsyncEspAlexaColorUtils.

Lemma scaleChannel_range (c : Z) (factor : F32.t) : is_u8 (scaleChannel c factor).
Proof. unfold scaleChannel, F32.to_u8, is_u8. apply u8_range. Qed.

Lemma hsvToRgb_range (hue saturation value : Z) :
  let '(r, g, b) := hsvToRgb hue saturation value in
  is_u8 r /\ is_u8 g /\ is_u8 b.
Proof.
  unfold hsvToRgb. destruct (hsToRgb hue saturation) as [[r g] b].
  repeat split; apply scaleChannel_range.
Qed.

Lemma min3Z_spec (r g b : Z) : min3Z r g b = Z.min r (Z.min g b).
Proof.
  unfold min3Z.
  destruct (Z.ltb_spec g r); [destruct (Z.ltb_spec b g) | destruct (Z.ltb_spec b r)]; lia.
Qed.

(** C3.  [hsvToRgbw] is [hsvToRgb] with the white share
    [w = min(r, g, b)] taken out of each colour channel: the result
    is [(r - w, g - w, b - w, w)], one of the three colour channels
    is 0, and adding [w] back gives [(r, g, b)] again.  This holds
    for every input, in particular for hue in [0, 65535] and
    saturation and value in [0, 254]. *)
Theorem hsvToRgbw_white_extraction (hue saturation value : Z) :
  let '(r, g, b) := hsvToRgb hue saturation value in
  let w := Z.min r (Z.min g b) in
  let '(r', g', b', w') := hsvToRgbw hue saturation value in
  (r', g', b', w') = (r - w, g - w, b - w, w)
  /\ (r' = 0 \/ g' = 0 \/ b' = 0)
  /\ (r' + w', g' + w', b' + w') = (r, g, b)
  /\ is_u8 r' /\ is_u8 g' /\ is_u8 b' /\ is_u8 w'.
Proof.
  pose proof (hsvToRgb_range hue saturation value) as Hrange.
  unfold hsvToRgbw.
  destruct (hsvToRgb hue saturation value) as [[r g] b].
  destruct Hrange as (Hr & Hg & Hb). unfold is_u8 in *.
  rewrite min3Z_spec. cbv zeta.
  rewrite !u8_small by lia.
  repeat split; try lia.
  - f_equal; [f_equal|]; lia.
Qed.

Example hsvToRgbw_green : hsvToRgbw 21845 254 254 = (0, 255, 0, 0).
Proof. vm_compute. reflexivity. Qed.

Example hsvToRgbw_pastel :
  hsvToRgb 21845 200 100 = (21, 100, 21) /\ hsvToRgbw 21845 200 100 = (0, 79, 0, 21).
Proof. vm_compute. split; reflexivity. Qed.

End WhiteExtraction.

(** ** The throttle gate *)

Section ThrottleFacts.

Variable T : Type.
Variable eqT : T -> T -> bool.

(** Every operation leaves the mutex released. *)
Lemma shouldSend_releases (g : ThrottledValue.t T) (now : Z) (v : T) :
  ThrottledValue.mutex g = false ->
  ThrottledValue.mutex (snd (ThrottledValue.shouldSend eqT g now v)) = false.
Proof.
  intros Hfree. unfold ThrottledValue.shouldSend. rewrite Hfree.
  destruct (_ || _); reflexivity.
Qed.

Lemma setLastSent_releases (g : ThrottledValue.t T) (time : Z) (v : T) :
  ThrottledValue.mutex (ThrottledValue.setLastSent g time v) = false.
Proof. reflexivity. Qed.

(** [shouldSend] changes nothing but the lock. *)
Lemma shouldSend_keeps (g : ThrottledValue.t T) (now : Z) (v : T) :
  ThrottledValue.mutex g = false ->
  snd (ThrottledValue.shouldSend eqT g now v) = g.
Proof.
  intros Hfree. unfold ThrottledValue.shouldSend. rewrite Hfree.
  destruct g as [lv lt ti mu]. simpl in *. subst mu.
  destruct (_ || _); reflexivity.
Qed.

(** The decision, for a gate whose lock is free. *)
Lemma shouldSend_decision (g : ThrottledValue.t T) (now : Z) (v : T) :
  ThrottledValue.mutex g = false ->
  fst (ThrottledValue.shouldSend eqT g now v)
  = (ThrottledValue.throttleInterval g
       <=? ThrottledValue.elapsed now (ThrottledValue.lastSendTime g))
    && negb (eqT v (ThrottledValue.lastValue g)).
Proof.
  intros Hfree. unfold ThrottledValue.shouldSend. rewrite Hfree. cbn [ThrottledValue.lock
    ThrottledValue.lastSendTime ThrottledValue.throttleInterval ThrottledValue.lastValue].
  destruct (Z.ltb_spec (ThrottledValue.elapsed now (ThrottledValue.lastSendTime g))
              (ThrottledValue.throttleInterval g)) as [Hlt|Hge];
    destruct (Z.leb_spec (ThrottledValue.throttleInterval g)
                (ThrottledValue.elapsed now (ThrottledValue.lastSendTime g)));
    try lia; destruct (eqT v (ThrottledValue.lastValue g)); reflexivity.
Qed.

(** C1.  A gate with [minInterval = 500] whose last accepted send was
    [(sentAt, sent)]: [shouldSend now v] is false while fewer than 500
    ms have elapsed since [sentAt]; it is true for a value that differs
    from [sent] once 500 ms have elapsed; it is false for a value equal
    to [sent] whatever the elapsed time.  Elapsed time is the
    difference of the two 32-bit millisecond stamps.  The call leaves
    the gate as it was, so the same holds for every later call until
    the next accepted send. *)
Theorem shouldSend_throttle_500
    (g0 : ThrottledValue.t T) (sentAt : Z) (sent : T) (now : Z) (v : T) :
  ThrottledValue.throttleInterval g0 = 500 ->
  let g := ThrottledValue.setLastSent g0 sentAt sent in
  (ThrottledValue.elapsed now sentAt < 500 ->
     fst (ThrottledValue.shouldSend eqT g now v) = false)
  /\ (500 <= ThrottledValue.elapsed now sentAt -> eqT v sent = false ->
     fst (ThrottledValue.shouldSend eqT g now v) = true)
  /\ (eqT v sent = true ->
     fst (ThrottledValue.shouldSend eqT g now v) = false)
  /\ snd (ThrottledValue.shouldSend eqT g now v) = g.
Proof.
  intros Hint g.
  assert (Hkeep := shouldSend_keeps g now v (setLastSent_releases g0 sentAt sent)).
  assert (Hdec := shouldSend_decision g now v (setLastSent_releases g0 sentAt sent)).
  refine ((fun H => conj (proj1 H) (conj (proj1 (proj2 H))
             (conj (proj2 (proj2 H)) Hkeep))) _).
  clear Hkeep.
  subst g. cbn [ThrottledValue.setLastSent ThrottledValue.lock ThrottledValue.unlock
    ThrottledValue.lastSendTime ThrottledValue.throttleInterval ThrottledValue.lastValue
    ThrottledValue.mutex] in Hdec.
  rewrite Hint in Hdec. rewrite Hdec.
  repeat split.
  - intros Hlt. destruct (Z.leb_spec 500 (ThrottledValue.elapsed now sentAt)); [lia|reflexivity].
  - intros Hge Hne. rewrite Hne.
    destruct (Z.leb_spec 500 (ThrottledValue.elapsed now sentAt)); [reflexivity|lia].
  - intros Heq. rewrite Heq. apply andb_false_r.
Qed.

(** Without wrap-around the elapsed time is the plain difference. *)
Lemma elapsed_plain (now last : Z) :
  0 <= last <= now -> now < 2 ^ 32 -> ThrottledValue.elapsed now last = now - last.
Proof.
  intros H1 H2. unfold ThrottledValue.elapsed. apply u32_small. lia.
Qed.

(** While another context holds the lock the answer is no. *)
Lemma shouldSend_contended (g : ThrottledValue.t T) (now : Z) (v : T) :
  ThrottledValue.mutex g = true ->
  ThrottledValue.shouldSend eqT g now v = (false, g).
Proof. intros Hheld. unfold ThrottledValue.shouldSend. rewrite Hheld. reflexivity. Qed.

End ThrottleFacts.

(** The gate of the output manager, on [Output::State]. *)
Lemma shouldSend_throttle_500_witness :
  let red := Output.mkState (Array4.mk (Light.mkState true 255) (Light.mkState false 0)
                               (Light.mkState false 0) (Light.mkState false 0)) in
  let g0 := ThrottledValue.make Output.defaultState 500 in
  let g := ThrottledValue.setLastSent g0 1000 Output.defaultState in
  ThrottledValue.throttleInterval g0 = 500
  /\ fst (ThrottledValue.shouldSend Output.State_eqb g 1499 red) = false
  /\ fst (ThrottledValue.shouldSend Output.State_eqb g 1500 red) = true
  /\ fst (ThrottledValue.shouldSend Output.State_eqb g 999999 Output.defaultState) = false.
Proof.
  intros red g0 g.
  pose proof (shouldSend_throttle_500 Output.State Output.State_eqb
                g0 1000 Output.defaultState) as H.
  split; [reflexivity|]. split; [|split].
  - apply (proj1 (H 1499 red eq_refl)). reflexivity.
  - apply (proj1 (proj2 (H 1500 red eq_refl))); [discriminate | reflexivity].
  - apply (proj1 (proj2 (proj2 (H 999999 Output.defaultState eq_refl)))). reflexivity.
Defined.

(** ** The light channel *)

Lemma clampZ_range (v lo hi : Z) : lo <= hi -> lo <= clampZ v lo hi <= hi.
Proof.
  intros H. unfold clampZ.
  destruct (Z.ltb_spec v lo); [lia|]. destruct (Z.ltb_spec hi v); lia.
Qed.

Lemma update_wired (l : Light.t) :
  Light.wired l ->
  exists l', Light.update l = Some l'
             /\ Light.state l' = Light.state l
             /\ Light.pin l' = Light.pin l
             /\ Light.invert l' = Light.invert l.
Proof.
  intros Hw. unfold Light.wired in Hw. unfold Light.update.
  destruct (negb (Light.optZ_eqb (Light.lastWrittenValue l) _)).
  - destruct (ControllerHardware.getPwmChannel (Light.pin l)) as [c|] eqn:E.
    + eexists. split; [reflexivity|]. simpl. auto.
    + congruence.
  - exists l. auto.
Qed.

Lemma update_withState (l : Light.t) (s : Light.State) :
  Light.wired l ->
  exists l', Light.update (Light.withState l s) = Some l'
             /\ Light.state l' = s /\ Light.wired l'.
Proof.
  intros Hw.
  destruct (update_wired (Light.withState l s) Hw) as (l' & E & Hs & Hp & _).
  exists l'. split; [exact E|]. split; [exact Hs|].
  unfold Light.wired in *. rewrite Hp. exact Hw.
Qed.

Section LightFacts.

Variable powf : F32.t -> F32.t -> F32.t.

Lemma perceptualBrightnessStep_range (v : Z) (increase : bool) :
  1 <= Light.perceptualBrightnessStep powf v increase <= 255.
Proof.
  unfold Light.perceptualBrightnessStep. apply clampZ_range.
  unfold Light.MIN_BRIGHTNESS, Light.MAX_BRIGHTNESS, Light.OFF_VALUE, Light.ON_VALUE. lia.
Qed.

(** One call: it returns, keeps the flag, and leaves a lit channel
    with a non-zero value. *)
Lemma decreaseBrightness_step (l : Light.t) :
  Light.wired l ->
  exists l', Light.decreaseBrightness powf l = Some l'
             /\ Light.wired l'
             /\ Light.on (Light.state l') = Light.on (Light.state l)
             /\ (Light.value (Light.state l) <> 0 -> Light.value (Light.state l') <> 0)
             /\ (Light.on (Light.state l) = true -> Light.value (Light.state l') <> 0).
Proof.
  intros Hw. unfold Light.decreaseBrightness.
  destruct (Light.isOff l || (Light.value (Light.state l) =? Light.MIN_BRIGHTNESS)) eqn:E.
  - exists l. repeat split; auto.
    intros Hon. apply orb_true_iff in E as [Hoff|Hmin].
    + unfold Light.isOff in Hoff. rewrite Hon in Hoff. discriminate.
    + apply Z.eqb_eq in Hmin. rewrite Hmin. discriminate.
  - destruct (update_withState l
                (Light.mkRaw (Light.flag (Light.state l))
                   (Light.perceptualBrightnessStep powf (Light.value (Light.state l)) false))
                Hw) as (l' & Eu & Hs & Hw').
    exists l'. rewrite Hs. unfold Light.on. cbn [Light.flag Light.value].
    pose proof (perceptualBrightnessStep_range (Light.value (Light.state l)) false).
    repeat split; auto; intros; lia.
Qed.

Lemma decreaseBrightnessTimes_lit (n : nat) :
  forall l, Light.wired l -> Light.on (Light.state l) = true ->
  exists l', Light.decreaseBrightnessTimes powf n l = Some l'
             /\ Light.on (Light.state l') = true
             /\ (Light.value (Light.state l) <> 0 \/ n <> 0%nat ->
                 Light.value (Light.state l') <> 0).
Proof.
  induction n as [|k IH]; intros l Hw Hon.
  - exists l. simpl. repeat split; auto. intros [H|H]; congruence.
  - destruct (decreaseBrightness_step l Hw) as (l1 & E1 & Hw1 & Hon1 & _ & Hnz).
    rewrite Hon in Hon1.
    destruct (IH l1 Hw1 Hon1) as (l' & E' & Hon' & Hv').
    exists l'. simpl. rewrite E1. simpl. split; [exact E'|]. split; [exact Hon'|].
    intros _. apply Hv'. left. apply Hnz. exact Hon.
Qed.

(** C4.  Toggling a channel that is off with value 0 leaves it on
    with value 255.  From a channel that is on, any number of
    [decreaseBrightness] calls returns a channel that is still on and
    whose value is not 0 (once a call was made, or if it was not 0 to
    begin with).  [decreaseBrightness] changes nothing when the
    channel is off or its value is the minimum brightness 1. *)
Theorem light_toggle_and_dim (dark lit : Light.t) (n : nat) :
  Light.wired dark ->
  Light.on (Light.state dark) = false ->
  Light.value (Light.state dark) = 0 ->
  Light.wired lit ->
  Light.on (Light.state lit) = true ->
  (exists l', Light.toggle dark = Some l'
              /\ Light.state l' = Light.mkState true 255)
  /\ (exists l', Light.decreaseBrightnessTimes powf n lit = Some l'
                 /\ Light.on (Light.state l') = true
                 /\ (Light.value (Light.state lit) <> 0 \/ n <> 0%nat ->
                     Light.value (Light.state l') <> 0))
  /\ (forall l, Light.on (Light.state l) = false \/ Light.value (Light.state l) = 1 ->
                Light.decreaseBrightness powf l = Some l).
Proof.
  intros Hwd Hoff Hzero Hwl Hon. split; [|split].
  - unfold Light.toggle. rewrite Hoff, Hzero. cbn [negb andb Z.eqb Light.OFF_VALUE].
    destruct (update_withState dark (Light.mkState true Light.MAX_BRIGHTNESS) Hwd)
      as (l' & E & Hs & _).
    exists l'. split; [exact E | exact Hs].
  - exact (decreaseBrightnessTimes_lit n lit Hwl Hon).
  - intros l [H|H]; unfold Light.decreaseBrightness, Light.isOff; rewrite H.
    + reflexivity.
    + change (1 =? Light.MIN_BRIGHTNESS) with true. rewrite orb_true_r. reflexivity.
Qed.

End LightFacts.

Lemma light_toggle_and_dim_witness :
  let powf := fun (x _ : F32.t) => x in
  let dark := Light.make 13 false in
  let lit := Light.mk false 13 (Light.mkState true 200) None in
  (exists l', Light.toggle dark = Some l'
              /\ Light.state l' = Light.mkState true 255)
  /\ (exists l', Light.decreaseBrightnessTimes powf 3 lit = Some l'
                 /\ Light.on (Light.state l') = true
                 /\ (Light.value (Light.state lit) <> 0 \/ 3%nat <> 0%nat ->
                     Light.value (Light.state l') <> 0))
  /\ (forall l, Light.on (Light.state l) = false \/ Light.value (Light.state l) = 1 ->
                Light.decreaseBrightness powf l = Some l).
Proof.
  intros powf dark lit.
  apply (light_toggle_and_dim powf dark lit 3).
  - unfold Light.wired. simpl. discriminate.
  - reflexivity.
  - reflexivity.
  - unfold Light.wired. simpl. discriminate.
  - reflexivity.
Defined.

(** ** The output manager *)

Lemma setState_wired (m : Output.Manager) (s : Output.State) :
  Output.wired m ->
  exists m', Output.setState m s = Some m'
             /\ Output.getState m' = s
             /\ Output.colorNotificationThrottle m' = Output.colorNotificationThrottle m
             /\ Output.wired m'.
Proof.
  intros Hw. unfold Output.setState.
  destruct (update_withState _ (Array4.a0 (Output.values s)) (Hw Red)) as (l0 & E0 & S0 & W0).
  destruct (update_withState _ (Array4.a1 (Output.values s)) (Hw Green)) as (l1 & E1 & S1 & W1).
  destruct (update_withState _ (Array4.a2 (Output.values s)) (Hw Blue)) as (l2 & E2 & S2 & W2).
  destruct (update_withState _ (Array4.a3 (Output.values s)) (Hw White)) as (l3 & E3 & S3 & W3).
  cbn [Array4.at_] in E0, E1, E2, E3.
  unfold Light.setState. rewrite E0. cbn [bind]. rewrite E1. cbn [bind].
  rewrite E2. cbn [bind]. rewrite E3. cbn [bind].
  eexists. split; [reflexivity|]. split; [|split].
  - unfold Output.getState, Output.withLights, Array4.map, Light.getState.
    cbn [Output.lights Array4.a0 Array4.a1 Array4.a2 Array4.a3].
    rewrite S0, S1, S2, S3.
    destruct s as [[v0 v1 v2 v3]]. reflexivity.
  - reflexivity.
  - intros c. destruct c; cbn; assumption.
Qed.

(** C9.  A write to the output-colour characteristic whose payload is
    not 8 bytes long returns with the manager exactly as it was: no
    channel flag or value changes and the notification throttle keeps
    its bookkeeping.  A payload of exactly 8 bytes replaces the state
    of all four channels by the received one (flag byte and value
    byte per channel) and records it, with the current time, in the
    throttle. *)
Theorem onWrite_output_color (m : Output.Manager) (payload : list Z) (millis : Z) :
  Output.wired m ->
  (List.length payload <> 8%nat -> Output.onWrite m payload millis = Some m)
  /\ (List.length payload = 8%nat ->
      exists m', Output.onWrite m payload millis = Some m'
        /\ Output.getState m' = Output.State_of_bytes payload
        /\ (forall c,
              Output.isOn m' c = negb (nth (2 * Array4.index c) payload 0 =? 0)
              /\ Output.getValue m' c = nth (2 * Array4.index c + 1) payload 0)
        /\ Output.colorNotificationThrottle m'
           = ThrottledValue.setLastSent (Output.colorNotificationThrottle m)
               millis (Output.State_of_bytes payload)).
Proof.
  intros Hw. split.
  - intros Hlen. unfold Output.onWrite, Output.sizeofState.
    destruct (Z.eqb_spec (Z.of_nat (List.length payload)) 8) as [E|E]; [lia|reflexivity].
  - intros Hlen. unfold Output.onWrite, Output.sizeofState. rewrite Hlen.
    cbn [Z.of_nat Pos.of_succ_nat Pos.succ Z.eqb Pos.eqb negb].
    destruct (setState_wired m (Output.State_of_bytes payload) Hw)
      as (m1 & E1 & Hs & Ht & Hw1).
    rewrite E1. cbn [bind].
    eexists. split; [reflexivity|].
    assert (Hget : Output.getState
              {| Output.lights := Output.lights m1;
                 Output.colorNotificationThrottle :=
                   ThrottledValue.setLastSent (Output.colorNotificationThrottle m1)
                     millis (Output.State_of_bytes payload) |}
            = Output.State_of_bytes payload) by exact Hs.
    split; [exact Hget|]. split.
    + intros c.
      assert (Hc : Light.state (Array4.at_ (Output.lights m1) c)
                   = Array4.at_ (Output.values (Output.State_of_bytes payload)) c).
      { rewrite <- Hs. unfold Output.getState, Light.getState. destruct c; reflexivity. }
      unfold Output.isOn, Output.getValue, Light.isOn, Light.getValue.
      cbn [Output.lights]. rewrite Hc. destruct c; split; reflexivity.
    + cbn [Output.colorNotificationThrottle]. rewrite Ht. reflexivity.
Qed.

Lemma makeManager_wired : Output.wired (Output.makeManager 13 16 19 18).
Proof. intros c. destruct c; unfold Light.wired; simpl; discriminate. Qed.

Lemma onWrite_output_color_witness :
  let m := Output.makeManager 13 16 19 18 in
  Output.onWrite m [1; 255; 0; 7] 1234 = Some m
  /\ exists m', Output.onWrite m [1; 255; 0; 7; 1; 0; 0; 128] 1234 = Some m'
        /\ Output.getState m' = Output.State_of_bytes [1; 255; 0; 7; 1; 0; 0; 128]
        /\ (forall c,
              Output.isOn m' c
              = negb (nth (2 * Array4.index c) [1; 255; 0; 7; 1; 0; 0; 128] 0 =? 0)
              /\ Output.getValue m' c
                 = nth (2 * Array4.index c + 1) [1; 255; 0; 7; 1; 0; 0; 128] 0)
        /\ Output.colorNotificationThrottle m'
           = ThrottledValue.setLastSent (Output.colorNotificationThrottle m)
               1234 (Output.State_of_bytes [1; 255; 0; 7; 1; 0; 0; 128]).
Proof.
  intros m. split.
  - apply (proj1 (onWrite_output_color m [1; 255; 0; 7] 1234 makeManager_wired)).
    simpl. discriminate.
  - apply (proj2 (onWrite_output_color m [1; 255; 0; 7; 1; 0; 0; 128] 1234
                    makeManager_wired)).
    reflexivity.
Defined.

(** ** The light key *)

Section LightKey.

Import AsyncEspAlexaDevice.

Lemma hexDigit_range (c : ascii) (d : Z) : hexDigit c = Some d -> 0 <= d <= 15.
Proof.
  unfold hexDigit. set (n := Z.of_nat (nat_of_ascii c)).
  destruct ((48 <=? n) && (n <=? 57)) eqn:E1.
  - intros [= <-]. apply andb_true_iff in E1 as [A B].
    apply Z.leb_le in A, B. lia.
  - destruct ((97 <=? n) && (n <=? 102)) eqn:E2.
    + intros [= <-]. apply andb_true_iff in E2 as [A B].
      apply Z.leb_le in A, B. lia.
    + destruct ((65 <=? n) && (n <=? 70)) eqn:E3; [|discriminate].
      intros [= <-]. apply andb_true_iff in E3 as [A B].
      apply Z.leb_le in A, B. lia.
Qed.

Lemma strtol16_from_bound (s : string) :
  forall acc, 0 <= acc ->
  0 <= strtol16_from acc s < (acc + 1) * 16 ^ Z.of_nat (String.length s).
Proof.
  induction s as [|c r IH]; intros acc Hacc.
  - simpl. lia.
  - cbn [strtol16_from String.length].
    rewrite Nat2Z.inj_succ, Z.pow_succ_r by lia.
    assert (Hpow : 0 < 16 ^ Z.of_nat (String.length r)) by (apply Z.pow_pos_nonneg; lia).
    destruct (hexDigit c) as [d|] eqn:E.
    + pose proof (hexDigit_range c d E) as Hd.
      specialize (IH (16 * acc + d) ltac:(lia)). nia.
    + nia.
Qed.

Lemma substring_length (s : string) :
  forall n m, (String.length (substring n m s) <= m)%nat.
Proof.
  induction s as [|c r IH]; intros n m.
  - destruct n, m; simpl; lia.
  - destruct n as [|n'].
    + destruct m as [|m']; simpl; [lia|]. specialize (IH 0%nat m'). lia.
    + simpl. apply IH.
Qed.

(** The hardware id is a 24-bit number. *)
Lemma getMac24_range (macAddress : string) : 0 <= getMac24 macAddress < 2 ^ 24.
Proof.
  unfold getMac24, strtol16.
  set (sub := substring 6 6 _).
  pose proof (substring_length (toLowerCase (removeColons macAddress)) 6 6) as Hlen.
  fold sub in Hlen.
  pose proof (strtol16_from_bound sub 0 ltac:(lia)) as Hb.
  assert (Hpow : 16 ^ Z.of_nat (String.length sub) <= 16 ^ 6).
  { apply Z.pow_le_mono_r; lia. }
  change (16 ^ 6) with (2 ^ 24) in Hpow.
  rewrite u32_small; [lia|].
  change (2 ^ 32) with (256 * 2 ^ 24). lia.
Qed.

Lemma key_split (mac24 idx : Z) :
  0 <= mac24 < 2 ^ 24 -> 0 <= idx <= 127 ->
  Z.shiftr (Z.lor (u32 (Z.shiftl mac24 7)) idx) 7 = mac24
  /\ Z.land (Z.lor (u32 (Z.shiftl mac24 7)) idx) 127 = idx.
Proof.
  intros Hm Hi.
  assert (Hsh : u32 (Z.shiftl mac24 7) = Z.shiftl mac24 7).
  { apply u32_small. rewrite Z.shiftl_mul_pow2 by lia.
    change (2 ^ 32) with (2 ^ 24 * 2 ^ 7 * 2). change (2 ^ 7) with 128. lia. }
  rewrite Hsh. split.
  - rewrite Z.shiftr_lor, Z.shiftr_shiftl_l by lia.
    replace (7 - 7) with 0 by lia. rewrite Z.shiftl_0_r.
    rewrite (Z.shiftr_div_pow2 idx 7) by lia.
    rewrite Z.div_small by (change (2 ^ 7) with 128; lia).
    apply Z.lor_0_r.
  - change 127 with (Z.ones 7).
    rewrite Z.land_lor_distr_l, !Z.land_ones by lia.
    rewrite Z.shiftl_mul_pow2 by lia.
    rewrite Z.mod_mul by (change (2 ^ 7) with 128; lia).
    rewrite Z.mod_small by (change (2 ^ 7) with 128; lia).
    apply Z.lor_0_l.
Qed.

(** C5.  On one controller, decoding the key made from a device
    index in [0, 127] gives the index back.  A key made, from such an
    index, on a controller with a different hardware id decodes to
    the invalid-index sentinel 255. *)
Theorem lightKey_codec (macAddress otherMac : string) (idx : Z) :
  0 <= idx <= 127 ->
  decodeLightKey macAddress (encodeLightKey macAddress idx) = idx
  /\ (getMac24 otherMac <> getMac24 macAddress ->
      decodeLightKey macAddress (encodeLightKey otherMac idx) = INVALID_DEVICE_INDEX
      /\ INVALID_DEVICE_INDEX = 255).
Proof.
  intros Hidx. unfold decodeLightKey, encodeLightKey. split.
  - destruct (key_split (getMac24 macAddress) idx (getMac24_range macAddress) Hidx)
      as [Hhi Hlo].
    rewrite Hhi, Z.eqb_refl. exact Hlo.
  - intros Hne.
    destruct (key_split (getMac24 otherMac) idx (getMac24_range otherMac) Hidx)
      as [Hhi _].
    rewrite Hhi.
    destruct (Z.eqb_spec (getMac24 otherMac) (getMac24 macAddress)); [contradiction|].
    split; reflexivity.
Qed.

Example getMac24_sample : getMac24 "24:6F:28:AB:CD:EF" = 11259375.
Proof. vm_compute. reflexivity. Qed.

Lemma lightKey_codec_witness :
  decodeLightKey "24:6F:28:AB:CD:EF" (encodeLightKey "24:6F:28:AB:CD:EF" 3) = 3
  /\ decodeLightKey "24:6F:28:AB:CD:EF" (encodeLightKey "24:6F:28:AB:CD:EE" 3) = 255.
Proof.
  pose proof (lightKey_codec "24:6F:28:AB:CD:EF" "24:6F:28:AB:CD:EE" 3 ltac:(lia))
    as [Hsame Hother].
  split; [exact Hsame|].
  apply Hother. vm_compute. discriminate.
Defined.

End LightKey.

(** ** Registry setup *)

Section RegistrySetup.

Import AsyncEspAlexaDevice AlexaIntegration.

Variable addressBytes : nat -> list ascii.

(** The string read at the start of a buffer that holds a NUL does
    not depend on what follows the buffer. *)
Lemma c_str_terminated (buf rest : list ascii) :
  terminated buf = true -> c_str (buf ++ rest) = c_str buf.
Proof.
  unfold terminated. induction buf as [|c buf IH]; intros H; [discriminate|].
  cbn [app c_str existsb] in *. destruct (Ascii.eqb c NUL); [reflexivity|].
  f_equal. apply IH. exact H.
Qed.

Lemma c_str_memoryAt (a : AlexaIntegration.t) (i : Color) :
  terminated (Array4.at_ (deviceNames (settings a)) i) = true ->
  c_str (memoryAt addressBytes a i) = c_str (Array4.at_ (deviceNames (settings a)) i).
Proof.
  intros H. unfold memoryAt.
  destruct i; cbn [Array4.at_] in *; rewrite <- ?app_assoc;
    apply c_str_terminated; exact H.
Qed.

Lemma rgbDeviceOf_color (a : AlexaIntegration.t) :
  exists c, rgbDeviceOf a = DColor c
            /\ Dimmable_getName (cdDimmable c) = c_str (Array4.a0 (deviceNames (settings a)))
            /\ colorCallback c = Some HandleRgbCommand.
Proof.
  unfold rgbDeviceOf.
  destruct (AsyncEspAlexaColorUtils.rgbToHsv _ _ _) as [[h s] v].
  eexists. split; [reflexivity|]. split; reflexivity.
Qed.

(** Setting up devices leaves the output manager and the settings alone. *)
Lemma setupDevices_keeps (a : AlexaIntegration.t) :
  outputManager (setupDevices addressBytes a) = outputManager a
  /\ settings (setupDevices addressBytes a) = settings a.
Proof.
  unfold setupDevices.
  destruct (integrationMode (settings a)).
  - split; reflexivity.
  - unfold setupRgbwDevice.
    destruct (AsyncEspAlexaColorUtils.rgbwToHsv _ _ _ _) as [[h s] v].
    split; reflexivity.
  - unfold setupStandaloneDevice, setupRgbDevice, createSingleChannelDevice.
    destruct (emptyName (Array4.a0 (deviceNames (settings a)))).
    + destruct (emptyName (Array4.at_ (deviceNames (settings a)) White));
        split; reflexivity.
    + destruct (AsyncEspAlexaColorUtils.rgbToHsv _ _ _) as [[h s] v].
      cbn [withDevices settings outputManager].
      destruct (emptyName (Array4.at_ (deviceNames (settings a)) White));
        split; reflexivity.
  - unfold setupMultiDevice, createSingleChannelDevice.
    destruct (emptyName (Array4.at_ (deviceNames (settings a)) Red));
      destruct (emptyName (Array4.at_ (deviceNames (settings a)) Green));
      destruct (emptyName (Array4.at_ (deviceNames (settings a)) Blue));
      destruct (emptyName (Array4.at_ (deviceNames (settings a)) White));
      split; reflexivity.
Qed.

(** In [RGB_DEVICE] mode, from an empty registry: which devices
    [setupDevices] registers, by the two name tests, and what they
    are when the two names end inside their buffers. *)
Lemma setupDevices_rgb_registry (a : AlexaIntegration.t) :
  integrationMode (settings a) = RGB_DEVICE ->
  registry a = [] ->
  let e0 := emptyName (Array4.a0 (deviceNames (settings a))) in
  let e3 := emptyName (Array4.a3 (deviceNames (settings a))) in
  existsb isColorDevice (registry (setupDevices addressBytes a)) = negb e0
  /\ existsb isDimmableDevice (registry (setupDevices addressBytes a)) = negb e3
  /\ List.length (registry (setupDevices addressBytes a))
     = ((if e0 then 0 else 1) + (if e3 then 0 else 1))%nat
  /\ (terminated (Array4.a0 (deviceNames (settings a))) = true ->
      terminated (Array4.a3 (deviceNames (settings a))) = true ->
      registry (setupDevices addressBytes a)
      = (if e0 then [] else [registered 0 (rgbDeviceOf a)])
        ++ (if e3 then [] else [registered (if e0 then 0 else 1) (whiteDeviceOf a)])).
Proof.
  intros Hmode Hempty. cbv zeta. unfold setupDevices. rewrite Hmode.
  unfold registry in *.
  destruct a as [om [devs] st md]. cbn in Hempty. subst devs.
  unfold setupRgbDevice, setupStandaloneDevice, createSingleChannelDevice, rgbDeviceOf,
    whiteDeviceOf.
  cbn [settings outputManager espAlexaManager AlexaIntegration.devices].
  destruct (emptyName (Array4.a0 (deviceNames st))) eqn:E0.
  - cbn [settings outputManager espAlexaManager AlexaIntegration.devices Array4.at_].
    destruct (emptyName (Array4.a3 (deviceNames st))) eqn:E3.
    + repeat split; reflexivity.
    + split; [reflexivity|]. split; [reflexivity|]. split; [reflexivity|].
      intros _ H3.
      rewrite (c_str_memoryAt
                 {| outputManager := om; espAlexaManager := AsyncEspAlexaManager.mk [];
                    settings := st; AlexaIntegration.devices := md |} White H3).
      reflexivity.
  - destruct (AsyncEspAlexaColorUtils.rgbToHsv _ _ _) as [[h s] v].
    cbn [withDevices settings outputManager espAlexaManager AlexaIntegration.devices
         Array4.at_].
    destruct (emptyName (Array4.a3 (deviceNames st))) eqn:E3.
    + split; [reflexivity|]. split; [reflexivity|]. split; [reflexivity|].
      intros H0 _.
      rewrite (c_str_memoryAt
                 {| outputManager := om; espAlexaManager := AsyncEspAlexaManager.mk [];
                    settings := st; AlexaIntegration.devices := md |} Red H0).
      reflexivity.
    + split; [reflexivity|]. split; [reflexivity|]. split; [reflexivity|].
      intros H0 H3.
      rewrite (c_str_memoryAt
                 {| outputManager := om; espAlexaManager := AsyncEspAlexaManager.mk [];
                    settings := st; AlexaIntegration.devices := md |} Red H0).
      match goal with
      | |- context [c_str (memoryAt addressBytes ?x White)] =>
          rewrite (c_str_memoryAt x White H3)
      end.
      reflexivity.
Qed.

Lemma built_devices_ext (a b : AlexaIntegration.t) :
  outputManager a = outputManager b -> settings a = settings b ->
  rgbDeviceOf a = rgbDeviceOf b /\ whiteDeviceOf a = whiteDeviceOf b.
Proof.
  intros Hom Hst. unfold rgbDeviceOf, whiteDeviceOf. rewrite Hom, Hst.
  split; reflexivity.
Qed.

Lemma applySettings_rgb_registry (a : AlexaIntegration.t) (names : Array4.t (list ascii)) :
  let a' := applySettings addressBytes a (mkSettings RGB_DEVICE names) in
  outputManager a' = outputManager a
  /\ settings a' = mkSettings RGB_DEVICE names
  /\ existsb isColorDevice (registry a') = negb (emptyName (Array4.a0 names))
  /\ existsb isDimmableDevice (registry a') = negb (emptyName (Array4.a3 names))
  /\ List.length (registry a')
     = ((if emptyName (Array4.a0 names) then 0 else 1)
        + (if emptyName (Array4.a3 names) then 0 else 1))%nat
  /\ (terminated (Array4.a0 names) = true -> terminated (Array4.a3 names) = true ->
      registry a'
      = (if emptyName (Array4.a0 names) then []
         else [registered 0 (rgbDeviceOf a')])
        ++ (if emptyName (Array4.a3 names) then []
            else [registered (if emptyName (Array4.a0 names) then 0 else 1)
                    (whiteDeviceOf a')])).
Proof.
  unfold applySettings. set (cleared := clearDevices _). cbv zeta.
  destruct (setupDevices_keeps cleared) as [Hom Hst].
  destruct (built_devices_ext (setupDevices addressBytes cleared) cleared Hom Hst)
    as [-> ->].
  split; [exact Hom|]. split; [exact Hst|].
  exact (setupDevices_rgb_registry cleared eq_refl eq_refl).
Qed.

(** C6.  In [RGB_DEVICE] mode, setting up the registry (after it was
    cleared) registers a colour device exactly when the name of the
    red slot is not empty, and a dimmable device for the white channel
    exactly when the name of the white slot is not empty; nothing
    else is registered, whatever the green and blue names are.  When
    the red and the white name end inside their buffers, the registry
    is exactly the colour device built from the red name, if any,
    followed by the dimmable device built from the white name, if
    any, each with its position as id.
    With the names ["Kitchen", "", "", "Lamp"] the registry holds
    exactly two devices: a colour device named "Kitchen", driving
    R/G/B, then a dimmable device named "Lamp", driving W. *)
Theorem setupDevices_rgb_mode (a : AlexaIntegration.t) (names : Array4.t (list ascii)) :
  (let a' := applySettings addressBytes a (mkSettings RGB_DEVICE names) in
   (terminated (Array4.a0 names) = true -> terminated (Array4.a3 names) = true ->
    registry a'
    = (if emptyName (Array4.a0 names) then []
       else [registered 0 (rgbDeviceOf a')])
      ++ (if emptyName (Array4.a3 names) then []
          else [registered (if emptyName (Array4.a0 names) then 0 else 1)
                  (whiteDeviceOf a')]))
   /\ existsb isColorDevice (registry a') = negb (emptyName (Array4.a0 names))
   /\ existsb isDimmableDevice (registry a') = negb (emptyName (Array4.a3 names))
   /\ List.length (registry a')
      = ((if emptyName (Array4.a0 names) then 0 else 1)
         + (if emptyName (Array4.a3 names) then 0 else 1))%nat)
  /\ (exists (c : ColorDev) (d : Dimmable),
        registry (applySettings addressBytes a kitchenLamp) = [DColor c; DDimmable d]
        /\ Dimmable_getName (cdDimmable c) = "Kitchen"%string
        /\ Dimmable_getId (cdDimmable c) = 0
        /\ colorCallback c = Some HandleRgbCommand
        /\ Dimmable_getName d = "Lamp"%string
        /\ Dimmable_getId d = 1
        /\ brightnessCallback d = Some (HandleSingleChannelCommand White)).
Proof.
  split.
  - cbv zeta.
    destruct (applySettings_rgb_registry a names) as (_ & _ & Hc & Hd & Hl & Hreg).
    cbv zeta in Hreg. split; [exact Hreg|]. split; [exact Hc|]. split; [exact Hd | exact Hl].
  - unfold kitchenLamp.
    destruct (applySettings_rgb_registry a
                (Array4.mk (nameBuffer "Kitchen") (nameBuffer "") (nameBuffer "")
                   (nameBuffer "Lamp"))) as (_ & Hs & _ & _ & _ & Hreg).
    cbv zeta in Hreg. rewrite Hreg.
    + cbn [Array4.a0 Array4.a3].
      change (emptyName (nameBuffer "Kitchen")) with false.
      change (emptyName (nameBuffer "Lamp")) with false.
      cbn [app].
      unfold rgbDeviceOf, whiteDeviceOf. rewrite Hs.
      destruct (AsyncEspAlexaColorUtils.rgbToHsv _ _ _) as [[h s] v].
      eexists. eexists. split; [reflexivity|].
      repeat split; reflexivity.
    + reflexivity.
    + reflexivity.
Qed.

Example kitchenLamp_names :
  c_str (nameBuffer "Kitchen") = "Kitchen"%string
  /\ List.length (nameBuffer "Kitchen") = 32%nat
  /\ emptyName (nameBuffer "") = true.
Proof. vm_compute. repeat split; reflexivity. Qed.

End RegistrySetup.

Lemma setupDevices_rgb_mode_witness :
  let a := AlexaIntegration.mk (Output.makeManager 21 17 4 13)
             AsyncEspAlexaManager.empty
             (AlexaIntegration.mkSettings AlexaIntegration.OFF
                (Array4.mk [] [] [] [])) AlexaIntegration.noDevices in
  let names := Array4.mk (AlexaIntegration.nameBuffer "Desk") (AlexaIntegration.nameBuffer "")
                 (AlexaIntegration.nameBuffer "") (AlexaIntegration.nameBuffer "") in
  let a' := AlexaIntegration.applySettings (fun _ => [])
              a (AlexaIntegration.mkSettings AlexaIntegration.RGB_DEVICE names) in
  AlexaIntegration.registry a'
  = [AlexaIntegration.registered 0 (AlexaIntegration.rgbDeviceOf a')].
Proof.
  intros a names a'.
  destruct (setupDevices_rgb_mode (fun _ => []) a names) as ((H & _) & _).
  apply H; reflexivity.
Defined.

(** ** Command decode of a dimmable device *)

Section CommandDecode.

Import AsyncEspAlexaDevice.

(** The statement that a payload which does not turn the device on and
    has no ['bri'] member leaves the brightness alone fails: a device
    that is already on gets brightness 254 from a payload that only
    carries a colour. *)
Lemma dimmable_keeps_brightness_counterexample :
  let d := newDimmable "Lamp" true 100 in
  let obj := [("hue"%string, JInteger 21845); ("sat"%string, JInteger 254)] in
  (asBool (member obj "on") = None
   /\ asInteger (member obj "bri") = None
   /\ brightness d = 100
   /\ brightness (Dimmable_handleStateUpdate d obj) = 254)
  /\ ~ (forall (d : Dimmable) (obj : JsonObject),
          asBool (member obj "on") <> Some true ->
          asInteger (member obj "bri") = None ->
          brightness (Dimmable_handleStateUpdate d obj) = brightness d).
Proof.
  split.
  - repeat split; reflexivity.
  - intros H.
    specialize (H (newDimmable "Lamp" true 100) [] ltac:(discriminate) eq_refl).
    vm_compute in H. discriminate.
Qed.

(** C7, amended.  [handleStateUpdate] of a dimmable device applies
    the ['on'] member when it is a boolean and the ['bri'] member when
    it is an integer, and touches neither id, name nor callbacks.
    When there is no ['bri'] member the brightness becomes 254 if the
    device is on once ['on'] has been applied (switched on by the
    payload, or on already), and stays as stored if the device is then
    off. *)
Theorem dimmable_handleStateUpdate_fields (d : Dimmable) (obj : JsonObject) :
  let d' := Dimmable_handleStateUpdate d obj in
  Dimmable_isOn d'
  = match asBool (member obj "on") with
    | Some v => v
    | None => Dimmable_isOn d
    end
  /\ brightness d'
     = match asInteger (member obj "bri") with
       | Some n => fitOrZero 8 n
       | None => if Dimmable_isOn d' then 254 else brightness d
       end
  /\ Dimmable_getId d' = Dimmable_getId d
  /\ Dimmable_getName d' = Dimmable_getName d
  /\ brightnessCallback d' = brightnessCallback d
  /\ onOffCallback (onOff d') = onOffCallback (onOff d)
  /\ (asBool (member obj "on") = Some true ->
      asInteger (member obj "bri") = None -> brightness d' = 254)
  /\ (asInteger (member obj "bri") = None ->
      Dimmable_isOn d' = false -> brightness d' = brightness d).
Proof.
  destruct d as [[[i n o] cb] b bcb].
  unfold Dimmable_handleStateUpdate, Base_handleStateUpdate, Dimmable_mapBase,
    OnOff_mapBase, Dimmable_isOn, Dimmable_base, Dimmable_getId, Dimmable_getName,
    setBrightness, Base_setOn.
  cbv zeta. cbn [onOff base brightness brightnessCallback onOffCallback on id name].
  destruct (asBool (member obj "on")) as [v|];
    destruct (asInteger (member obj "bri")) as [k|];
    cbn [onOff base brightness brightnessCallback onOffCallback on id name].
  - repeat split; try reflexivity; intros; congruence.
  - destruct v; cbn; repeat split; try reflexivity; intros; congruence.
  - repeat split; try reflexivity; intros; congruence.
  - destruct o; cbn; repeat split; try reflexivity; intros; congruence.
Qed.

Example dimmable_turn_on : 
  brightness (Dimmable_handleStateUpdate (newDimmable "Lamp" false 17)
                [("on"%string, JBool true)]) = 254
  /\ brightness (Dimmable_handleStateUpdate (newDimmable "Lamp" true 17)
                   [("on"%string, JBool false)]) = 17
  /\ brightness (Dimmable_handleStateUpdate (newDimmable "Lamp" false 17)
                   [("bri"%string, JInteger 80)]) = 80.
Proof. repeat split; reflexivity. Qed.

End CommandDecode.

(** ** Paired-device records *)

(** C10 fails on the code: two records with the same name and
    different addresses are neither [==] nor [!=]. *)
Theorem device_ne_same_name :
  let d1 := EspNow.device "remote" [36; 111; 40; 1; 2; 3] in
  let d2 := EspNow.device "remote" [36; 111; 40; 1; 2; 4] in
  EspNow.wellFormed d1 /\ EspNow.wellFormed d2
  /\ EspNow.Device_eq d1 d2 = false
  /\ EspNow.Device_ne d1 d2 = false
  /\ EspNow.Device_ne d1 d2 <> negb (EspNow.Device_eq d1 d2).
Proof.
  vm_compute. repeat split; try reflexivity. discriminate.
Qed.

(** What [!=] computes: both members differ. *)
Lemma device_ne_spec (d1 d2 : EspNow.Device) :
  EspNow.Device_ne d1 d2
  = negb (EspNow.array_eqb Ascii.eqb (EspNow.name d1) (EspNow.name d2))
    && negb (EspNow.array_eqb Z.eqb (EspNow.address d1) (EspNow.address d2)).
Proof. reflexivity. Qed.

Lemma dimmable_handleStateUpdate_fields_witness :
  AsyncEspAlexaDevice.brightness
    (AsyncEspAlexaDevice.Dimmable_handleStateUpdate
       (AsyncEspAlexaDevice.newDimmable "Lamp" false 17)
       [("on"%string, AsyncEspAlexaDevice.JBool true)]) = 254
  /\ AsyncEspAlexaDevice.brightness
       (AsyncEspAlexaDevice.Dimmable_handleStateUpdate
          (AsyncEspAlexaDevice.newDimmable "Lamp" true 17)
          [("on"%string, AsyncEspAlexaDevice.JBool false)]) = 17.
Proof.
  split.
  - pose proof (dimmable_handleStateUpdate_fields
                  (AsyncEspAlexaDevice.newDimmable "Lamp" false 17)
                  [("on"%string, AsyncEspAlexaDevice.JBool true)])
      as (_ & _ & _ & _ & _ & _ & H & _).
    apply H; reflexivity.
  - pose proof (dimmable_handleStateUpdate_fields
                  (AsyncEspAlexaDevice.newDimmable "Lamp" true 17)
                  [("on"%string, AsyncEspAlexaDevice.JBool false)])
      as (_ & _ & _ & _ & _ & _ & _ & H).
    apply H; reflexivity.
Defined.

(** ** Colour temperature *)

Section KelvinFacts.

Import AsyncEspAlexaColorUtils.

Variable logf : F32.t -> F32.t.
Variable powf : F32.t -> F32.t -> F32.t.

Lemma KELVIN_MIN_value : KELVIN_MIN = S754_finite false 16384000 (-13).
Proof. vm_compute. reflexivity. Qed.

Lemma KELVIN_MAX_value : KELVIN_MAX = S754_finite false 13312000 (-11).
Proof. vm_compute. reflexivity. Qed.

Lemma seam_value : FZ 6600 = S754_finite false 13516800 (-11).
Proof. vm_compute. reflexivity. Qed.

Lemma compare_cont_Eq (a b : positive) : Pos.compare_cont Eq a b = Pos.compare a b.
Proof. reflexivity. Qed.

(** Above the upper limit the clamp gives the upper limit. *)
Lemma clamp_above (k : F32.t) :
  F32.ltb KELVIN_MAX k = true -> F32.clamp k KELVIN_MIN KELVIN_MAX = KELVIN_MAX.
Proof.
  intros Hgt. unfold F32.clamp. rewrite Hgt.
  replace (F32.ltb k KELVIN_MIN) with false; [reflexivity|].
  rewrite KELVIN_MIN_value. rewrite KELVIN_MAX_value in Hgt.
  unfold F32.ltb, SFltb, SFcompare in *.
  destruct k as [s|s| |s m e]; try destruct s; try discriminate; try reflexivity.
  destruct (Z.compare_spec (-11) e) as [He|He|He]; try discriminate.
  - subst e. reflexivity.
  - destruct (Z.compare_spec e (-13)) as [He'|He'|He']; try lia; reflexivity.
Qed.

(** Below the lower limit the clamp gives the lower limit. *)
Lemma clamp_below (k : F32.t) :
  F32.ltb k KELVIN_MIN = true -> F32.clamp k KELVIN_MIN KELVIN_MAX = KELVIN_MIN.
Proof. intros Hlt. unfold F32.clamp. rewrite Hlt. reflexivity. Qed.

(** Within the limits the clamp changes nothing. *)
Lemma clamp_within (k : F32.t) :
  F32.ltb k KELVIN_MIN = false -> F32.ltb KELVIN_MAX k = false ->
  F32.clamp k KELVIN_MIN KELVIN_MAX = k.
Proof. intros H1 H2. unfold F32.clamp. rewrite H1, H2. reflexivity. Qed.

(** A clamped temperature never exceeds the seam. *)
Lemma clamp_below_seam (k : F32.t) :
  F32.is_nan k = false ->
  F32.leb (F32.clamp k KELVIN_MIN KELVIN_MAX) (FZ 6600) = true.
Proof.
  intros Hnan. unfold F32.clamp.
  destruct (F32.ltb k KELVIN_MIN) eqn:E1; [vm_compute; reflexivity|].
  destruct (F32.ltb KELVIN_MAX k) eqn:E2; [vm_compute; reflexivity|].
  clear E1. rewrite seam_value. rewrite KELVIN_MAX_value in E2.
  unfold F32.ltb, F32.leb, SFltb, SFleb, SFcompare in *.
  destruct k as [s|s| |s m e]; try destruct s; try discriminate; try reflexivity.
  rewrite compare_cont_Eq in *.
  destruct (Z.compare_spec (-11) e) as [He|He|He]; try discriminate.
  - subst e. rewrite Z.compare_refl.
    assert (Hm : (m < 13516800)%positive).
    { destruct (13312000 ?= m)%positive eqn:C; try discriminate.
      - apply Pos.compare_eq in C. subst m. reflexivity.
      - apply Pos.compare_gt_iff in C.
        apply Pos.lt_trans with (1 := C). reflexivity. }
    apply Pos.compare_lt_iff in Hm. rewrite Hm. reflexivity.
  - destruct (Z.compare_spec e (-11)) as [He'|He'|He']; try lia; reflexivity.
Qed.

(** C8.  [kelvinToRgb] works on its input clamped to 2000-6500 K:
    inputs below 2000 K behave as 2000 K, inputs above 6500 K as
    6500 K.  The two formulas are told apart by [kelvin <= 6600]:
    6600 K and the binary32 value just below it fall in the lower
    formula, the value just above in the upper one.  Because of the
    clamp every input that is not NaN is computed by the lower
    formula, and the outputs at 6600 K and at the values just below
    and just above it are the same: there is no step at the seam. *)
Theorem kelvinToRgb_seam (k : F32.t) :
  kelvinToRgb logf powf k
  = kelvinToRgb logf powf (F32.clamp k KELVIN_MIN KELVIN_MAX)
  /\ (if F32.ltb k KELVIN_MIN then
        kelvinToRgb logf powf k = kelvinToRgb logf powf (FZ 2000)
      else if F32.ltb KELVIN_MAX k then
        kelvinToRgb logf powf k = kelvinToRgb logf powf (FZ 6500)
      else True)
  /\ (kelvinBranches logf powf (FZ 6600) = kelvinLower logf (FZ 6600)
      /\ kelvinBranches logf powf (F32.pred (FZ 6600))
         = kelvinLower logf (F32.pred (FZ 6600))
      /\ kelvinBranches logf powf (F32.succ (FZ 6600))
         = kelvinUpper powf (F32.succ (FZ 6600)))
  /\ (if F32.is_nan k then True
      else kelvinToRgb logf powf k
           = kelvinLower logf (F32.clamp k KELVIN_MIN KELVIN_MAX))
  /\ (kelvinToRgb logf powf (F32.pred (FZ 6600)) = kelvinToRgb logf powf (FZ 6600)
      /\ kelvinToRgb logf powf (F32.succ (FZ 6600)) = kelvinToRgb logf powf (FZ 6600)).
Proof.
  assert (Hclamp2000 : F32.clamp (FZ 2000) KELVIN_MIN KELVIN_MAX = KELVIN_MIN)
    by (vm_compute; reflexivity).
  assert (Hclamp6500 : F32.clamp (FZ 6500) KELVIN_MIN KELVIN_MAX = KELVIN_MAX)
    by (vm_compute; reflexivity).
  assert (Hseam : F32.clamp (FZ 6600) KELVIN_MIN KELVIN_MAX = KELVIN_MAX)
    by (vm_compute; reflexivity).
  assert (Hpred : F32.clamp (F32.pred (FZ 6600)) KELVIN_MIN KELVIN_MAX = KELVIN_MAX)
    by (vm_compute; reflexivity).
  assert (Hsucc : F32.clamp (F32.succ (FZ 6600)) KELVIN_MIN KELVIN_MAX = KELVIN_MAX)
    by (vm_compute; reflexivity).
  split; [|split; [|split; [|split]]].
  - unfold kelvinToRgb, F32.clamp.
    destruct (F32.ltb k KELVIN_MIN) eqn:E1.
    + change (F32.ltb KELVIN_MIN KELVIN_MIN) with false.
      change (F32.ltb KELVIN_MAX KELVIN_MIN) with false. reflexivity.
    + destruct (F32.ltb KELVIN_MAX k) eqn:E2.
      * change (F32.ltb KELVIN_MAX KELVIN_MIN) with false.
        change (F32.ltb KELVIN_MAX KELVIN_MAX) with false. reflexivity.
      * rewrite E1, E2. reflexivity.
  - destruct (F32.ltb k KELVIN_MIN) eqn:E1.
    + unfold kelvinToRgb. rewrite (clamp_below k E1), Hclamp2000. reflexivity.
    + destruct (F32.ltb KELVIN_MAX k) eqn:E2; [|exact I].
      unfold kelvinToRgb. rewrite (clamp_above k E2), Hclamp6500. reflexivity.
  - unfold kelvinBranches.
    change (F32.leb (FZ 6600) (FZ 6600)) with true.
    change (F32.leb (F32.pred (FZ 6600)) (FZ 6600)) with true.
    change (F32.leb (F32.succ (FZ 6600)) (FZ 6600)) with false.
    repeat split; reflexivity.
  - destruct (F32.is_nan k) eqn:En; [exact I|].
    unfold kelvinToRgb, kelvinBranches.
    rewrite (clamp_below_seam k En). reflexivity.
  - unfold kelvinToRgb. rewrite Hseam, Hpred, Hsucc. split; reflexivity.
Qed.

End KelvinFacts.

(** * Further properties *)

(** ** Enumeration *)

Lemma forall_block_spec (bits : nat) :
  forall (base : Z) (p : Z -> bool),
  forall_block bits base p = true ->
  forall z, base <= z < base + 2 ^ Z.of_nat bits -> p z = true.
Proof.
  induction bits as [|k IH]; intros base p H z Hz.
  - simpl in H, Hz. replace z with base by lia. exact H.
  - cbn [forall_block] in H.
    destruct (forall_block k base p) eqn:E; [|discriminate].
    rewrite Nat2Z.inj_succ, Z.pow_succ_r in Hz by lia.
    destruct (Z.lt_ge_cases z (base + 2 ^ Z.of_nat k)) as [Hlo|Hhi].
    + apply (IH base p E). lia.
    + apply (IH _ p H). lia.
Qed.

Lemma below_65536 (z : Z) : is_u16 z -> 0 <= z < 0 + 2 ^ Z.of_nat 16.
Proof. unfold is_u16. change (2 ^ Z.of_nat 16) with 65536. lia. Qed.

Lemma same_eq (x y : F32.t) : F32.same x y = true -> x = y.
Proof.
  destruct x as [a|a| |a m e], y as [b|b| |b n f]; simpl; try discriminate;
    try reflexivity.
  - intros H. apply Bool.eqb_prop in H. congruence.
  - intros H. apply Bool.eqb_prop in H. congruence.
  - intros H. apply andb_true_iff in H as [H He]. apply andb_true_iff in H as [Hs Hm].
    apply Bool.eqb_prop in Hs. apply Pos.eqb_eq in Hm. apply Z.eqb_eq in He. congruence.
Qed.

(** ** More on the colour conversions *)

Section MoreColourFacts.

Import AsyncEspAlexaColorUtils.

Lemma byte_order_checked : forall_below 256 ColourChecks.byte_order_row = true.
Proof. vm_cast_no_check (eq_refl true). Qed.

Lemma byte_absdiff_checked : forall_below 256 ColourChecks.byte_absdiff_row = true.
Proof. vm_cast_no_check (eq_refl true). Qed.

Lemma byte_threshold_checked : forall_below 256 ColourChecks.byte_threshold_at = true.
Proof. vm_cast_no_check (eq_refl true). Qed.

Lemma byte_cast_checked : forall_below 256 ColourChecks.byte_cast_at = true.
Proof. vm_cast_no_check (eq_refl true). Qed.

Lemma valExact_checked : forall_below 256 ColourChecks.valExact_at = true.
Proof. vm_cast_no_check (eq_refl true). Qed.

Lemma satExact_checked : forall_below 256 ColourChecks.satExact_row = true.
Proof. vm_cast_no_check (eq_refl true). Qed.

Lemma hsWhite_checked : forall_block 16 0 ColourChecks.hsWhite_at = true.
Proof. vm_cast_no_check (eq_refl true). Qed.

Lemma scaleZero_checked : forall_below 256 ColourChecks.scaleZero_at = true.
Proof. vm_cast_no_check (eq_refl true). Qed.

Lemma kelvinNumber_checked : forall_block 16 0 ColourChecks.kelvinNumber_at = true.
Proof. vm_cast_no_check (eq_refl true). Qed.

Lemma redScale_checked : forall_below 256 ColourChecks.redScale_at = true.
Proof. vm_cast_no_check (eq_refl true). Qed.

Lemma FZ_ltb (a b : Z) : is_u8 a -> is_u8 b -> F32.ltb (FZ a) (FZ b) = (a <? b).
Proof.
  intros Ha Hb.
  pose proof (forall_below_spec _ _ byte_order_checked a (below_256 a Ha)) as H.
  pose proof (forall_below_spec _ _ H b (below_256 b Hb)) as H'.
  apply Bool.eqb_prop in H'. exact H'.
Qed.

Lemma FZ_absdiff (a b : Z) :
  is_u8 a -> is_u8 b -> F32.abs (F32.sub (FZ a) (FZ b)) = FZ (Z.abs (a - b)).
Proof.
  intros Ha Hb.
  pose proof (forall_below_spec _ _ byte_absdiff_checked a (below_256 a Ha)) as H.
  pose proof (forall_below_spec _ _ H b (below_256 b Hb)) as H'.
  apply same_eq. exact H'.
Qed.

Lemma max3_FZ (r g b : Z) :
  is_u8 r -> is_u8 g -> is_u8 b ->
  F32.max3 (FZ r) (FZ g) (FZ b) = FZ (Z.max (Z.max r g) b).
Proof.
  intros Hr Hg Hb. unfold F32.max3, F32.max2.
  rewrite (FZ_ltb r g Hr Hg).
  destruct (Z.ltb_spec r g) as [Hlt|Hge].
  - rewrite (FZ_ltb g b Hg Hb).
    destruct (Z.ltb_spec g b); f_equal; lia.
  - rewrite (FZ_ltb r b Hr Hb).
    destruct (Z.ltb_spec r b); f_equal; lia.
Qed.

Lemma byte_cast (c : Z) :
  is_u8 c ->
  F32.to_u8 (FZ c) = c
  /\ F32.eqb (FZ c) F32.zero = (c =? 0)
  /\ F32.to_u8 (F32.clamp (FZ c) (FZ RGB_MIN_VAL) (FZ RGB_MAX_VAL)) = c.
Proof.
  intros Hc.
  pose proof (forall_below_spec _ _ byte_cast_checked c (below_256 c Hc)) as H.
  unfold ColourChecks.byte_cast_at in H.
  apply andb_true_iff in H as [H H3]. apply andb_true_iff in H as [H1 H2].
  apply Z.eqb_eq in H1, H3. apply Bool.eqb_prop in H2. auto.
Qed.

(** The largest pairwise difference of three bytes. *)
Lemma chroma_FZ (r g b : Z) :
  is_u8 r -> is_u8 g -> is_u8 b ->
  F32.max3 (F32.abs (F32.sub (FZ r) (FZ g))) (F32.abs (F32.sub (FZ r) (FZ b)))
    (F32.abs (F32.sub (FZ g) (FZ b)))
  = FZ (Z.max (Z.max (Z.abs (r - g)) (Z.abs (r - b))) (Z.abs (g - b))).
Proof.
  intros Hr Hg Hb.
  rewrite (FZ_absdiff r g Hr Hg), (FZ_absdiff r b Hr Hb), (FZ_absdiff g b Hg Hb).
  unfold is_u8 in *. apply max3_FZ; unfold is_u8; lia.
Qed.

Lemma isCtLikeColor_chroma (r g b : Z) :
  is_u8 r -> is_u8 g -> is_u8 b ->
  isCtLikeColor r g b defaultChromaDiff
  = (Z.max (Z.max (Z.abs (r - g)) (Z.abs (r - b))) (Z.abs (g - b)) <=? 20).
Proof.
  intros Hr Hg Hb. unfold isCtLikeColor.
  rewrite (chroma_FZ r g b Hr Hg Hb).
  set (d := Z.max _ _).
  assert (Hd : is_u8 d) by (unfold is_u8 in *; subst d; lia).
  pose proof (forall_below_spec _ _ byte_threshold_checked d (below_256 d Hd)) as H.
  apply Bool.eqb_prop in H. exact H.
Qed.

(** X1.  With the default threshold, [isCtLikeColor] holds exactly
    when no two of the three channels differ by more than 20. *)
Theorem isCtLikeColor_default (r g b : Z) :
  is_u8 r -> is_u8 g -> is_u8 b ->
  isCtLikeColor r g b defaultChromaDiff
  = (Z.max (Z.max (Z.abs (r - g)) (Z.abs (r - b))) (Z.abs (g - b)) <=? 20).
Proof.
  intros Hr Hg Hb. exact (isCtLikeColor_chroma r g b Hr Hg Hb).
Qed.

Lemma isCtLikeColor_default_witness :
  isCtLikeColor 200 190 180 defaultChromaDiff = true
  /\ isCtLikeColor 200 190 179 defaultChromaDiff = false.
Proof.
  split.
  - rewrite (isCtLikeColor_default 200 190 180); [reflexivity | | |]; unfold is_u8; lia.
  - rewrite (isCtLikeColor_default 200 190 179); [reflexivity | | |]; unfold is_u8; lia.
Defined.

(** The saturation and value of [rgbToHsv], by the largest and the
    smallest channel. *)
Lemma rgbToHsv_parts (r g b : Z) :
  is_u8 r -> is_u8 g -> is_u8 b ->
  snd (fst (rgbToHsv r g b))
  = satOf (unit255 (Z.max (Z.max r g) b))
      (F32.sub (unit255 (Z.max (Z.max r g) b)) (unit255 (Z.min (Z.min r g) b)))
  /\ snd (rgbToHsv r g b) = valOf (unit255 (Z.max (Z.max r g) b)).
Proof.
  intros Hr Hg Hb. unfold rgbToHsv. cbn [fst snd].
  rewrite (max3_unit255 r g b Hr Hg Hb), (min3_unit255 r g b Hr Hg Hb).
  split; reflexivity.
Qed.

(** X2.  The value that [rgbToHsv] returns is [max(1, 254 * M / 255)]
    for the largest channel [M], and its saturation is the integer
    quotient [254 * (M - m) / M] for the smallest channel [m], or one
    less (0 when [M] is 0). *)
Theorem rgbToHsv_integer_formulas (r g b : Z) :
  is_u8 r -> is_u8 g -> is_u8 b ->
  let M := Z.max (Z.max r g) b in
  let m := Z.min (Z.min r g) b in
  let e := if M =? 0 then 0 else 254 * (M - m) / M in
  snd (rgbToHsv r g b) = Z.max 1 (254 * M / 255)
  /\ e - 1 <= snd (fst (rgbToHsv r g b)) <= e.
Proof.
  intros Hr Hg Hb M m e.
  destruct (rgbToHsv_parts r g b Hr Hg Hb) as [Hs Hv].
  fold M in Hs, Hv. fold m in Hs.
  assert (HM : is_u8 M) by (unfold is_u8 in *; subst M; lia).
  assert (Hm : is_u8 m) by (unfold is_u8 in *; subst m; lia).
  split.
  - rewrite Hv.
    pose proof (forall_below_spec _ _ valExact_checked M (below_256 M HM)) as H.
    apply Z.eqb_eq in H. exact H.
  - rewrite Hs.
    pose proof (forall_below_spec _ _ satExact_checked M (below_256 M HM)) as H.
    pose proof (forall_below_spec _ _ H m (below_256 m Hm)) as H'.
    unfold ColourChecks.satExact_at in H'.
    destruct (Z.ltb_spec M m) as [Hbad|_]; [subst M m; lia|].
    cbv zeta in H'. apply andb_true_iff in H' as [Hlo Hhi].
    apply Z.leb_le in Hlo, Hhi. subst e. lia.
Qed.

Lemma rgbToHsv_integer_formulas_witness :
  snd (rgbToHsv 10 20 30) = 29 /\ 168 <= snd (fst (rgbToHsv 10 20 30)) <= 169.
Proof.
  pose proof (rgbToHsv_integer_formulas 10 20 30) as H.
  cbv zeta in H.
  apply H; unfold is_u8; lia.
Defined.


Lemma rgbToHsv_sat_val_range (r g b : Z) :
  is_u8 r -> is_u8 g -> is_u8 b ->
  0 <= snd (fst (rgbToHsv r g b)) <= 254 /\ 1 <= snd (rgbToHsv r g b) <= 254.
Proof.
  intros Hr Hg Hb.
  destruct (rgbToHsv_parts r g b Hr Hg Hb) as [-> ->].
  assert (HM : is_u8 (Z.max (Z.max r g) b)) by (unfold is_u8 in *; lia).
  assert (Hm : is_u8 (Z.min (Z.min r g) b)) by (unfold is_u8 in *; lia).
  split.
  - apply (satOf_range _ _ HM Hm). lia.
  - apply (valOf_range _ HM).
Qed.

(** X3.  [rgbwToHsv] adds the white channel to each colour channel,
    stopping at 255, and converts the result: with no white it is
    [rgbToHsv]; with full white it is hue 0, saturation 0, value 254
    whatever the colour; and its saturation and value stay within
    [0, 254] and [1, 254]. *)
Theorem rgbwToHsv_folds_white (r g b w : Z) :
  is_u8 r -> is_u8 g -> is_u8 b -> is_u8 w ->
  rgbwToHsv r g b w
  = rgbToHsv (Z.min 255 (r + w)) (Z.min 255 (g + w)) (Z.min 255 (b + w))
  /\ rgbwToHsv r g b 0 = rgbToHsv r g b
  /\ rgbwToHsv r g b 255 = (0, 0, 254)
  /\ 0 <= snd (fst (rgbwToHsv r g b w)) <= 254
  /\ 1 <= snd (rgbwToHsv r g b w) <= 254.
Proof.
  intros Hr Hg Hb Hw. unfold is_u8 in *.
  assert (E : rgbwToHsv r g b w
              = rgbToHsv (Z.min 255 (r + w)) (Z.min 255 (g + w)) (Z.min 255 (b + w))).
  { unfold rgbwToHsv, RGB_MAX_VAL. rewrite !u8_small by lia. reflexivity. }
  split; [exact E|]. split; [|split].
  - unfold rgbwToHsv, RGB_MAX_VAL. rewrite !Z.add_0_r.
    rewrite !Z.min_r by lia. rewrite !u8_small by lia. reflexivity.
  - unfold rgbwToHsv, RGB_MAX_VAL.
    rewrite !Z.min_l by lia. vm_compute. reflexivity.
  - rewrite E. apply rgbToHsv_sat_val_range; unfold is_u8; lia.
Qed.

Lemma rgbwToHsv_folds_white_witness :
  rgbwToHsv 200 10 10 100 = rgbToHsv 255 110 110
  /\ rgbwToHsv 200 10 10 0 = rgbToHsv 200 10 10
  /\ rgbwToHsv 200 10 10 255 = (0, 0, 254).
Proof.
  pose proof (rgbwToHsv_folds_white 200 10 10 100) as H.
  destruct H as (H1 & H2 & H3 & _); [unfold is_u8; lia ..|].
  split; [exact H1 | split; [exact H2 | exact H3]].
Defined.

Lemma hsToRgb_range (hue saturation : Z) :
  let '(r, g, b) := hsToRgb hue saturation in
  is_u8 r /\ is_u8 g /\ is_u8 b.
Proof.
  unfold hsToRgb.
  assert (Hmax : is_u8 RGB_MAX_VAL) by (unfold is_u8, RGB_MAX_VAL; lia).
  assert (Hmin : is_u8 RGB_MIN_VAL) by (unfold is_u8, RGB_MIN_VAL; lia).
  assert (Hu : forall x, is_u8 (F32.to_u8 x)) by (intros x; apply u8_range).
  cbv zeta.
  destruct (Z.rem _ 6) as [|p|p];
    repeat match goal with
           | |- context [match ?x with _ => _ end] => is_var x; destruct x
           end;
    cbv beta iota zeta; (split; [|split]); first [assumption | apply Hu].
Qed.

Lemma scaleChannel_zero (c : Z) :
  is_u8 c ->
  scaleChannel c (F32.div (FZ 0) (FZ (ALEXA_MAX_BRI_VAL - ALEXA_MIN_BRI_VAL))) = 0.
Proof.
  intros Hc.
  pose proof (forall_below_spec _ _ scaleZero_checked c (below_256 c Hc)) as H.
  apply Z.eqb_eq in H. exact H.
Qed.

(** X4.  Value 0 is black: for every hue and saturation [hsvToRgb]
    gives (0, 0, 0) and [hsvToRgbw] gives (0, 0, 0, 0). *)
Theorem hsvToRgb_value_zero (hue saturation : Z) :
  hsvToRgb hue saturation 0 = (0, 0, 0)
  /\ hsvToRgbw hue saturation 0 = (0, 0, 0, 0).
Proof.
  assert (E : hsvToRgb hue saturation 0 = (0, 0, 0)).
  { unfold hsvToRgb. pose proof (hsToRgb_range hue saturation) as H.
    destruct (hsToRgb hue saturation) as [[r g] b]. destruct H as (Hr & Hg & Hb).
    rewrite (scaleChannel_zero r Hr), (scaleChannel_zero g Hg), (scaleChannel_zero b Hb).
    reflexivity. }
  split; [exact E|]. unfold hsvToRgbw. rewrite E. reflexivity.
Qed.

Lemma hsToRgb_unsaturated (hue : Z) : is_u16 hue -> hsToRgb hue 0 = (255, 255, 255).
Proof.
  intros Hh.
  pose proof (forall_block_spec _ _ _ hsWhite_checked hue (below_65536 hue Hh)) as H.
  unfold ColourChecks.hsWhite_at in H.
  destruct (hsToRgb hue 0) as [[r g] b].
  apply andb_true_iff in H as [H Hb]. apply andb_true_iff in H as [Hr Hg].
  apply Z.eqb_eq in Hr, Hg, Hb. congruence.
Qed.

(** X5.  Saturation 0 is grey: for every hue, [hsvToRgb] gives three
    equal channels, and [hsvToRgbw] puts all of it on the white
    channel and nothing on red, green and blue. *)
Theorem hsvToRgbw_unsaturated (hue value : Z) :
  is_u16 hue ->
  let c := scaleChannel 255
             (F32.div (FZ value) (FZ (ALEXA_MAX_BRI_VAL - ALEXA_MIN_BRI_VAL))) in
  hsvToRgb hue 0 value = (c, c, c)
  /\ hsvToRgbw hue 0 value = (0, 0, 0, c)
  /\ is_u8 c.
Proof.
  intros Hh c.
  assert (E : hsvToRgb hue 0 value = (c, c, c)).
  { unfold hsvToRgb. rewrite (hsToRgb_unsaturated hue Hh). reflexivity. }
  assert (Hc : is_u8 c) by apply scaleChannel_range.
  split; [exact E|]. split; [|exact Hc].
  unfold hsvToRgbw. rewrite E. cbv beta iota zeta.
  rewrite min3Z_spec, !Z.min_id, Z.sub_diag. reflexivity.
Qed.

Lemma hsvToRgbw_unsaturated_witness :
  hsvToRgb 40000 0 127 = (128, 128, 128) /\ hsvToRgbw 40000 0 127 = (0, 0, 0, 128).
Proof.
  pose proof (hsvToRgbw_unsaturated 40000 127) as H. cbv zeta in H.
  destruct H as (H1 & H2 & _); [unfold is_u16; lia|].
  split; [exact H1 | exact H2].
Defined.

Section WithLibm.

Variable logf : F32.t -> F32.t.
Variable powf : F32.t -> F32.t -> F32.t.
Variable expf : F32.t -> F32.t.

Lemma kelvinToRgb_red (k : F32.t) :
  F32.is_nan k = false -> fst (fst (kelvinToRgb logf powf k)) = FZ RGB_MAX_VAL.
Proof.
  intros Hn. unfold kelvinToRgb, kelvinBranches.
  rewrite (clamp_below_seam k Hn). reflexivity.
Qed.

(** X6.  In colour-temperature mode the red channel carries the
    brightness: for every brightness byte and every 16-bit mired
    count, whatever [log] computes, [ctToRgb] returns the brightness
    as red, and [ctToRgbw] takes the smallest channel out as white. *)
Theorem ctToRgb_red_is_brightness (brightness colorTemperature : Z) :
  is_u8 brightness -> is_u16 colorTemperature ->
  let '(r, g, b) := ctToRgb logf powf brightness colorTemperature in
  let w := Z.min r (Z.min g b) in
  r = brightness
  /\ ctToRgbw logf powf brightness colorTemperature = (r - w, g - w, b - w, w).
Proof.
  intros Hb Hct.
  assert (Hn : F32.is_nan (F32.div (FZ 1000000) (FZ colorTemperature)) = false).
  { pose proof (forall_block_spec _ _ _ kelvinNumber_checked colorTemperature
                  (below_65536 _ Hct)) as H.
    unfold ColourChecks.kelvinNumber_at in H. apply negb_true_iff in H. exact H. }
  pose proof (kelvinToRgb_red _ Hn) as Hred.
  unfold ctToRgbw, ctToRgb.
  destruct (kelvinToRgb logf powf (F32.div (FZ 1000000) (FZ colorTemperature)))
    as [[kr kg] kb].
  cbn [fst] in Hred. subst kr.
  pose proof (forall_below_spec _ _ redScale_checked brightness (below_256 _ Hb)) as Hr.
  unfold ColourChecks.redScale_at in Hr. apply Z.eqb_eq in Hr.
  rewrite Hr. cbv zeta. split; [reflexivity|].
  set (g := F32.to_u8 _). set (b := F32.to_u8 _).
  assert (Hg : is_u8 g) by apply u8_range.
  assert (Hb' : is_u8 b) by apply u8_range.
  rewrite min3Z_spec. unfold is_u8 in *. rewrite !u8_small by lia. reflexivity.
Qed.

(** X7.  [rgbToCtBrightness] returns the largest channel as
    brightness, and the default 500 mireds for black and for every
    colour in which two channels differ by more than 20. *)
Theorem rgbToCtBrightness_brightness (r g b : Z) :
  is_u8 r -> is_u8 g -> is_u8 b ->
  let M := Z.max (Z.max r g) b in
  fst (rgbToCtBrightness expf r g b) = M
  /\ (M = 0 \/ 20 < Z.max (Z.max (Z.abs (r - g)) (Z.abs (r - b))) (Z.abs (g - b)) ->
      snd (rgbToCtBrightness expf r g b) = 500).
Proof.
  intros Hr Hg Hb M. unfold rgbToCtBrightness.
  rewrite (max3_FZ r g b Hr Hg Hb). fold M.
  assert (HM : is_u8 M) by (unfold is_u8 in *; subst M; lia).
  destruct (byte_cast M HM) as (Hcast & Hzero & Hclamp).
  rewrite Hzero.
  rewrite (isCtLikeColor_chroma r g b Hr Hg Hb).
  destruct (Z.eqb_spec M 0) as [E0|N0].
  - split; [symmetry; exact E0 | reflexivity].
  - destruct (Z.leb_spec
                (Z.max (Z.max (Z.abs (r - g)) (Z.abs (r - b))) (Z.abs (g - b))) 20)
      as [Hle|Hgt]; cbn [negb fst snd].
    + split; [exact Hclamp|]. intros [E|E]; [contradiction | lia].
    + split; [exact Hcast | reflexivity].
Qed.

End WithLibm.

End MoreColourFacts.

Lemma ctToRgb_red_is_brightness_witness :
  let '(r, g, b) :=
    AsyncEspAlexaColorUtils.ctToRgb (fun x => x) (fun x _ => x) 200 300 in
  let w := Z.min r (Z.min g b) in
  r = 200
  /\ AsyncEspAlexaColorUtils.ctToRgbw (fun x => x) (fun x _ => x) 200 300
     = (r - w, g - w, b - w, w).
Proof.
  apply (ctToRgb_red_is_brightness (fun x => x) (fun x _ => x) 200 300).
  - unfold is_u8. lia.
  - unfold is_u16. lia.
Defined.

Lemma rgbToCtBrightness_brightness_witness :
  fst (AsyncEspAlexaColorUtils.rgbToCtBrightness (fun x => x) 10 200 30) = 200
  /\ snd (AsyncEspAlexaColorUtils.rgbToCtBrightness (fun x => x) 10 200 30) = 500.
Proof.
  pose proof (rgbToCtBrightness_brightness (fun x => x) 10 200 30) as H.
  cbv zeta in H. destruct H as [H1 H2]; [unfold is_u8; lia ..|].
  split; [exact H1|]. apply H2. right. vm_compute. reflexivity.
Defined.

(** ** More on lights and the output manager *)

Lemma optZ_eqb_true (a : option Z) (b : Z) : Light.optZ_eqb a b = true -> a = Some b.
Proof.
  destruct a as [x|]; simpl; [|discriminate].
  intros H. apply Z.eqb_eq in H. congruence.
Qed.

(** After [update] the duty last written is the one the state asks for. *)
Lemma update_sync (l : Light.t) :
  Light.wired l ->
  exists l', Light.update l = Some l'
             /\ Light.state l' = Light.state l
             /\ Light.pin l' = Light.pin l
             /\ Light.invert l' = Light.invert l
             /\ Light.lastWrittenValue l' = Some (Light.outputValue l').
Proof.
  intros Hw. unfold Light.wired in Hw. unfold Light.update.
  fold (Light.outputValue l).
  destruct (Light.optZ_eqb (Light.lastWrittenValue l) (Light.outputValue l)) eqn:E;
    cbn [negb].
  - exists l. repeat split. apply optZ_eqb_true. exact E.
  - destruct (ControllerHardware.getPwmChannel (Light.pin l)) as [c|]; [|congruence].
    eexists. split; [reflexivity|]. repeat split.
Qed.

Lemma withState_sync (l : Light.t) (s : Light.State) :
  Light.wired l ->
  exists l', Light.update (Light.withState l s) = Some l'
             /\ Light.state l' = s
             /\ Light.pin l' = Light.pin l
             /\ Light.invert l' = Light.invert l
             /\ Light.wired l'
             /\ Light.lastWrittenValue l' = Some (Light.outputValue l').
Proof.
  intros Hw.
  destruct (update_sync (Light.withState l s) Hw) as (l' & E & Hs & Hp & Hi & Hd).
  exists l'. repeat split; try assumption.
  unfold Light.wired in *. rewrite Hp. exact Hw.
Qed.

(** X8.  The primitives that change a light ([toggle], [setValue],
    [setOn], [setState]) all end by writing the duty of the new
    state: they return, and the duty last written is [value] when the
    light is on and 0 when it is off (255 minus that on an inverted
    output).  [setValue] changes the value and leaves the byte of the
    on flag as it is; [setOn] stores the flag as 1 or 0 and leaves
    the value.  Switching a light off therefore always drives 0,
    whatever value it keeps. *)
Theorem light_duty_follows_state (l : Light.t) (v : Z) (b : bool) (s : Light.State) :
  Light.wired l ->
  (exists l', Light.toggle l = Some l'
              /\ Light.lastWrittenValue l' = Some (Light.outputValue l'))
  /\ (exists l', Light.setValue l v = Some l'
                 /\ Light.state l' = Light.mkRaw (Light.flag (Light.state l)) v
                 /\ Light.on (Light.state l') = Light.on (Light.state l)
                 /\ Light.lastWrittenValue l' = Some (Light.outputValue l'))
  /\ (exists l', Light.setOn l b = Some l'
                 /\ Light.state l' = Light.mkState b (Light.value (Light.state l))
                 /\ Light.lastWrittenValue l' = Some (Light.outputValue l'))
  /\ (exists l', Light.setState l s = Some l'
                 /\ Light.state l' = s
                 /\ Light.lastWrittenValue l' = Some (Light.outputValue l'))
  /\ (exists l', Light.setOn l false = Some l'
                 /\ Light.value (Light.state l') = Light.value (Light.state l)
                 /\ Light.lastWrittenValue l'
                    = Some (if Light.invert l then 255 else 0)).
Proof.
  intros Hw. repeat split.
  - unfold Light.toggle.
    destruct (withState_sync l
                (Light.mkState (negb (Light.on (Light.state l)))
                   (if negb (Light.on (Light.state l))
                       && (Light.value (Light.state l) =? Light.OFF_VALUE)
                    then Light.MAX_BRIGHTNESS else Light.value (Light.state l))) Hw)
      as (l' & E & _ & _ & _ & _ & Hd).
    exists l'. split; assumption.
  - unfold Light.setValue.
    destruct (withState_sync l (Light.mkRaw (Light.flag (Light.state l)) v) Hw)
      as (l' & E & Hs & _ & _ & _ & Hd).
    exists l'. split; [exact E|]. split; [exact Hs|]. split; [|exact Hd].
    rewrite Hs. reflexivity.
  - unfold Light.setOn.
    destruct (withState_sync l (Light.mkState b (Light.value (Light.state l))) Hw)
      as (l' & E & Hs & _ & _ & _ & Hd).
    exists l'. repeat split; assumption.
  - unfold Light.setState.
    destruct (withState_sync l s Hw) as (l' & E & Hs & _ & _ & _ & Hd).
    exists l'. repeat split; assumption.
  - unfold Light.setOn.
    destruct (withState_sync l (Light.mkState false (Light.value (Light.state l))) Hw)
      as (l' & E & Hs & _ & Hi & _ & Hd).
    exists l'. split; [exact E|]. rewrite Hs. split; [reflexivity|].
    rewrite Hd. unfold Light.outputValue. rewrite Hs, Hi.
    destruct (Light.invert l); reflexivity.
Qed.

Lemma light_duty_follows_state_witness :
  let l := Light.mk false 13 (Light.mkState true 200) (Some 200) in
  exists l', Light.setOn l false = Some l'
             /\ Light.value (Light.state l') = 200
             /\ Light.lastWrittenValue l' = Some 0.
Proof.
  intros l.
  destruct (light_duty_follows_state l 0 false (Light.mkState false 0)) as (_ & _ & _ & _ & H).
  - unfold Light.wired. simpl. discriminate.
  - exact H.
Defined.

(** A loop over the lights returns when each step does, and relates
    every light to its successor. *)
Lemma forEachLight_spec (f : Light.t -> option Light.t)
    (R : Light.t -> Light.t -> Prop) (m : Output.Manager) :
  (forall c, exists l', f (Array4.at_ (Output.lights m) c) = Some l'
                        /\ R (Array4.at_ (Output.lights m) c) l') ->
  exists m', Output.forEachLight f m = Some m'
             /\ Output.colorNotificationThrottle m' = Output.colorNotificationThrottle m
             /\ forall c, R (Array4.at_ (Output.lights m) c)
                            (Array4.at_ (Output.lights m') c).
Proof.
  intros H. unfold Output.forEachLight.
  destruct (H Red) as (l0 & E0 & R0). destruct (H Green) as (l1 & E1 & R1).
  destruct (H Blue) as (l2 & E2 & R2). destruct (H White) as (l3 & E3 & R3).
  cbn [Array4.at_] in *.
  rewrite E0. cbn [bind]. rewrite E1. cbn [bind]. rewrite E2. cbn [bind].
  rewrite E3. cbn [bind].
  eexists. split; [reflexivity|]. split; [reflexivity|].
  intros c. destruct c; cbn; assumption.
Qed.

Lemma any_of_false {A} (p : A -> bool) (a : Array4.t A) :
  (forall c, p (Array4.at_ a c) = false) -> Array4.any_of p a = false.
Proof.
  intros H. unfold Array4.any_of, Array4.to_list. cbn [existsb].
  pose proof (H Red) as H0. pose proof (H Green) as H1.
  pose proof (H Blue) as H2. pose proof (H White) as H3.
  cbn [Array4.at_] in *. rewrite H0, H1, H2, H3. reflexivity.
Qed.

Lemma any_of_true {A} (p : A -> bool) (a : Array4.t A) (c : Color) :
  p (Array4.at_ a c) = true -> Array4.any_of p a = true.
Proof.
  intros H. unfold Array4.any_of, Array4.to_list. cbn [existsb].
  destruct c; cbn [Array4.at_] in H; rewrite H; rewrite ?orb_true_r; reflexivity.
Qed.

(** X9.  [Manager::toggle] on one channel of non-inverted lights.
    A visible channel is switched off, keeps its value and gets duty
    0.  A channel that is not visible ends on, with value 255 if its
    value was 0; the duty written is the value it had before, so a
    channel toggled on from value 0 is on at 255 in its state while
    the duty last written is 0.  The other channels and the
    notification throttle are untouched. *)
Theorem manager_toggle_channel (m : Output.Manager) (c : Color) :
  Output.wired m ->
  Light.invert (Array4.at_ (Output.lights m) c) = false ->
  is_u8 (Light.value (Light.state (Array4.at_ (Output.lights m) c))) ->
  exists m', Output.toggle m c = Some m'
    /\ Output.colorNotificationThrottle m' = Output.colorNotificationThrottle m
    /\ (forall c', c' <> c ->
          Array4.at_ (Output.lights m') c' = Array4.at_ (Output.lights m) c')
    /\ let l := Array4.at_ (Output.lights m) c in
       let l' := Array4.at_ (Output.lights m') c in
       let v := Light.value (Light.state l) in
       if Light.isVisible l then
         Light.state l' = Light.mkState false v
         /\ Light.lastWrittenValue l' = Some 0
       else
         Light.state l' = Light.mkState true (if v =? 0 then 255 else v)
         /\ Light.lastWrittenValue l' = Some v.
Proof.
  intros Hw Hinv Hv. unfold Output.toggle.
  set (l := Array4.at_ (Output.lights m) c) in *.
  set (v := Light.value (Light.state l)) in *.
  unfold Light.setOn.
  destruct (withState_sync l (Light.mkState (negb (Light.isVisible l)) v) (Hw c))
    as (l1 & E & Hs & Hp & Hi & _ & Hd).
  fold v. rewrite E. cbn [bind].
  eexists. split; [reflexivity|]. split; [reflexivity|]. split.
  - intros c' Hne. unfold Output.withLights. cbn [Output.lights].
    destruct c, c'; try congruence; reflexivity.
  - cbv zeta.
    assert (Hat : forall x, Array4.at_ (Array4.set (Output.lights m) c x) c = x)
      by (intros x; destruct c; reflexivity).
    unfold Output.withLights. cbn [Output.lights]. rewrite Hat.
    assert (Hout : Light.outputValue l1
                   = if negb (Light.isVisible l) then v else 0).
    { unfold Light.outputValue. rewrite Hs, Hi, Hinv. cbn [Light.on Light.value].
      unfold is_u8 in Hv.
      destruct (negb (Light.isVisible l)); [apply u8_small; lia | reflexivity]. }
    destruct (Light.isVisible l) eqn:Evis; cbn [negb] in *.
    + rewrite Hs, Hd, Hout. split; reflexivity.
    + unfold Light.makeVisible, Light.withState.
      cbn [Light.state Light.lastWrittenValue]. rewrite Hs, Hd, Hout.
      cbn [Light.value]. split; reflexivity.
Qed.

Lemma manager_toggle_channel_witness :
  let m := Output.makeManager 13 16 19 18 in
  exists m', Output.toggle m White = Some m'
    /\ Light.state (Array4.at_ (Output.lights m') White) = Light.mkState true 255
    /\ Light.lastWrittenValue (Array4.at_ (Output.lights m') White) = Some 0.
Proof.
  intros m.
  destruct (manager_toggle_channel m White) as (m' & E & _ & _ & H).
  - exact makeManager_wired.
  - reflexivity.
  - unfold is_u8. simpl. lia.
  - exists m'. split; [exact E|]. exact H.
Defined.

Lemma setOn_step (l : Light.t) (b : bool) :
  Light.wired l ->
  exists l', Light.setOn l b = Some l'
             /\ Light.state l' = Light.mkState b (Light.value (Light.state l))
             /\ Light.wired l'
             /\ Light.invert l' = Light.invert l
             /\ Light.lastWrittenValue l' = Some (Light.outputValue l').
Proof.
  intros Hw. unfold Light.setOn.
  destruct (withState_sync l (Light.mkState b (Light.value (Light.state l))) Hw)
    as (l' & E & Hs & _ & Hi & Hw' & Hd).
  exists l'. repeat split; assumption.
Qed.

Lemma setValue_step (l : Light.t) (v : Z) :
  Light.wired l ->
  exists l', Light.setValue l v = Some l'
             /\ Light.state l' = Light.mkRaw (Light.flag (Light.state l)) v
             /\ Light.wired l'
             /\ Light.invert l' = Light.invert l
             /\ Light.lastWrittenValue l' = Some (Light.outputValue l').
Proof.
  intros Hw. unfold Light.setValue.
  destruct (withState_sync l (Light.mkRaw (Light.flag (Light.state l)) v) Hw)
    as (l' & E & Hs & _ & Hi & Hw' & Hd).
  exists l'. repeat split; assumption.
Qed.

(** X10.  [toggleAll] looks at the whole fixture.  If any channel is
    visible (on with a non-zero value) every channel is switched off
    and keeps its value; otherwise every channel is switched on at
    255.  Either way the fixture's visibility is inverted and every
    duty written matches the new state. *)
Theorem toggleAll_uniform (m : Output.Manager) :
  Output.wired m ->
  exists m', Output.toggleAll m = Some m'
    /\ Output.anyVisible m' = negb (Output.anyVisible m)
    /\ forall c,
         let l := Array4.at_ (Output.lights m) c in
         let l' := Array4.at_ (Output.lights m') c in
         Light.state l'
         = (if Output.anyVisible m
            then Light.mkState false (Light.value (Light.state l))
            else Light.mkState true 255)
         /\ Light.lastWrittenValue l' = Some (Light.outputValue l').
Proof.
  intros Hw. unfold Output.toggleAll.
  destruct (Output.anyVisible m) eqn:Evis.
  - destruct (forEachLight_spec (fun light => Light.setOn light false)
               (fun l l' => Light.state l' = Light.mkState false (Light.value (Light.state l))
                            /\ Light.lastWrittenValue l' = Some (Light.outputValue l')) m)
      as (m' & E & _ & Hall).
    { intros c. destruct (setOn_step _ false (Hw c)) as (l' & E & Hs & _ & _ & Hd).
      exists l'. auto. }
    exists m'. split; [exact E|]. split; [|exact Hall].
    unfold Output.anyVisible. apply any_of_false. intros c.
    destruct (Hall c) as [Hs _]. unfold Light.isVisible. rewrite Hs. reflexivity.
  - destruct (forEachLight_spec
               (fun light => l1 <- Light.setOn light true ;;
                             Light.setValue l1 Light.ON_VALUE)
               (fun l l' => Light.state l' = Light.mkState true 255
                            /\ Light.lastWrittenValue l' = Some (Light.outputValue l')) m)
      as (m' & E & _ & Hall).
    { intros c. destruct (setOn_step _ true (Hw c)) as (l1 & E1 & Hs1 & Hw1 & _ & _).
      destruct (setValue_step l1 Light.ON_VALUE Hw1) as (l2 & E2 & Hs2 & _ & _ & Hd2).
      exists l2. rewrite E1. cbn [bind]. split; [exact E2|].
      rewrite Hs2, Hs1. split; [reflexivity | exact Hd2]. }
    exists m'. split; [exact E|]. split; [|exact Hall].
    unfold Output.anyVisible. apply (any_of_true _ _ Red).
    destruct (Hall Red) as [Hs _]. unfold Light.isVisible. rewrite Hs. reflexivity.
Qed.

Lemma toggleAll_uniform_witness :
  exists m', Output.toggleAll (Output.makeManager 13 16 19 18) = Some m'
    /\ Output.anyVisible m' = true
    /\ Output.getState m'
       = Output.mkState (Array4.mk (Light.mkState true 255) (Light.mkState true 255)
                           (Light.mkState true 255) (Light.mkState true 255)).
Proof.
  destruct (toggleAll_uniform (Output.makeManager 13 16 19 18) makeManager_wired)
    as (m' & E & Hvis & Hall).
  exists m'. split; [exact E|]. split; [exact Hvis|].
  pose proof (proj1 (Hall Red)) as H0. pose proof (proj1 (Hall Green)) as H1.
  pose proof (proj1 (Hall Blue)) as H2. pose proof (proj1 (Hall White)) as H3.
  cbn [Array4.at_] in H0, H1, H2, H3.
  unfold Output.getState, Array4.map, Light.getState.
  rewrite H0, H1, H2, H3. reflexivity.
Defined.

(** X11.  [turnOffAll] switches every channel off, keeps every value
    and writes the duty of the off state.  [turnOnAll] switches every
    channel on and raises a zero value to 255, but writes no duty:
    the duty last written to each light is what it was. *)
Theorem turnOffAll_turnOnAll (m : Output.Manager) :
  Output.wired m ->
  (exists m', Output.turnOffAll m = Some m'
     /\ Output.anyOn m' = false
     /\ forall c,
          let l := Array4.at_ (Output.lights m) c in
          let l' := Array4.at_ (Output.lights m') c in
          Light.state l' = Light.mkState false (Light.value (Light.state l))
          /\ Light.lastWrittenValue l' = Some (Light.outputValue l'))
  /\ (forall c,
        let l := Array4.at_ (Output.lights m) c in
        let l' := Array4.at_ (Output.lights (Output.turnOnAll m)) c in
        Light.state l'
        = Light.mkState true
            (if Light.value (Light.state l) =? 0 then 255 else Light.value (Light.state l))
        /\ Light.lastWrittenValue l' = Light.lastWrittenValue l)
  /\ Output.anyOn (Output.turnOnAll m) = true.
Proof.
  intros Hw. split; [|split].
  - destruct (forEachLight_spec (fun light => Light.setOn light false)
               (fun l l' => Light.state l' = Light.mkState false (Light.value (Light.state l))
                            /\ Light.lastWrittenValue l' = Some (Light.outputValue l')) m)
      as (m' & E & _ & Hall).
    { intros c. destruct (setOn_step _ false (Hw c)) as (l' & E & Hs & _ & _ & Hd).
      exists l'. auto. }
    exists m'. split; [exact E|]. split; [|exact Hall].
    unfold Output.anyOn. apply any_of_false. intros c.
    destruct (Hall c) as [Hs _]. unfold Light.isOn. rewrite Hs. reflexivity.
  - intros c. destruct c; split; reflexivity.
  - unfold Output.anyOn. apply (any_of_true _ _ Red). reflexivity.
Qed.

Lemma turnOffAll_turnOnAll_witness :
  let m := Output.makeManager 13 16 19 18 in
  Light.state (Array4.at_ (Output.lights (Output.turnOnAll m)) Blue)
  = Light.mkState true 255
  /\ Light.lastWrittenValue (Array4.at_ (Output.lights (Output.turnOnAll m)) Blue) = None.
Proof.
  intros m.
  destruct (turnOffAll_turnOnAll m makeManager_wired) as (_ & H & _).
  exact (H Blue).
Defined.

Section BrightnessFacts.

Variable powf : F32.t -> F32.t -> F32.t.

Lemma increaseBrightness_step (l : Light.t) :
  Light.wired l ->
  exists l', Light.increaseBrightness powf l = Some l'
             /\ Light.wired l'
             /\ Light.on (Light.state l') = Light.on (Light.state l)
             /\ 1 <= Light.value (Light.state l') <= 255.
Proof.
  intros Hw. unfold Light.increaseBrightness.
  destruct (Z.eqb_spec (Light.value (Light.state l)) Light.MAX_BRIGHTNESS) as [E|N].
  - exists l. repeat split; auto; rewrite E; vm_compute; discriminate.
  - destruct (withState_sync l
                (Light.mkRaw (Light.flag (Light.state l))
                   (Light.perceptualBrightnessStep powf (Light.value (Light.state l)) true))
                Hw) as (l' & E & Hs & _ & _ & Hw' & _).
    exists l'. rewrite Hs. unfold Light.on. cbn [Light.flag Light.value].
    pose proof (perceptualBrightnessStep_range powf (Light.value (Light.state l)) true).
    repeat split; auto; lia.
Qed.

(** X12.  [Manager::increaseBrightness] always returns a fixture with
    some channel on and every value in [1, 255]; starting with every
    channel off it switches all four on.  [Manager::decreaseBrightness]
    changes nothing when no channel is on. *)
Theorem manager_brightness_steps (m : Output.Manager) :
  Output.wired m ->
  (exists m', Output.increaseBrightness powf m = Some m'
     /\ (forall c, 1 <= Output.getValue m' c <= 255)
     /\ (forall c, Output.isOn m' c = if Output.anyOn m then Output.isOn m c else true)
     /\ Output.anyOn m' = true)
  /\ (Output.anyOn m = false -> Output.decreaseBrightness powf m = Some m).
Proof.
  intros Hw. split.
  - unfold Output.increaseBrightness.
    assert (Hpre : exists m1,
               (if negb (Output.anyOn m) then
                  Output.forEachLight
                    (fun light => Light.setState light (Light.mkState true Light.OFF_VALUE)) m
                else Some m) = Some m1
               /\ Output.wired m1
               /\ forall c, Output.isOn m1 c
                            = if Output.anyOn m then Output.isOn m c else true).
    { destruct (Output.anyOn m) eqn:Eon; cbn [negb].
      - exists m. auto.
      - destruct (forEachLight_spec
                    (fun light => Light.setState light (Light.mkState true Light.OFF_VALUE))
                    (fun _ l' => Light.wired l' /\ Light.on (Light.state l') = true) m)
          as (m1 & E & _ & Hall).
        { intros c. unfold Light.setState.
          destruct (withState_sync _ (Light.mkState true Light.OFF_VALUE) (Hw c))
            as (l' & E & Hs & _ & _ & Hw' & _).
          exists l'. rewrite Hs. auto. }
        exists m1. split; [exact E|]. split.
        + intros c. apply (Hall c).
        + intros c. apply (Hall c). }
    destruct Hpre as (m1 & E1 & Hw1 & Hon1). rewrite E1. cbn [bind].
    destruct (forEachLight_spec (Light.increaseBrightness powf)
                (fun l l' => Light.on (Light.state l') = Light.on (Light.state l)
                             /\ 1 <= Light.value (Light.state l') <= 255) m1)
      as (m' & E & _ & Hall).
    { intros c. destruct (increaseBrightness_step _ (Hw1 c)) as (l' & E & _ & Ho & Hv).
      exists l'. auto. }
    exists m'. split; [exact E|].
    assert (Hon : forall c, Output.isOn m' c
                            = if Output.anyOn m then Output.isOn m c else true).
    { intros c. rewrite <- (Hon1 c). unfold Output.isOn, Light.isOn. apply (Hall c). }
    split; [|split].
    + intros c. unfold Output.getValue, Light.getValue. apply (Hall c).
    + exact Hon.
    + destruct (Output.anyOn m) eqn:Eon.
      * unfold Output.anyOn in Eon. unfold Array4.any_of, Array4.to_list in Eon.
        cbn [existsb] in Eon.
        destruct (Light.isOn (Array4.a0 (Output.lights m))) eqn:E0;
          [apply (any_of_true _ _ Red); exact (eq_trans (Hon Red) E0)|].
        destruct (Light.isOn (Array4.a1 (Output.lights m))) eqn:E1';
          [apply (any_of_true _ _ Green); exact (eq_trans (Hon Green) E1')|].
        destruct (Light.isOn (Array4.a2 (Output.lights m))) eqn:E2;
          [apply (any_of_true _ _ Blue); exact (eq_trans (Hon Blue) E2)|].
        destruct (Light.isOn (Array4.a3 (Output.lights m))) eqn:E3;
          [apply (any_of_true _ _ White); exact (eq_trans (Hon White) E3)|].
        discriminate.
      * apply (any_of_true _ _ Red). exact (Hon Red).
  - intros Hoff. unfold Output.decreaseBrightness. rewrite Hoff. reflexivity.
Qed.

End BrightnessFacts.

Lemma manager_brightness_steps_witness :
  exists m', Output.increaseBrightness (fun x _ => x) (Output.makeManager 13 16 19 18)
             = Some m'
    /\ (forall c, 1 <= Output.getValue m' c <= 255)
    /\ (forall c, Output.isOn m' c = true).
Proof.
  destruct (manager_brightness_steps (fun x _ => x) (Output.makeManager 13 16 19 18)
              makeManager_wired) as ((m' & E & Hv & Hon & _) & _).
  exists m'. split; [exact E|]. split; [exact Hv | exact Hon].
Defined.

Lemma State_eqb_refl (s : Output.State) : Output.State_eqb s s = true.
Proof.
  destruct s as [[[o0 v0] [o1 v1] [o2 v2] [o3 v3]]].
  unfold Output.State_eqb, Array4.eqb, Light.State_eqb. cbn.
  rewrite !Z.eqb_refl. reflexivity.
Qed.

Lemma onWrite_eight (m : Output.Manager) (payload : list Z) (millis : Z) :
  Output.wired m -> List.length payload = 8%nat ->
  exists m', Output.onWrite m payload millis = Some m'
    /\ Output.getState m' = Output.State_of_bytes payload
    /\ Output.colorNotificationThrottle m'
       = ThrottledValue.setLastSent (Output.colorNotificationThrottle m) millis
           (Output.State_of_bytes payload).
Proof.
  intros Hw Hlen. unfold Output.onWrite, Output.sizeofState. rewrite Hlen.
  cbn [Z.of_nat Pos.of_succ_nat Pos.succ Z.eqb Pos.eqb negb].
  destruct (setState_wired m (Output.State_of_bytes payload) Hw) as (m1 & E1 & Hs & Ht & _).
  rewrite E1. cbn [bind]. eexists. split; [reflexivity|]. split.
  - exact Hs.
  - cbn [Output.colorNotificationThrottle]. rewrite Ht. reflexivity.
Qed.

Lemma State_bytes_of_bytes (p : list Z) :
  (8 <= List.length p)%nat ->
  Output.State_bytes (Output.State_of_bytes p) = firstn 8 p.
Proof.
  intros H.
  destruct p as [|f0 [|v0 [|f1 [|v1 [|f2 [|v2 [|f3 [|v3 rest]]]]]]]];
    cbn [List.length] in H; try lia.
  reflexivity.
Qed.

(** X13.  Write then read.  After a write of 8 bytes a read of the
    characteristic returns the same 8 bytes, whatever they are: the
    four flag bytes come back as they were written, also when they
    are neither 0 nor 1. *)
Theorem onWrite_onRead_roundtrip (m : Output.Manager) (payload : list Z) (millis : Z) :
  Output.wired m ->
  List.length payload = 8%nat ->
  exists m', Output.onWrite m payload millis = Some m'
    /\ Output.onRead m' = payload.
Proof.
  intros Hw Hlen.
  destruct (onWrite_eight m payload millis Hw Hlen) as (m' & E & Hs & _).
  exists m'. split; [exact E|]. unfold Output.onRead. rewrite Hs.
  rewrite State_bytes_of_bytes by lia.
  apply firstn_all2. lia.
Qed.

Lemma onWrite_onRead_roundtrip_witness :
  exists m', Output.onWrite (Output.makeManager 13 16 19 18)
               [2; 255; 0; 7; 255; 0; 0; 128] 99 = Some m'
    /\ Output.onRead m' = [2; 255; 0; 7; 255; 0; 0; 128].
Proof.
  destruct (onWrite_onRead_roundtrip (Output.makeManager 13 16 19 18)
              [2; 255; 0; 7; 255; 0; 0; 128] 99 makeManager_wired eq_refl)
    as (m' & E & H).
  exists m'. split; [exact E | exact H].
Defined.

(** X14.  A state written to the characteristic is not notified back:
    right after a write of 8 bytes, and for as long as the lights are
    not changed, [sendColorNotification] hands nothing to the
    characteristic, however much time has passed. *)
Theorem onWrite_not_echoed (m : Output.Manager) (payload : list Z) (millis : Z)
    (attached notifyOk : bool) (now : Z) :
  Output.wired m ->
  List.length payload = 8%nat ->
  exists m', Output.onWrite m payload millis = Some m'
    /\ fst (Output.sendColorNotification m' attached notifyOk now) = None
    /\ Output.getState (snd (Output.sendColorNotification m' attached notifyOk now))
       = Output.getState m'.
Proof.
  intros Hw Hlen.
  destruct (onWrite_eight m payload millis Hw Hlen) as (m' & E & Hs & Ht).
  exists m'. split; [exact E|].
  unfold Output.sendColorNotification.
  destruct attached; cbn [negb]; [|split; reflexivity].
  rewrite Ht, Hs. unfold ThrottledValue.shouldSend, ThrottledValue.setLastSent.
  cbn [ThrottledValue.mutex ThrottledValue.lock ThrottledValue.unlock
       ThrottledValue.lastValue ThrottledValue.lastSendTime
       ThrottledValue.throttleInterval].
  rewrite State_eqb_refl, orb_true_r. cbn [negb fst snd].
  split; [reflexivity|]. rewrite <- Hs. reflexivity.
Qed.

Lemma onWrite_not_echoed_witness :
  exists m', Output.onWrite (Output.makeManager 13 16 19 18)
               [1; 255; 0; 7; 1; 0; 0; 128] 99 = Some m'
    /\ fst (Output.sendColorNotification m' true true 1000000) = None.
Proof.
  destruct (onWrite_not_echoed (Output.makeManager 13 16 19 18)
              [1; 255; 0; 7; 1; 0; 0; 128] 99 true true 1000000 makeManager_wired eq_refl)
    as (m' & E & H & _).
  exists m'. split; [exact E | exact H].
Defined.

(** X15.  [sendColorNotification], with the throttle's lock free.
    Nothing is handed over while no characteristic is attached.
    Otherwise the current state is handed over exactly when 500 ms
    have passed since the last recorded send and the state differs
    from the recorded one.  A notification that fails leaves the
    manager as it was, so the next tick tries again; one that
    succeeds records the state, after which the same state is never
    handed over again. *)
Theorem sendColorNotification_retry (m : Output.Manager) (notifyOk : bool) (now later : Z) :
  ThrottledValue.mutex (Output.colorNotificationThrottle m) = false ->
  ThrottledValue.throttleInterval (Output.colorNotificationThrottle m) = 500 ->
  Output.sendColorNotification m false notifyOk now = (None, m)
  /\ fst (Output.sendColorNotification m true notifyOk now)
     = (if (500 <=? ThrottledValue.elapsed now
                      (ThrottledValue.lastSendTime (Output.colorNotificationThrottle m)))
           && negb (Output.State_eqb (Output.getState m)
                      (ThrottledValue.lastValue (Output.colorNotificationThrottle m)))
        then Some (Output.State_bytes (Output.getState m)) else None)
  /\ snd (Output.sendColorNotification m true false now) = m
  /\ (fst (Output.sendColorNotification m true true now) <> None ->
      fst (Output.sendColorNotification
             (snd (Output.sendColorNotification m true true now)) true notifyOk later)
      = None).
Proof.
  intros Hfree Hint.
  destruct m as [ls g]. cbn [Output.colorNotificationThrottle] in *.
  pose proof (shouldSend_decision Output.State Output.State_eqb g now
                (Output.getState (Output.mkManager ls g)) Hfree) as Hdec.
  pose proof (shouldSend_keeps Output.State Output.State_eqb g now
                (Output.getState (Output.mkManager ls g)) Hfree) as Hkeep.
  rewrite Hint in Hdec.
  unfold Output.sendColorNotification. cbn [negb Output.colorNotificationThrottle Output.lights].
  destruct (ThrottledValue.shouldSend Output.State_eqb g now
              (Output.getState (Output.mkManager ls g))) as [send gate] eqn:E.
  cbn [fst snd] in Hdec, Hkeep. subst gate. rewrite <- Hdec.
  split; [reflexivity|]. split; [|split].
  - destruct send; reflexivity.
  - destruct send; reflexivity.
  - destruct send; cbn [negb fst snd]; [|congruence]. intros _.
    cbn [Output.colorNotificationThrottle Output.lights].
    unfold ThrottledValue.shouldSend, ThrottledValue.setLastSent.
    cbn [ThrottledValue.mutex ThrottledValue.lock ThrottledValue.unlock
         ThrottledValue.lastValue ThrottledValue.lastSendTime
         ThrottledValue.throttleInterval].
    change (Output.getState {| Output.lights := ls; Output.colorNotificationThrottle := _ |})
      with (Output.getState (Output.mkManager ls g)).
    rewrite State_eqb_refl, orb_true_r. reflexivity.
Qed.

Lemma sendColorNotification_retry_witness :
  let m := Output.turnOnAll (Output.makeManager 13 16 19 18) in
  fst (Output.sendColorNotification m true true 600)
  = Some [1; 255; 1; 255; 1; 255; 1; 255]
  /\ snd (Output.sendColorNotification m true false 600) = m
  /\ fst (Output.sendColorNotification
            (snd (Output.sendColorNotification m true true 600)) true true 5000) = None.
Proof.
  intros m.
  destruct (sendColorNotification_retry m true 600 5000 eq_refl eq_refl)
    as (_ & H1 & H2 & H3).
  split; [exact H1|]. split; [exact H2|]. apply H3. rewrite H1. discriminate.
Defined.

Lemma state_at_set (m : Output.Manager) (c : Color) (l' : Light.t) :
  Output.getState (Output.withLights m (Array4.set (Output.lights m) c l'))
  = Output.mkState (Array4.set (Output.values (Output.getState m)) c (Light.state l')).
Proof. destruct c; reflexivity. Qed.

Lemma wired_set (m : Output.Manager) (c : Color) (l' : Light.t) :
  Output.wired m -> Light.wired l' ->
  Output.wired (Output.withLights m (Array4.set (Output.lights m) c l')).
Proof.
  intros Hw Hl c'. pose proof (Hw c') as H.
  destruct c, c'; cbn in *; assumption.
Qed.

(** One channel's value set through the manager, on the state. *)
Lemma manager_setValue_state (m : Output.Manager) (v : Z) (c : Color) :
  Output.wired m ->
  exists m', Output.setValue m v c = Some m'
    /\ Output.wired m'
    /\ Output.colorNotificationThrottle m' = Output.colorNotificationThrottle m
    /\ Output.getState m'
       = Output.mkState
           (Array4.set (Output.values (Output.getState m)) c
              (Light.mkRaw
                 (Light.flag (Array4.at_ (Output.values (Output.getState m)) c)) v)).
Proof.
  intros Hw. unfold Output.setValue.
  destruct (setValue_step _ v (Hw c)) as (l' & E & Hs & Hw' & _ & _).
  rewrite E. cbn [bind]. eexists. split; [reflexivity|].
  split; [apply wired_set; assumption|]. split; [reflexivity|].
  rewrite state_at_set, Hs. destruct c; reflexivity.
Qed.

Lemma manager_setOn_state (m : Output.Manager) (b : bool) (c : Color) :
  Output.wired m ->
  exists m', Output.setOn m b c = Some m'
    /\ Output.wired m'
    /\ Output.colorNotificationThrottle m' = Output.colorNotificationThrottle m
    /\ Output.getState m'
       = Output.mkState
           (Array4.set (Output.values (Output.getState m)) c
              (Light.mkState b (Output.State_getValue (Output.getState m) c))).
Proof.
  intros Hw. unfold Output.setOn.
  destruct (setOn_step _ b (Hw c)) as (l' & E & Hs & Hw' & _ & _).
  rewrite E. cbn [bind]. eexists. split; [reflexivity|].
  split; [apply wired_set; assumption|]. split; [reflexivity|].
  rewrite state_at_set, Hs. destruct c; reflexivity.
Qed.

Lemma extractUint8Param_byte (req : Output.Request) (key : string) (v : Z) :
  Output.extractUint8Param req key = Some v -> is_u8 v.
Proof.
  unfold Output.extractUint8Param. destruct (Output.getParam req key); [|discriminate].
  intros [= <-]. apply u8_range.
Qed.

(** X16.  [GET /output/color].  Each channel named in the query takes
    the given number, limited to [0, 255], and is switched on; each
    channel not named keeps its value and is switched off.  The
    request always answers "Color updated". *)
Theorem handleColorRequest_channels (m : Output.Manager) (req : Output.Request) :
  Output.wired m ->
  exists m', Output.handleColorRequest m req = Some (m', "Color updated"%string)
    /\ Output.colorNotificationThrottle m' = Output.colorNotificationThrottle m
    /\ forall c,
         let key := match c with
                    | Red => "r" | Green => "g" | Blue => "b" | White => "w"
                    end%string in
         match Output.getParam req key with
         | Some n => Output.getValue m' c = Z.max 0 (Z.min 255 n)
                     /\ Output.isOn m' c = true
         | None => Output.getValue m' c = Output.getValue m c
                   /\ Output.isOn m' c = false
         end.
Proof.
  intros Hw. unfold Output.handleColorRequest, Output.setColor4, Output.setOn4.
  set (r := Output.extractUint8Param req "r"). set (g := Output.extractUint8Param req "g").
  set (b := Output.extractUint8Param req "b"). set (w := Output.extractUint8Param req "w").
  destruct (manager_setValue_state m (Output.value_or r (Output.getValue m Red)) Red Hw)
    as (m1 & E1 & W1 & T1 & S1).
  destruct (manager_setValue_state m1 (Output.value_or g (Output.getValue m Green)) Green W1)
    as (m2 & E2 & W2 & T2 & S2).
  destruct (manager_setValue_state m2 (Output.value_or b (Output.getValue m Blue)) Blue W2)
    as (m3 & E3 & W3 & T3 & S3).
  destruct (manager_setValue_state m3 (Output.value_or w (Output.getValue m White)) White W3)
    as (m4 & E4 & W4 & T4 & S4).
  destruct (manager_setOn_state m4 (Output.has_value r) Red W4) as (m5 & E5 & W5 & T5 & S5).
  destruct (manager_setOn_state m5 (Output.has_value g) Green W5) as (m6 & E6 & W6 & T6 & S6).
  destruct (manager_setOn_state m6 (Output.has_value b) Blue W6) as (m7 & E7 & W7 & T7 & S7).
  destruct (manager_setOn_state m7 (Output.has_value w) White W7) as (m8 & E8 & W8 & T8 & S8).
  rewrite E1. cbn [bind]. rewrite E2. cbn [bind]. rewrite E3. cbn [bind].
  rewrite E4. cbn [bind]. rewrite E5. cbn [bind]. rewrite E6. cbn [bind].
  rewrite E7. cbn [bind]. rewrite E8. cbn [bind].
  exists m8. split; [reflexivity|]. split; [congruence|].
  assert (Hfinal : Output.getState m8
            = Output.mkState
                (Array4.mk
                   (Light.mkState (Output.has_value r)
                      (Output.value_or r (Output.getValue m Red)))
                   (Light.mkState (Output.has_value g)
                      (Output.value_or g (Output.getValue m Green)))
                   (Light.mkState (Output.has_value b)
                      (Output.value_or b (Output.getValue m Blue)))
                   (Light.mkState (Output.has_value w)
                      (Output.value_or w (Output.getValue m White))))).
  { rewrite S8, S7, S6, S5, S4, S3, S2, S1. reflexivity. }
  assert (Hclamp : forall n, u8 (clampZ n 0 255) = Z.max 0 (Z.min 255 n)).
  { intros n. unfold clampZ.
    destruct (Z.ltb_spec n 0); [rewrite u8_small by lia; lia|].
    destruct (Z.ltb_spec 255 n); rewrite u8_small by lia; lia. }
  assert (Hval : forall c, Output.getValue m8 c = Output.State_getValue (Output.getState m8) c)
    by (intros c; destruct c; reflexivity).
  assert (Hon : forall c, Output.isOn m8 c = Output.State_isOn (Output.getState m8) c)
    by (intros c; destruct c; reflexivity).
  intros c. cbv zeta. rewrite Hval, Hon, Hfinal.
  subst r g b w. unfold Output.extractUint8Param.
  destruct c; cbn [Output.State_getValue Output.State_isOn Output.values Array4.at_
                   Array4.a0 Array4.a1 Array4.a2 Array4.a3 Light.on Light.value];
    match goal with
    | |- context [Output.getParam req ?k] => destruct (Output.getParam req k) as [n|]
    end; cbn [Output.value_or Output.has_value]; rewrite ?Hclamp; split; reflexivity.
Qed.

Lemma handleColorRequest_channels_witness :
  exists m', Output.handleColorRequest (Output.makeManager 13 16 19 18)
               [("r"%string, 300); ("w"%string, 40)] = Some (m', "Color updated"%string)
    /\ Output.getValue m' Red = 255 /\ Output.isOn m' Red = true
    /\ Output.isOn m' Green = false
    /\ Output.getValue m' White = 40.
Proof.
  destruct (handleColorRequest_channels (Output.makeManager 13 16 19 18)
              [("r"%string, 300); ("w"%string, 40)] makeManager_wired)
    as (m' & E & _ & H).
  exists m'. split; [exact E|].
  pose proof (H Red) as HR. pose proof (H Green) as HG. pose proof (H White) as HW.
  cbn in HR, HG, HW.
  destruct HR as [HR1 HR2], HG as [_ HG2], HW as [HW1 _].
  repeat split; assumption.
Defined.

(** X17.  [GET /output/brightness].  Without a [value] parameter the
    fixture is left alone.  With one, the state written is the one
    the braced list [{true, value}] builds: the red channel on at the
    given number limited to [0, 255], and green, blue and white off
    with value 0.  The answer "Light turned off" is never given. *)
Theorem handleBrightnessRequest_first_channel (m : Output.Manager) (req : Output.Request) :
  Output.wired m ->
  match Output.getParam req "value" with
  | None =>
      Output.handleBrightnessRequest m req
      = Some (m, "Missing 'value' parameter"%string)
  | Some n =>
      exists m', Output.handleBrightnessRequest m req
                 = Some (m', "Brightness set"%string)
        /\ Output.getState m'
           = Output.mkState
               (Array4.mk (Light.mkState true (Z.max 0 (Z.min 255 n)))
                  (Light.mkState false 0) (Light.mkState false 0)
                  (Light.mkState false 0))
  end.
Proof.
  intros Hw. unfold Output.handleBrightnessRequest, Output.hasParam,
    Output.extractUint8Param.
  destruct (Output.getParam req "value") as [n|]; cbn [negb]; [|reflexivity].
  destruct (setState_wired m (Output.firstChannelState (u8 (clampZ n 0 255))) Hw)
    as (m' & E & Hs & _).
  rewrite E. cbn [bind]. exists m'. split; [reflexivity|].
  rewrite Hs. unfold Output.firstChannelState.
  replace (u8 (clampZ n 0 255)) with (Z.max 0 (Z.min 255 n)); [reflexivity|].
  unfold clampZ.
  destruct (Z.ltb_spec n 0); [rewrite u8_small by lia; lia|].
  destruct (Z.ltb_spec 255 n); rewrite u8_small by lia; lia.
Qed.

Lemma handleBrightnessRequest_first_channel_witness :
  exists m', Output.handleBrightnessRequest (Output.makeManager 13 16 19 18)
               [("value"%string, 128)] = Some (m', "Brightness set"%string)
    /\ Output.getState m'
       = Output.mkState
           (Array4.mk (Light.mkState true 128) (Light.mkState false 0)
              (Light.mkState false 0) (Light.mkState false 0)).
Proof.
  exact (handleBrightnessRequest_first_channel (Output.makeManager 13 16 19 18)
           [("value"%string, 128)] makeManager_wired).
Defined.

(** ** Persistence of a light *)



Lemma State_neqb_refl (s : Light.State) : Light.State_neqb s s = false.
Proof.
  destruct s as [f v]. unfold Light.State_neqb. cbn.
  rewrite !Z.eqb_refl. reflexivity.
Qed.

(** X18.  Persistence is debounced.  [handle] writes nothing while the
    state equals the last persisted one, and nothing within 500 ms of
    the last write.  When it writes it records the state and the
    time, so that calling it again with the same state, at any time,
    writes nothing more.  A freshly constructed light counts off/0 as
    already persisted: in that state [handle] never writes, whatever
    the store holds. *)
Theorem light_handle_debounce (l : Light.t) (p : LightStore.t) (now later : Z) :
  (Light.state l = LightStore.lastPersistedState p -> LightStore.handle l p now = p)
  /\ (u32 (now - LightStore.lastPersistTime p) < 500 -> LightStore.handle l p now = p)
  /\ (LightStore.handle l p now <> p ->
      LightStore.lastPersistedState (LightStore.handle l p now) = Light.state l
      /\ LightStore.lastPersistTime (LightStore.handle l p now) = now
      /\ LightStore.handle l (LightStore.handle l p now) later
         = LightStore.handle l p now)
  /\ (forall store, Light.state l = Light.mkState false 0 ->
        LightStore.handle l (LightStore.fresh store) now = LightStore.fresh store).
Proof.
  unfold LightStore.handle, LightStore.PERSIST_DEBOUNCE_MS.
  split; [|split; [|split]].
  - intros E. rewrite E, State_neqb_refl. reflexivity.
  - intros Hlt. destruct (Z.leb_spec 500 (u32 (now - LightStore.lastPersistTime p)));
      [lia|]. rewrite andb_false_r. reflexivity.
  - destruct (_ && _); [|congruence]. intros _.
    cbn [LightStore.lastPersistedState LightStore.lastPersistTime].
    rewrite State_neqb_refl. repeat split.
  - intros store Hs. cbn [LightStore.fresh LightStore.lastPersistedState].
    rewrite Hs. reflexivity.
Qed.

Lemma light_handle_debounce_witness :
  let l := Light.mk false 13 (Light.mkState true 200) (Some 200) in
  let p := LightStore.fresh [] in
  LightStore.handle l p 499 = p
  /\ LightStore.lastPersistedState (LightStore.handle l p 500) = Light.mkState true 200
  /\ LightStore.handle l (LightStore.handle l p 500) 99999 = LightStore.handle l p 500.
Proof.
  intros l p.
  destruct (light_handle_debounce l p 499 0) as (_ & H2 & _).
  destruct (light_handle_debounce l p 500 99999) as (_ & _ & H3 & _).
  split; [apply H2; reflexivity|].
  destruct H3 as (Ha & _ & Hc); [vm_compute; discriminate|].
  split; [exact Ha | exact Hc].
Defined.



(** ** Alexa commands on the outputs *)

Section AlexaCommands.

Import AsyncEspAlexaDevice AlexaIntegration.

Lemma channelValueOf_cases (b : Z) :
  is_u8 b ->
  channelValueOf b
  = if b <? 128 then b else if b =? 255 then 0 else b + 1.
Proof.
  unfold is_u8, channelValueOf. intros Hb.
  destruct (Z.ltb_spec b 128).
  - apply u8_small. lia.
  - destruct (Z.eqb_spec b 255) as [-> | Hn]; [reflexivity|].
    apply u8_small. lia.
Qed.

Lemma handleSingleChannelCommand_state (om : Output.Manager) (color : Color)
    (isOn : bool) (b : Z) :
  Output.wired om ->
  exists om',
    handleSingleChannelCommand om color isOn b = Some om'
    /\ Output.colorNotificationThrottle om' = Output.colorNotificationThrottle om
    /\ Output.getState om'
       = Output.mkState
           (Array4.set (Output.values (Output.getState om)) color
              (Light.mkState isOn (channelValueOf b))).
Proof.
  intros Hw. unfold handleSingleChannelCommand.
  destruct (manager_setOn_state om isOn color Hw) as (m1 & E1 & Hw1 & Ht1 & Hs1).
  destruct (manager_setValue_state m1 (channelValueOf b) color Hw1)
    as (m2 & E2 & Hw2 & Ht2 & Hs2).
  rewrite E1. cbn [bind]. rewrite E2.
  exists m2. split; [reflexivity|]. split; [congruence|].
  rewrite Hs2, Hs1. destruct color; reflexivity.
Qed.

(** X20.  A single-channel command and its read-back.  The command
    sets the on flag of its channel and the value
    [b < 128 ? b : b + 1] as a byte, and leaves the other channels
    and the notification gate alone.  When the device is next
    refreshed from the outputs it does not always show the brightness
    it was sent: 0 and 255 come back as 1, 128 to 253 come back one
    higher, and only 1 to 127 and 254 come back unchanged. *)
Theorem singleChannel_brightness_readback (om : Output.Manager) (color : Color)
    (isOn : bool) (b : Z) (d : Dimmable) :
  Output.wired om ->
  is_u8 b ->
  exists om',
    handleSingleChannelCommand om color isOn b = Some om'
    /\ Output.colorNotificationThrottle om' = Output.colorNotificationThrottle om
    /\ Output.getState om'
       = Output.mkState
           (Array4.set (Output.values (Output.getState om)) color
              (Light.mkState isOn (channelValueOf b)))
    /\ Dimmable_isOn (updateDevice d (Output.getState om') color) = isOn
    /\ brightness (updateDevice d (Output.getState om') color)
       = (if (b =? 0) || (b =? 255) then 1
          else if b <? 128 then b
          else if b <? 254 then b + 1
          else 254).
Proof.
  intros Hw Hb.
  destruct (handleSingleChannelCommand_state om color isOn b Hw) as (m2 & E & Ht & Hst).
  exists m2. split; [exact E|]. split; [exact Ht|]. split; [exact Hst|].
  rewrite Hst. split.
  - destruct color, isOn; reflexivity.
  - assert (Hv : Output.State_getValue
                   (Output.mkState
                      (Array4.set (Output.values (Output.getState om)) color
                         (Light.mkState isOn (channelValueOf b)))) color
                 = channelValueOf b) by (destruct color; reflexivity).
    unfold updateDevice. cbn [setBrightness brightness]. rewrite Hv.
    rewrite (channelValueOf_cases b Hb).
    unfold clampZ, AsyncEspAlexaColorUtils.ALEXA_MIN_BRI_VAL,
      AsyncEspAlexaColorUtils.ALEXA_MAX_BRI_VAL.
    unfold is_u8 in Hb.
    destruct (Z.eqb_spec b 0) as [-> | H0]; [reflexivity|].
    destruct (Z.eqb_spec b 255) as [-> | H255]; [reflexivity|].
    cbn [orb].
    destruct (Z.ltb_spec b 128).
    + destruct (Z.ltb_spec b 1); [lia|]. destruct (Z.ltb_spec 254 b); [lia|reflexivity].
    + destruct (Z.ltb_spec (b + 1) 1); [lia|].
      destruct (Z.ltb_spec 254 (b + 1)); destruct (Z.ltb_spec b 254); lia.
Qed.

Lemma singleChannel_brightness_readback_witness :
  let om := Output.makeManager 21 17 4 13 in
  let d := newDimmable "Lamp" false 0 in
  exists om',
    handleSingleChannelCommand om Green true 200 = Some om'
    /\ Output.State_getValue (Output.getState om') Green = 201
    /\ brightness (updateDevice d (Output.getState om') Green) = 201.
Proof.
  intros om d.
  destruct (singleChannel_brightness_readback om Green true 200 d)
    as (om' & E & _ & Hs & _ & Hb).
  - intros c. destruct c; unfold Light.wired; simpl; discriminate.
  - unfold is_u8. lia.
  - exists om'. split; [exact E|]. split; [rewrite Hs; reflexivity | exact Hb].
Defined.

Lemma setColor4_state (m : Output.Manager) (r g b w : Z) :
  Output.wired m ->
  exists m', Output.setColor4 m r g b w = Some m'
    /\ Output.wired m'
    /\ Output.colorNotificationThrottle m' = Output.colorNotificationThrottle m
    /\ (forall c, Output.State_isOn (Output.getState m') c
                  = Output.State_isOn (Output.getState m) c)
    /\ Output.State_getValue (Output.getState m') Red = r
    /\ Output.State_getValue (Output.getState m') Green = g
    /\ Output.State_getValue (Output.getState m') Blue = b
    /\ Output.State_getValue (Output.getState m') White = w.
Proof.
  intros Hw. unfold Output.setColor4.
  destruct (manager_setValue_state m r Red Hw) as (m1 & E1 & Hw1 & Ht1 & Hs1).
  destruct (manager_setValue_state m1 g Green Hw1) as (m2 & E2 & Hw2 & Ht2 & Hs2).
  destruct (manager_setValue_state m2 b Blue Hw2) as (m3 & E3 & Hw3 & Ht3 & Hs3).
  destruct (manager_setValue_state m3 w White Hw3) as (m4 & E4 & Hw4 & Ht4 & Hs4).
  rewrite E1. cbn [bind]. rewrite E2. cbn [bind]. rewrite E3. cbn [bind]. rewrite E4.
  exists m4. split; [reflexivity|]. split; [exact Hw4|]. split; [congruence|].
  rewrite Hs4, Hs3, Hs2, Hs1.
  split; [intros c; destruct c; reflexivity|]. repeat split.
Qed.

Lemma setColor3_state (m : Output.Manager) (r g b : Z) :
  Output.wired m ->
  exists m', Output.setColor3 m r g b = Some m'
    /\ Output.wired m'
    /\ Output.colorNotificationThrottle m' = Output.colorNotificationThrottle m
    /\ (forall c, Output.State_isOn (Output.getState m') c
                  = Output.State_isOn (Output.getState m) c)
    /\ Output.State_getValue (Output.getState m') Red = r
    /\ Output.State_getValue (Output.getState m') Green = g
    /\ Output.State_getValue (Output.getState m') Blue = b
    /\ Array4.at_ (Output.values (Output.getState m')) White
       = Array4.at_ (Output.values (Output.getState m)) White.
Proof.
  intros Hw. unfold Output.setColor3.
  destruct (manager_setValue_state m r Red Hw) as (m1 & E1 & Hw1 & Ht1 & Hs1).
  destruct (manager_setValue_state m1 g Green Hw1) as (m2 & E2 & Hw2 & Ht2 & Hs2).
  destruct (manager_setValue_state m2 b Blue Hw2) as (m3 & E3 & Hw3 & Ht3 & Hs3).
  rewrite E1. cbn [bind]. rewrite E2. cbn [bind]. rewrite E3.
  exists m3. split; [reflexivity|]. split; [exact Hw3|]. split; [congruence|].
  rewrite Hs3, Hs2, Hs1.
  split; [intros c; destruct c; reflexivity|]. repeat split.
Qed.

(** The state after switching one channel, channel by channel. *)
Lemma manager_setOn_at (m : Output.Manager) (b : bool) (c : Color) :
  Output.wired m ->
  exists m', Output.setOn m b c = Some m'
    /\ Output.wired m'
    /\ Output.colorNotificationThrottle m' = Output.colorNotificationThrottle m
    /\ (forall c', Output.State_getValue (Output.getState m') c'
                   = Output.State_getValue (Output.getState m) c')
    /\ Output.State_isOn (Output.getState m') c = b
    /\ (forall c', c' <> c ->
          Array4.at_ (Output.values (Output.getState m')) c'
          = Array4.at_ (Output.values (Output.getState m)) c').
Proof.
  intros Hw.
  destruct (manager_setOn_state m b c Hw) as (m1 & E1 & Hw1 & Ht1 & Hs1).
  exists m1. split; [exact E1|]. split; [exact Hw1|]. split; [exact Ht1|].
  rewrite Hs1. split; [intros c'; destruct c, c'; reflexivity|].
  split; [destruct c, b; reflexivity|].
  intros c' Hn. destruct c, c'; try reflexivity; congruence.
Qed.

Lemma State_isOn_at (s s' : Output.State) (c : Color) :
  Array4.at_ (Output.values s') c = Array4.at_ (Output.values s) c ->
  Output.State_isOn s' c = Output.State_isOn s c.
Proof. intros H. unfold Output.State_isOn. rewrite H. reflexivity. Qed.

(** X21.  A colour command to the RGB device drives red, green and
    blue only: the three channels take the bytes [hsvToRgb] gives
    for the hue, saturation and brightness and the commanded on
    flag, while the white channel keeps both its value and its on
    flag. *)
Theorem handleRgbCommand_keeps_white (om : Output.Manager) (isOn : bool)
    (bri h s : Z) :
  Output.wired om ->
  exists om',
    handleRgbCommand om isOn bri h s = Some om'
    /\ Output.colorNotificationThrottle om' = Output.colorNotificationThrottle om
    /\ (Output.State_getValue (Output.getState om') Red,
        Output.State_getValue (Output.getState om') Green,
        Output.State_getValue (Output.getState om') Blue)
       = AsyncEspAlexaColorUtils.hsvToRgb h s bri
    /\ (forall c, c <> White -> Output.State_isOn (Output.getState om') c = isOn)
    /\ Array4.at_ (Output.values (Output.getState om')) White
       = Array4.at_ (Output.values (Output.getState om)) White.
Proof.
  intros Hw. unfold handleRgbCommand.
  destruct (AsyncEspAlexaColorUtils.hsvToRgb h s bri) as [[r g] b].
  destruct (setColor3_state om r g b Hw)
    as (m0 & E0 & Hw0 & Ht0 & Ho0 & Hr0 & Hg0 & Hb0 & Hwh0).
  destruct (manager_setOn_at m0 isOn Red Hw0) as (m1 & E1 & Hw1 & Ht1 & Hv1 & Hc1 & Hk1).
  destruct (manager_setOn_at m1 isOn Green Hw1) as (m2 & E2 & Hw2 & Ht2 & Hv2 & Hc2 & Hk2).
  destruct (manager_setOn_at m2 isOn Blue Hw2) as (m3 & E3 & Hw3 & Ht3 & Hv3 & Hc3 & Hk3).
  rewrite E0. cbn [bind]. rewrite E1. cbn [bind]. rewrite E2. cbn [bind]. rewrite E3.
  exists m3. split; [reflexivity|]. split; [congruence|].
  split; [rewrite !Hv3, !Hv2, !Hv1, Hr0, Hg0, Hb0; reflexivity|].
  split.
  - intros c Hc. destruct c; [| | |congruence].
    + rewrite (State_isOn_at _ _ _ (Hk3 Red ltac:(discriminate))).
      rewrite (State_isOn_at _ _ _ (Hk2 Red ltac:(discriminate))). exact Hc1.
    + rewrite (State_isOn_at _ _ _ (Hk3 Green ltac:(discriminate))). exact Hc2.
    + exact Hc3.
  - rewrite (Hk3 White ltac:(discriminate)), (Hk2 White ltac:(discriminate)),
      (Hk1 White ltac:(discriminate)). exact Hwh0.
Qed.

Lemma handleRgbCommand_keeps_white_witness :
  let om := Output.makeManager 21 17 4 13 in
  exists om',
    handleRgbCommand om true 254 0 254 = Some om'
    /\ Output.State_isOn (Output.getState om') Red = true
    /\ Array4.at_ (Output.values (Output.getState om')) White = Light.mkState false 0.
Proof.
  intros om.
  destruct (handleRgbCommand_keeps_white om true 254 0 254)
    as (om' & E & _ & _ & Hon & Hwh).
  - intros c. destruct c; unfold Light.wired; simpl; discriminate.
  - exists om'. split; [exact E|]. split; [apply Hon; discriminate | exact Hwh].
Defined.

Lemma setOn_four (m : Output.Manager) (isOn : bool) :
  Output.wired m ->
  exists m',
    (m1 <- Output.setOn m isOn Red ;; m2 <- Output.setOn m1 isOn Green ;;
     m3 <- Output.setOn m2 isOn Blue ;; Output.setOn m3 isOn White) = Some m'
    /\ Output.wired m'
    /\ Output.colorNotificationThrottle m' = Output.colorNotificationThrottle m
    /\ (forall c, Output.State_getValue (Output.getState m') c
                  = Output.State_getValue (Output.getState m) c)
    /\ (forall c, Output.State_isOn (Output.getState m') c = isOn).
Proof.
  intros Hw.
  destruct (manager_setOn_at m isOn Red Hw) as (m1 & E1 & Hw1 & Ht1 & Hv1 & Hc1 & Hk1).
  destruct (manager_setOn_at m1 isOn Green Hw1) as (m2 & E2 & Hw2 & Ht2 & Hv2 & Hc2 & Hk2).
  destruct (manager_setOn_at m2 isOn Blue Hw2) as (m3 & E3 & Hw3 & Ht3 & Hv3 & Hc3 & Hk3).
  destruct (manager_setOn_at m3 isOn White Hw3) as (m4 & E4 & Hw4 & Ht4 & Hv4 & Hc4 & Hk4).
  rewrite E1. cbn [bind]. rewrite E2. cbn [bind]. rewrite E3. cbn [bind]. rewrite E4.
  exists m4. split; [reflexivity|]. split; [exact Hw4|]. split; [congruence|].
  split; [intros c; rewrite Hv4, Hv3, Hv2; apply Hv1|].
  intros c. destruct c.
  - rewrite (State_isOn_at _ _ _ (Hk4 Red ltac:(discriminate))).
    rewrite (State_isOn_at _ _ _ (Hk3 Red ltac:(discriminate))).
    rewrite (State_isOn_at _ _ _ (Hk2 Red ltac:(discriminate))). exact Hc1.
  - rewrite (State_isOn_at _ _ _ (Hk4 Green ltac:(discriminate))).
    rewrite (State_isOn_at _ _ _ (Hk3 Green ltac:(discriminate))). exact Hc2.
  - rewrite (State_isOn_at _ _ _ (Hk4 Blue ltac:(discriminate))). exact Hc3.
  - exact Hc4.
Qed.

Variable logf : F32.t -> F32.t.
Variable powf : F32.t -> F32.t -> F32.t.

(** X22.  A command to the RGBW device, by hue and saturation or by
    colour temperature, rewrites the whole fixture: all four
    channels take the commanded on flag, and the four values are
    exactly the bytes of [hsvToRgbw], respectively [ctToRgbw].  The
    notification gate is not touched. *)
Theorem handleRgbwCommand_all_channels (om : Output.Manager) (isOn : bool)
    (bri h s colorTemperature : Z) :
  Output.wired om ->
  (exists om',
     handleRgbwCommandHs om isOn bri h s = Some om'
     /\ Output.colorNotificationThrottle om' = Output.colorNotificationThrottle om
     /\ (forall c, Output.State_isOn (Output.getState om') c = isOn)
     /\ (Output.State_getValue (Output.getState om') Red,
         Output.State_getValue (Output.getState om') Green,
         Output.State_getValue (Output.getState om') Blue,
         Output.State_getValue (Output.getState om') White)
        = AsyncEspAlexaColorUtils.hsvToRgbw h s bri)
  /\ (exists om',
       handleRgbwCommandCt logf powf om isOn bri colorTemperature = Some om'
       /\ Output.colorNotificationThrottle om' = Output.colorNotificationThrottle om
       /\ (forall c, Output.State_isOn (Output.getState om') c = isOn)
       /\ (Output.State_getValue (Output.getState om') Red,
           Output.State_getValue (Output.getState om') Green,
           Output.State_getValue (Output.getState om') Blue,
           Output.State_getValue (Output.getState om') White)
          = AsyncEspAlexaColorUtils.ctToRgbw logf powf bri colorTemperature).
Proof.
  intros Hw. split.
  - unfold handleRgbwCommandHs.
    destruct (AsyncEspAlexaColorUtils.hsvToRgbw h s bri) as [[[r g] b] w].
    destruct (setColor4_state om r g b w Hw)
      as (m0 & E0 & Hw0 & Ht0 & _ & Hr0 & Hg0 & Hb0 & Hwh0).
    destruct (setOn_four m0 isOn Hw0) as (m4 & E4 & _ & Ht4 & Hv4 & Ho4).
    rewrite E0. cbn [bind]. cbn [bind] in E4. rewrite E4.
    exists m4. split; [reflexivity|]. split; [congruence|]. split; [exact Ho4|].
    rewrite !Hv4, Hr0, Hg0, Hb0, Hwh0. reflexivity.
  - unfold handleRgbwCommandCt.
    destruct (AsyncEspAlexaColorUtils.ctToRgbw logf powf bri colorTemperature)
      as [[[r g] b] w].
    destruct (setColor4_state om r g b w Hw)
      as (m0 & E0 & Hw0 & Ht0 & _ & Hr0 & Hg0 & Hb0 & Hwh0).
    destruct (setOn_four m0 isOn Hw0) as (m4 & E4 & _ & Ht4 & Hv4 & Ho4).
    rewrite E0. cbn [bind]. cbn [bind] in E4. rewrite E4.
    exists m4. split; [reflexivity|]. split; [congruence|]. split; [exact Ho4|].
    rewrite !Hv4, Hr0, Hg0, Hb0, Hwh0. reflexivity.
Qed.

End AlexaCommands.

Lemma handleRgbwCommand_all_channels_witness :
  let om := Output.makeManager 21 17 4 13 in
  exists om',
    AlexaIntegration.handleRgbwCommandHs om true 254 0 0 = Some om'
    /\ (forall c, Output.State_isOn (Output.getState om') c = true).
Proof.
  intros om.
  destruct (handleRgbwCommand_all_channels (fun x => x) (fun x _ => x) om true 254 0 0 200)
    as [(om' & E & _ & Hon & _) _].
  - intros c. destruct c; unfold Light.wired; simpl; discriminate.
  - exists om'. split; [exact E | exact Hon].
Defined.
(** ** The Hue API in front of the devices *)

Section HueApi.

Import AsyncEspAlexaDevice AlexaIntegration AsyncEspAlexaWebHandler.

Variable logf : F32.t -> F32.t.
Variable powf : F32.t -> F32.t -> F32.t.

Lemma Dimmable_update_callback (d : Dimmable) (obj : JsonObject) :
  brightnessCallback (Dimmable_handleStateUpdate d obj) = brightnessCallback d.
Proof.
  unfold Dimmable_handleStateUpdate.
  destruct (asInteger (member obj "bri")); [reflexivity|].
  destruct (Dimmable_isOn _); reflexivity.
Qed.

(** X23.  How a state update drives the RGBW device.  With the
    callbacks [setupRgbwDevice] installs: a body that carries both
    ["hue"] and ["sat"] as integers puts the device in mode [hs] and
    issues the hue/saturation command, even when it carries ["ct"]
    as well; a body with ["ct"] but without that pair puts it in
    mode [ct], keeps hue and saturation and issues the
    colour-temperature command; a body with neither keeps the mode
    and the three colour fields.  Values that do not fit their width
    are stored as 0. *)
Theorem extendedColor_update_dispatch (x : ExtendedColor) (obj : JsonObject)
    (om : Output.Manager) :
  brightnessCallback (ecDimmable x) = None ->
  ecColorCallback x = Some HandleRgbwHsCommand ->
  ecColorTemperatureCallback x = Some HandleRgbwCtCommand ->
  let x' := ExtendedColor_handleStateUpdate x obj in
  let on' := Dimmable_isOn (ecDimmable x') in
  let bri' := brightness (ecDimmable x') in
  (forall h s,
      member obj "hue" = JInteger h -> member obj "sat" = JInteger s ->
      ecMode x' = hs
      /\ ecHue x' = fitOrZero 16 h /\ ecSaturation x' = fitOrZero 8 s
      /\ callAfterStateUpdateCallback logf powf (DExtendedColor x') om
         = handleRgbwCommandHs om on' bri' (fitOrZero 16 h) (fitOrZero 8 s))
  /\ (forall c,
        member obj "ct" = JInteger c ->
        asInteger (member obj "hue") = None \/ asInteger (member obj "sat") = None ->
        ecMode x' = ct
        /\ ecColorTemperature x' = fitOrZero 16 c
        /\ ecHue x' = ecHue x /\ ecSaturation x' = ecSaturation x
        /\ callAfterStateUpdateCallback logf powf (DExtendedColor x') om
           = handleRgbwCommandCt logf powf om on' bri' (fitOrZero 16 c))
  /\ (asInteger (member obj "ct") = None ->
      asInteger (member obj "hue") = None \/ asInteger (member obj "sat") = None ->
      ecMode x' = ecMode x
      /\ ecColorTemperature x' = ecColorTemperature x
      /\ ecHue x' = ecHue x /\ ecSaturation x' = ecSaturation x).
Proof.
  intros Hb Hc Ht x' on' bri'.
  assert (Hb' : brightnessCallback (ecDimmable x') = None).
  { subst x'. unfold ExtendedColor_handleStateUpdate.
    destruct (asInteger (member obj "ct"));
      destruct (asInteger (member obj "hue"));
      destruct (asInteger (member obj "sat")); cbn;
      rewrite Dimmable_update_callback; exact Hb. }
  assert (Hc' : ecColorCallback x' = ecColorCallback x
                /\ ecColorTemperatureCallback x' = ecColorTemperatureCallback x).
  { subst x'. unfold ExtendedColor_handleStateUpdate.
    destruct (asInteger (member obj "ct"));
      destruct (asInteger (member obj "hue"));
      destruct (asInteger (member obj "sat")); split; reflexivity. }
  destruct Hc' as [Hc' Ht'].
  assert (Hcall : callAfterStateUpdateCallback logf powf (DExtendedColor x') om
                  = match ecMode x' with
                    | ct => handleRgbwCommandCt logf powf om on' bri'
                              (ecColorTemperature x')
                    | hs => handleRgbwCommandHs om on' bri' (ecHue x') (ecSaturation x')
                    end).
  { unfold callAfterStateUpdateCallback, Dimmable_callAfter.
    rewrite Hb', Hc', Ht', Hc, Ht. cbn [callBrightnessCallback bind].
    destruct (ecMode x'); cbn [bind callColorTemperatureCallback callColorCallback].
    - destruct (handleRgbwCommandCt _ _ _ _ _ _); reflexivity.
    - reflexivity. }
  split; [|split].
  - intros h s Hh Hs.
    assert (E : ecMode x' = hs /\ ecHue x' = fitOrZero 16 h
                /\ ecSaturation x' = fitOrZero 8 s).
    { subst x'. unfold ExtendedColor_handleStateUpdate. rewrite Hh, Hs.
      cbn [asInteger]. repeat split. }
    destruct E as (Em & Eh & Es). rewrite Hcall, Em, Eh, Es. repeat split.
  - intros c Hct Hno.
    assert (E : ecMode x' = ct /\ ecColorTemperature x' = fitOrZero 16 c
                /\ ecHue x' = ecHue x /\ ecSaturation x' = ecSaturation x).
    { subst x'. unfold ExtendedColor_handleStateUpdate. rewrite Hct.
      cbn [asInteger]. destruct Hno as [-> | Hno].
      - repeat split.
      - rewrite Hno. destruct (asInteger (member obj "hue")); repeat split. }
    destruct E as (Em & Ec & Eh & Es). rewrite Hcall, Em, Ec. repeat split; assumption.
  - intros Hct Hno. subst x'. unfold ExtendedColor_handleStateUpdate. rewrite Hct.
    destruct Hno as [-> | Hno].
    + repeat split.
    + rewrite Hno. destruct (asInteger (member obj "hue")); repeat split.
Qed.

End HueApi.

Lemma extendedColor_update_dispatch_witness :
  let x := AsyncEspAlexaDevice.ExtendedColor_setCallbacks
             (AsyncEspAlexaDevice.newExtendedColor "Strip" false 0 0 0 500
                AsyncEspAlexaDevice.ct)
             AsyncEspAlexaDevice.HandleRgbwHsCommand
             AsyncEspAlexaDevice.HandleRgbwCtCommand in
  let obj := [("ct"%string, AsyncEspAlexaDevice.JInteger 300);
              ("hue"%string, AsyncEspAlexaDevice.JInteger 70000);
              ("sat"%string, AsyncEspAlexaDevice.JInteger 200)] in
  let x' := AsyncEspAlexaDevice.ExtendedColor_handleStateUpdate x obj in
  AsyncEspAlexaDevice.ecMode x' = AsyncEspAlexaDevice.hs
  /\ AsyncEspAlexaDevice.ecHue x' = 0
  /\ AsyncEspAlexaDevice.ecSaturation x' = 200.
Proof.
  intros x obj x'.
  destruct (extendedColor_update_dispatch (fun v => v) (fun v _ => v) x obj
              (Output.makeManager 21 17 4 13) eq_refl eq_refl eq_refl) as (H & _).
  destruct (H 70000 200 eq_refl eq_refl) as (Hm & Hh & Hs & _).
  split; [exact Hm|]. split; [exact Hh | exact Hs].
Defined.

Section HueRouting.

Import AsyncEspAlexaDevice AlexaIntegration AsyncEspAlexaWebHandler.

Lemma decode_own_key (mac : string) (i : Z) :
  0 <= i <= 127 ->
  decodeLightKey mac (u32 (encodeLightKey mac i)) = i
  /\ u32 (encodeLightKey mac i) = encodeLightKey mac i.
Proof.
  intros Hi. unfold decodeLightKey, encodeLightKey.
  pose proof (getMac24_range mac) as Hm.
  destruct (key_split (getMac24 mac) i Hm Hi) as [K1 K2].
  set (key := Z.lor (u32 (Z.shiftl (getMac24 mac) 7)) i) in *.
  assert (Hk : 0 <= key < 2 ^ 32).
  { assert (Hnn : 0 <= key).
    { apply Z.lor_nonneg. split; [|lia].
      pose proof (wrap_range 32 (Z.shiftl (getMac24 mac) 7) ltac:(lia)). unfold u32. lia. }
    split; [exact Hnn|].
    assert (Hq : key / 2 ^ 7 = getMac24 mac) by (rewrite <- Z.shiftr_div_pow2 by lia; exact K1).
    pose proof (Z.div_mod key (2 ^ 7) ltac:(lia)) as Hdm.
    pose proof (Z.mod_pos_bound key (2 ^ 7) ltac:(lia)) as Hmod.
    rewrite Hq in Hdm. change (2 ^ 32) with (2 ^ 24 * 2 ^ 7 * 2).
    change (2 ^ 7) with 128 in *. lia. }
  rewrite (u32_small key Hk). rewrite K1, Z.eqb_refl. split; [exact K2 | reflexivity].
Qed.

(** X24.  [GET .../lights/<key>].  The key the bridge lists for the
    device at position [i] leads back to that device, provided the
    key is not 0; key 0, which only position 0 of a controller whose
    address ends in three zero bytes has, is answered with the list
    of all devices instead.  A non-zero key whose upper bits are not
    this controller's hardware id is answered "Device not found" as
    long as fewer than 256 devices are registered. *)
Theorem handleLightsRequest_routing (devs : list Device) (mac : string) :
  (forall i : nat,
      (i < List.length devs)%nat -> (i <= 127)%nat ->
      handleLightsRequest devs mac (encodeLightKey mac (Z.of_nat i))
      = if encodeLightKey mac (Z.of_nat i) =? 0 then ListDevices else DeviceState i)
  /\ (forall i : nat,
        encodeLightKey mac (Z.of_nat i) = 0 -> (i <= 127)%nat ->
        i = 0%nat /\ getMac24 mac = 0)
  /\ (forall devId,
        devId <> 0 -> Z.shiftr (u32 devId) 7 <> getMac24 mac ->
        (List.length devs <= 255)%nat ->
        handleLightsRequest devs mac devId = NotFound).
Proof.
  split; [|split].
  - intros i Hlt H127. unfold handleLightsRequest.
    destruct (Z.eqb_spec (encodeLightKey mac (Z.of_nat i)) 0) as [|Hn]; [reflexivity|].
    destruct (decode_own_key mac (Z.of_nat i) ltac:(lia)) as [-> _].
    destruct (Z.ltb_spec (Z.of_nat i) (Z.of_nat (List.length devs))); [|lia].
    rewrite Nat2Z.id. reflexivity.
  - intros i Hz H127. unfold encodeLightKey in Hz.
    pose proof (getMac24_range mac) as Hm.
    destruct (key_split (getMac24 mac) (Z.of_nat i) Hm ltac:(lia)) as [K1 K2].
    rewrite Hz in K1, K2. cbn in K1, K2. split; [lia | congruence].
  - intros devId Hn Hf Hlen. unfold handleLightsRequest.
    destruct (Z.eqb_spec devId 0); [contradiction|].
    unfold decodeLightKey.
    destruct (Z.eqb_spec (Z.shiftr (u32 devId) 7) (getMac24 mac)); [contradiction|].
    unfold INVALID_DEVICE_INDEX.
    destruct (Z.ltb_spec 255 (Z.of_nat (List.length devs))); [lia | reflexivity].
Qed.

End HueRouting.

Lemma handleLightsRequest_routing_witness :
  let mac := "AA:BB:CC:DD:EE:FF"%string in
  let devs := [AsyncEspAlexaDevice.DOnOff (AsyncEspAlexaDevice.newOnOff "a" false);
               AsyncEspAlexaDevice.DOnOff (AsyncEspAlexaDevice.newOnOff "b" false)] in
  AsyncEspAlexaWebHandler.handleLightsRequest devs mac
    (AsyncEspAlexaDevice.encodeLightKey mac 1)
  = AsyncEspAlexaWebHandler.DeviceState 1
  /\ AsyncEspAlexaWebHandler.handleLightsRequest devs mac 5
     = AsyncEspAlexaWebHandler.NotFound.
Proof.
  intros mac devs.
  destruct (handleLightsRequest_routing devs mac) as (H1 & _ & H3).
  split.
  - exact (H1 1%nat ltac:(simpl; lia) ltac:(lia)).
  - apply H3; [lia | vm_compute; discriminate | simpl; lia].
Defined.

(** ** State updates through the Hue API *)

Section HuePut.

Import AsyncEspAlexaDevice AlexaIntegration AsyncEspAlexaWebHandler.

Variable logf : F32.t -> F32.t.
Variable powf : F32.t -> F32.t -> F32.t.

Lemma updateAt_nth (f : Device -> Device) (l : list Device) (i : nat) (d : Device) :
  nth_error l i = Some d ->
  nth_error (AsyncEspAlexaManager.updateAt i f l) i = Some (f d)
  /\ List.length (AsyncEspAlexaManager.updateAt i f l) = List.length l
  /\ (forall j, j <> i ->
        nth_error (AsyncEspAlexaManager.updateAt i f l) j = nth_error l j).
Proof.
  revert i. induction l as [|a l IH]; intros i H.
  - destruct i; discriminate.
  - destruct i as [|i].
    + injection H as <-. cbn. repeat split. intros [|j] Hj; [congruence | reflexivity].
    + cbn in H. destruct (IH i H) as (H1 & H2 & H3). cbn.
      split; [exact H1|]. split; [congruence|].
      intros [|j] Hj; [reflexivity|]. cbn. apply H3. congruence.
Qed.

(** X25.  A state update for a single-channel device, end to end.
    [PUT .../lights/<key>/state] with ["on"] and ["bri"], addressed
    by the key of a dimmable device bound to channel [c], answers
    success for that key, stores the flag and the brightness in the
    device, switches the channel and gives it the value
    [bri < 128 ? bri : bri + 1]; the other devices, the other
    channels and the settings stay as they were. *)
Theorem put_state_single_channel (a : AlexaIntegration.t) (mac : string) (i : nat)
    (d : Dimmable) (c : Color) (obj : JsonObject) (b : bool) (n : Z) :
  Output.wired (outputManager a) ->
  (i <= 127)%nat ->
  nth_error (registry a) i = Some (DDimmable d) ->
  brightnessCallback d = Some (HandleSingleChannelCommand c) ->
  asBool (member obj "on") = Some b ->
  asInteger (member obj "bri") = Some n ->
  0 <= n <= 255 ->
  (forall s, member obj "devicetype" <> JString s) ->
  exists a' d',
    handleRequestWithBody logf powf a mac true (encodeLightKey mac (Z.of_nat i)) obj
    = Some (a', Success (encodeLightKey mac (Z.of_nat i)))
    /\ nth_error (registry a') i = Some (DDimmable d')
    /\ Dimmable_isOn d' = b /\ brightness d' = n
    /\ Dimmable_getName d' = Dimmable_getName d
    /\ (forall j, j <> i -> nth_error (registry a') j = nth_error (registry a) j)
    /\ Output.getState (outputManager a')
       = Output.mkState
           (Array4.set (Output.values (Output.getState (outputManager a))) c
              (Light.mkState b (channelValueOf n)))
    /\ settings a' = settings a /\ devices a' = devices a.
Proof.
  intros Hw H127 Hnth Hcb Hon Hbri Hn Hdt.
  unfold handleRequestWithBody.
  destruct (decode_own_key mac (Z.of_nat i) ltac:(lia)) as [Hdec Hu].
  set (d' := Dimmable_handleStateUpdate d obj).
  assert (Hd' : Dimmable_isOn d' = b /\ brightness d' = n
                /\ Dimmable_getName d' = Dimmable_getName d
                /\ brightnessCallback d' = Some (HandleSingleChannelCommand c)).
  { subst d'. unfold Dimmable_handleStateUpdate. rewrite Hbri.
    unfold Dimmable_mapBase, OnOff_mapBase, Base_handleStateUpdate. rewrite Hon.
    cbn. unfold fitOrZero.
    destruct (Z.leb_spec 0 n); [|lia]. change (2 ^ 8) with 256.
    destruct (Z.ltb_spec n 256); [|lia]. repeat split. exact Hcb. }
  destruct Hd' as (D1 & D2 & D3 & D4).
  destruct (handleSingleChannelCommand_state (outputManager a) c b n Hw)
    as (om' & E & _ & Hs).
  assert (Hlen : (i < List.length (registry a))%nat).
  { apply nth_error_Some. congruence. }
  destruct (updateAt_nth (fun _ => DDimmable d') (registry a) i _ Hnth) as (U1 & U2 & U3).
  assert (Hgo :
    (if Z.of_nat (List.length (registry a)) <=? decodeLightKey mac
                                                   (u32 (encodeLightKey mac (Z.of_nat i)))
     then Some (a, NotFound)
     else
       match nth_error (registry a)
               (Z.to_nat (decodeLightKey mac (u32 (encodeLightKey mac (Z.of_nat i))))) with
       | None => Some (a, NotFound)
       | Some dev =>
           let dev' := handleStateUpdate dev obj in
           om <- callAfterStateUpdateCallback logf powf dev' (outputManager a) ;;
           Some ({| outputManager := om;
                    espAlexaManager :=
                      AsyncEspAlexaManager.mk
                        (AsyncEspAlexaManager.updateAt
                           (Z.to_nat (decodeLightKey mac
                                        (u32 (encodeLightKey mac (Z.of_nat i)))))
                           (fun _ => dev') (registry a));
                    settings := settings a;
                    devices := devices a |},
                 Success (u32 (encodeLightKey mac (Z.of_nat i))))
       end)
    = Some ({| outputManager := om';
               espAlexaManager :=
                 AsyncEspAlexaManager.mk
                   (AsyncEspAlexaManager.updateAt i (fun _ => DDimmable d') (registry a));
               settings := settings a;
               devices := devices a |},
            Success (encodeLightKey mac (Z.of_nat i)))).
  { rewrite Hdec, Hu, Nat2Z.id.
    destruct (Z.leb_spec (Z.of_nat (List.length (registry a))) (Z.of_nat i)); [lia|].
    rewrite Hnth. cbn [handleStateUpdate]. fold d'.
    cbv zeta. unfold callAfterStateUpdateCallback, Dimmable_callAfter.
    rewrite D4, D1, D2. cbn [callBrightnessCallback]. rewrite E. reflexivity. }
  eexists _, d'.
  split.
  - destruct (member obj "devicetype") eqn:Edt; try exact Hgo.
    exfalso. exact (Hdt _ eq_refl).
  - cbn [registry espAlexaManager AsyncEspAlexaManager.devices outputManager
           settings devices].
    split; [exact U1|]. split; [exact D1|]. split; [exact D2|]. split; [exact D3|].
    split; [exact U3|]. split; [exact Hs|]. split; reflexivity.
Qed.

End HuePut.

Lemma put_state_single_channel_witness :
  let mac := "AA:BB:CC:DD:EE:FF"%string in
  let a := AlexaIntegration.setupDevices (fun _ => [])
             (AlexaIntegration.mk (Output.makeManager 21 17 4 13)
                AsyncEspAlexaManager.empty
                (AlexaIntegration.mkSettings AlexaIntegration.MULTI_DEVICE
                   (Array4.mk (AlexaIntegration.nameBuffer "Red")
                      (AlexaIntegration.nameBuffer "") (AlexaIntegration.nameBuffer "")
                      (AlexaIntegration.nameBuffer "White")))
                AlexaIntegration.noDevices) in
  let obj := [("on"%string, AsyncEspAlexaDevice.JBool true);
              ("bri"%string, AsyncEspAlexaDevice.JInteger 200)] in
  exists a',
    option_map fst
      (AsyncEspAlexaWebHandler.handleRequestWithBody (fun v => v) (fun v _ => v) a mac true
         (AsyncEspAlexaDevice.encodeLightKey mac 1) obj) = Some a'
    /\ Output.State_getValue (Output.getState (AlexaIntegration.outputManager a')) White
       = 201
    /\ Output.State_isOn (Output.getState (AlexaIntegration.outputManager a')) Red
       = false.
Proof.
  intros mac a obj.
  pose (d := match nth_error (AlexaIntegration.registry a) 1 with
             | Some (AsyncEspAlexaDevice.DDimmable d) => d
             | _ => AsyncEspAlexaDevice.newDimmable "" false 0
             end).
  destruct (put_state_single_channel (fun v => v) (fun v _ => v) a mac 1 d White obj
              true 200) as (a' & d' & E & _ & _ & _ & _ & _ & Hs & _).
  - intros c. destruct c; unfold Light.wired; simpl; discriminate.
  - lia.
  - vm_compute. reflexivity.
  - vm_compute. reflexivity.
  - reflexivity.
  - reflexivity.
  - lia.
  - intros s. vm_compute. discriminate.
  - exists a'. change (Z.of_nat 1) with 1 in E. rewrite E. split; [reflexivity|].
    rewrite Hs. split; reflexivity.
Defined.

Section HueRejections.

Import AsyncEspAlexaDevice AlexaIntegration AsyncEspAlexaWebHandler.

Variable logf : F32.t -> F32.t.
Variable powf : F32.t -> F32.t -> F32.t.

(** X26.  Requests with a body that change nothing.  A body whose
    ["devicetype"] is a string is answered as a registration whatever
    the URL and whatever else the body carries, so it never updates a
    device.  Otherwise a URL without ["state"] gets no response at
    all, and a state URL whose key does not carry this controller's
    hardware id is answered "Device not found" while fewer than 256
    devices are registered.  In all three cases outputs and devices
    stay as they were. *)
Theorem put_without_effect (a : AlexaIntegration.t) (mac : string) (stateUrl : bool)
    (devId : Z) (obj : JsonObject) :
  (forall s, member obj "devicetype" = JString s ->
     handleRequestWithBody logf powf a mac stateUrl devId obj = Some (a, Registered))
  /\ ((forall s, member obj "devicetype" <> JString s) ->
      stateUrl = false ->
      handleRequestWithBody logf powf a mac stateUrl devId obj = Some (a, NoResponse))
  /\ ((forall s, member obj "devicetype" <> JString s) ->
      stateUrl = true ->
      Z.shiftr (u32 devId) 7 <> getMac24 mac ->
      (List.length (registry a) <= 255)%nat ->
      handleRequestWithBody logf powf a mac stateUrl devId obj = Some (a, NotFound)).
Proof.
  unfold handleRequestWithBody. split; [|split].
  - intros s ->. reflexivity.
  - intros Hdt ->. destruct (member obj "devicetype") eqn:E; try reflexivity.
    exfalso. exact (Hdt _ eq_refl).
  - intros Hdt -> Hf Hlen. unfold decodeLightKey.
    destruct (Z.eqb_spec (Z.shiftr (u32 devId) 7) (getMac24 mac)); [contradiction|].
    unfold INVALID_DEVICE_INDEX.
    destruct (Z.leb_spec (Z.of_nat (List.length (registry a))) 255); [|lia].
    destruct (member obj "devicetype") eqn:E; try reflexivity.
    exfalso. exact (Hdt _ eq_refl).
Qed.

End HueRejections.

Lemma put_without_effect_witness :
  let a := AlexaIntegration.mk (Output.makeManager 21 17 4 13)
             AsyncEspAlexaManager.empty
             (AlexaIntegration.mkSettings AlexaIntegration.OFF
                (Array4.mk [] [] [] [])) AlexaIntegration.noDevices in
  AsyncEspAlexaWebHandler.handleRequestWithBody (fun v => v) (fun v _ => v) a
    "AA:BB:CC:DD:EE:FF" true 5
    [("devicetype"%string, AsyncEspAlexaDevice.JString "Echo");
     ("on"%string, AsyncEspAlexaDevice.JBool true)]
  = Some (a, AsyncEspAlexaWebHandler.Registered).
Proof.
  intros a.
  destruct (put_without_effect (fun v => v) (fun v _ => v) a "AA:BB:CC:DD:EE:FF" true 5
              [("devicetype"%string, AsyncEspAlexaDevice.JString "Echo");
               ("on"%string, AsyncEspAlexaDevice.JBool true)]) as (H & _).
  exact (H "Echo"%string eq_refl).
Defined.

(** ** The registry after [applySettings] *)

Section RegistryShape.

Import AsyncEspAlexaDevice AlexaIntegration.

Variable addressBytes : nat -> list ascii.

Lemma nth_error_4 {A} (P : nat -> A -> Prop) (l : list A) :
  (List.length l <= 4)%nat ->
  (forall d, nth_error l 0 = Some d -> P 0%nat d) ->
  (forall d, nth_error l 1 = Some d -> P 1%nat d) ->
  (forall d, nth_error l 2 = Some d -> P 2%nat d) ->
  (forall d, nth_error l 3 = Some d -> P 3%nat d) ->
  forall i d, nth_error l i = Some d -> P i d.
Proof.
  intros Hlen H0 H1 H2 H3 i d H.
  assert (Hi : (i < List.length l)%nat) by (apply nth_error_Some; congruence).
  destruct i as [|[|[|[|i]]]]; auto. lia.
Qed.

(** X27.  What [applySettings] leaves registered.  Mode OFF registers
    nothing; mode RGBW_DEVICE registers exactly one device, whether
    or not it has a name; mode RGB_DEVICE one device for each of the
    first and fourth names in use; mode MULTI_DEVICE one for each
    name in use.  Every registered device has its position as its
    id, every pointer kept in the mode's device slots refers to a
    registered device, and in mode MULTI_DEVICE the slot of a channel
    is empty exactly when the channel's name is, and otherwise refers
    to the dimmable device that commands that channel; that device
    carries the channel's name when the name ends inside its buffer. *)
Theorem applySettings_registry_shape (a : AlexaIntegration.t) (s : Settings) :
  let a' := applySettings addressBytes a s in
  let names := deviceNames s in
  let used (bufs : list (list ascii)) :=
    List.length (filter (fun b => negb (emptyName b)) bufs) in
  List.length (registry a')
  = match integrationMode s with
    | OFF => 0%nat
    | RGBW_DEVICE => 1%nat
    | RGB_DEVICE => used [Array4.a0 names; Array4.a3 names]
    | MULTI_DEVICE => used (Array4.to_list names)
    end
  /\ (forall i d, nth_error (registry a') i = Some d -> id (Device_base d) = Z.of_nat i)
  /\ (forall c p, Array4.at_ (devices a') c = Some p ->
                  (p < List.length (registry a'))%nat)
  /\ (integrationMode s = MULTI_DEVICE ->
      forall c,
        (Array4.at_ (devices a') c = None <-> emptyName (Array4.at_ names c) = true)
        /\ (forall p, Array4.at_ (devices a') c = Some p ->
               exists d, nth_error (registry a') p = Some (DDimmable d)
                         /\ brightnessCallback d = Some (HandleSingleChannelCommand c)
                         /\ (terminated (Array4.at_ names c) = true ->
                             Dimmable_getName d = c_str (Array4.at_ names c)))).
Proof.
  destruct s as [mode [n0 n1 n2 n3]].
  cbv zeta.
  unfold applySettings, setupDevices, clearDevices, registry.
  cbn [settings integrationMode deviceNames withDevices outputManager espAlexaManager
       devices Array4.a0 Array4.a1 Array4.a2 Array4.a3 Array4.to_list].
  destruct mode.
  - cbn. repeat split; try discriminate.
    + intros [|i] d H; discriminate.
    + intros c p H; destruct c; discriminate.
  - unfold setupRgbwDevice.
    cbn [settings integrationMode deviceNames withDevices outputManager espAlexaManager
         devices Array4.a0].
    destruct (AsyncEspAlexaColorUtils.rgbwToHsv _ _ _ _) as [[h sat] v].
    cbn. repeat split; try discriminate.
    + intros [|[|i]] d H; cbn in H; try discriminate. injection H as <-. reflexivity.
    + intros c p H; destruct c; cbn in H; try discriminate. injection H as <-. lia.
  - unfold setupStandaloneDevice, setupRgbDevice, createSingleChannelDevice.
    cbn [settings integrationMode deviceNames withDevices outputManager espAlexaManager
         devices Array4.a0 Array4.a3 Array4.at_].
    destruct (emptyName n0) eqn:E0.
    + cbn [settings integrationMode deviceNames withDevices outputManager espAlexaManager
           devices Array4.a0 Array4.a3 Array4.at_ filter negb].
      rewrite E0. destruct (emptyName n3) eqn:E3; cbn -[memoryAt c_str];
        repeat split; try discriminate.
      * intros [|i] d H; discriminate.
      * intros c p H; destruct c; discriminate.
      * intros [|[|i]] d H; cbn in H; try discriminate. injection H as <-. reflexivity.
      * intros c p H; destruct c; cbn in H; try discriminate. injection H as <-. lia.
    + destruct (AsyncEspAlexaColorUtils.rgbToHsv _ _ _) as [[h sat] v].
      cbn [settings integrationMode deviceNames withDevices outputManager espAlexaManager
           devices Array4.a0 Array4.a3 Array4.at_ filter negb].
      rewrite E0. destruct (emptyName n3) eqn:E3; cbn -[memoryAt c_str];
        repeat split; try discriminate.
      * intros [|[|i]] d H; cbn in H; try discriminate. injection H as <-. reflexivity.
      * intros c p H; destruct c; cbn in H; try discriminate. injection H as <-. lia.
      * intros [|[|[|i]]] d H; cbn in H; try discriminate; injection H as <-; reflexivity.
      * intros c p H; destruct c; cbn in H; try discriminate; injection H as <-; lia.
  - unfold setupMultiDevice, createSingleChannelDevice.
    cbn [settings integrationMode deviceNames withDevices outputManager espAlexaManager
         devices Array4.a0 Array4.a1 Array4.a2 Array4.a3 Array4.at_ filter negb].
    destruct (emptyName n0) eqn:E0; destruct (emptyName n1) eqn:E1;
      destruct (emptyName n2) eqn:E2; destruct (emptyName n3) eqn:E3;
      cbn -[memoryAt c_str]; rewrite ?E0, ?E1, ?E2, ?E3; (split; [reflexivity|]);
      (split; [apply nth_error_4; [cbn; lia | | | |];
               intros d H; cbn -[memoryAt c_str] in H; try discriminate;
               injection H as <-; reflexivity|]);
      (split; [intros c p H; destruct c; cbn in H; try discriminate;
               injection H as <-; lia|]);
      intros _ c; destruct c; cbn -[memoryAt c_str];
      (split;
       [split; intros H; first [assumption | reflexivity | discriminate | congruence]
       | intros p H;
         first [discriminate
               | injection H as <-; eexists; (split; [reflexivity|]);
                 (split; [reflexivity|]); intros Ht; cbn -[memoryAt c_str];
                 apply c_str_memoryAt; exact Ht]]).
Qed.

End RegistryShape.

Lemma applySettings_registry_shape_witness :
  let a := AlexaIntegration.mk (Output.makeManager 21 17 4 13)
             AsyncEspAlexaManager.empty
             (AlexaIntegration.mkSettings AlexaIntegration.OFF
                (Array4.mk [] [] [] [])) AlexaIntegration.noDevices in
  let a' := AlexaIntegration.applySettings (fun _ => []) a AlexaIntegration.kitchenLamp in
  List.length (AlexaIntegration.registry a') = 2%nat
  /\ (forall i d, nth_error (AlexaIntegration.registry a') i = Some d ->
                  AsyncEspAlexaDevice.id (AsyncEspAlexaDevice.Device_base d) = Z.of_nat i).
Proof.
  intros a a'.
  destruct (applySettings_registry_shape (fun _ => []) a AlexaIntegration.kitchenLamp)
    as (H1 & H2 & _).
  split; [exact H1 | exact H2].
Defined.

(** ** The list of paired remotes *)

Section Remotes.

Import ControllerHandler.

Lemma charOf_byteOf (c : ascii) : charOf (byteOf c) = c.
Proof. unfold charOf, byteOf. rewrite Nat2Z.id. apply ascii_nat_embedding. Qed.

Lemma map_charOf_byteOf (l : list ascii) : map charOf (map byteOf l) = l.
Proof.
  induction l as [|c l IH]; [reflexivity|]. cbn [map]. rewrite charOf_byteOf, IH.
  reflexivity.
Qed.

Lemma deviceBytes_length (d : EspNow.Device) :
  EspNow.wellFormed d -> List.length (deviceBytes d) = 30%nat.
Proof.
  intros [Hn Ha]. unfold deviceBytes. rewrite length_app, length_map, Hn, Ha.
  reflexivity.
Qed.

(** The record read at the start of a buffer that begins with the
    bytes of a well-formed record. *)
Lemma record_at_front (d : EspNow.Device) (rest : list Z) :
  EspNow.wellFormed d ->
  EspNow.mkDevice (map charOf (firstn 24 (deviceBytes d ++ rest)))
    (firstn 6 (skipn 24 (deviceBytes d ++ rest))) = d.
Proof.
  intros [Hn Ha]. unfold deviceBytes. destruct d as [nm ad].
  cbn [EspNow.name EspNow.address] in *.
  change EspNow.NAME_TOTAL_LENGTH with 24%nat in Hn.
  change EspNow.MAC_SIZE with 6%nat in Ha.
  assert (Hl : List.length (map byteOf nm) = 24%nat) by (rewrite length_map; exact Hn).
  rewrite <- app_assoc.
  rewrite firstn_app, Hl, Nat.sub_diag, firstn_O, app_nil_r, firstn_all2 by lia.
  rewrite skipn_app, Hl, Nat.sub_diag, skipn_all2 by lia. cbn [skipn app].
  rewrite firstn_app, Ha, Nat.sub_diag, firstn_O, app_nil_r, firstn_all2 by lia.
  rewrite map_charOf_byteOf. reflexivity.
Qed.

Lemma skipn_records (ds : list EspNow.Device) (tail : list Z) (i : nat) :
  Forall EspNow.wellFormed ds ->
  (i <= List.length ds)%nat ->
  skipn (i * 30) (flat_map deviceBytes ds ++ tail)
  = flat_map deviceBytes (skipn i ds) ++ tail.
Proof.
  intros Hwf. revert i. induction Hwf as [|d ds Hd Hds IH]; intros i Hi.
  - destruct i; [reflexivity | cbn in Hi; lia].
  - destruct i as [|i]; [reflexivity|].
    cbn [flat_map skipn]. rewrite <- app_assoc.
    replace (S i * 30)%nat with (30 + i * 30)%nat by lia.
    rewrite skipn_app, (deviceBytes_length d Hd).
    rewrite skipn_all2 by (rewrite (deviceBytes_length d Hd); lia).
    replace (30 + i * 30 - 30)%nat with (i * 30)%nat by lia.
    cbn [app]. apply IH. cbn in Hi. lia.
Qed.

Lemma deviceAt_record (c : Z) (ds : list EspNow.Device) (tail : list Z) (i : nat) :
  Forall EspNow.wellFormed ds ->
  (i < List.length ds)%nat ->
  deviceAt (c :: flat_map deviceBytes ds ++ tail) i = nth i ds zeroDevice.
Proof.
  intros Hwf Hi. unfold deviceAt, bytesAt, sizeofDevice.
  change (EspNow.NAME_TOTAL_LENGTH + EspNow.MAC_SIZE)%nat with 30%nat.
  change EspNow.NAME_TOTAL_LENGTH with 24%nat. change EspNow.MAC_SIZE with 6%nat.
  cbv zeta.
  replace (1 + i * 30 + 24)%nat with (S (24 + i * 30)) by lia.
  change (1 + i * 30)%nat with (S (i * 30)).
  rewrite !skipn_cons, <- skipn_skipn.
  rewrite (skipn_records ds tail i Hwf ltac:(lia)).
  assert (Hsk : exists d rest, skipn i ds = d :: rest /\ nth i ds zeroDevice = d
                               /\ EspNow.wellFormed d).
  { clear tail c. revert i Hi. induction Hwf as [|d ds Hd Hds IH]; intros i Hi.
    - cbn in Hi. lia.
    - destruct i as [|i].
      + exists d, ds. split; [reflexivity|]. split; [reflexivity | exact Hd].
      + cbn in Hi. destruct (IH i ltac:(lia)) as (d' & rest & E & En & Hw').
        exists d', rest. cbn [skipn nth]. split; [exact E|]. split; [exact En | exact Hw']. }
  destruct Hsk as (d & rest & E & En & Hd). rewrite E, En. cbn [flat_map].
  rewrite <- app_assoc. apply record_at_front. exact Hd.
Qed.

Lemma flat_map_zero (k : nat) :
  flat_map deviceBytes (repeat zeroDevice k) = repeat 0 (30 * k).
Proof.
  induction k as [|k IH]; [reflexivity|].
  cbn [repeat flat_map]. rewrite IH.
  replace (30 * S k)%nat with (30 + 30 * k)%nat by lia.
  rewrite repeat_app. reflexivity.
Qed.

Lemma zeroDevice_wellFormed : EspNow.wellFormed zeroDevice.
Proof. split; reflexivity. Qed.

Lemma map_seq_split (f : nat -> EspNow.Device) (ds : list EspNow.Device) (m : nat) :
  (forall i, (i < List.length ds)%nat -> f i = nth i ds zeroDevice) ->
  (forall i, (List.length ds <= i)%nat -> f i = zeroDevice) ->
  (List.length ds <= m)%nat ->
  map f (seq 0 m) = ds ++ repeat zeroDevice (m - List.length ds).
Proof.
  intros Hlo Hhi Hm.
  apply nth_ext with (d := f m) (d' := zeroDevice).
  - rewrite length_map, length_seq, length_app, repeat_length. lia.
  - intros i Hi. rewrite length_map, length_seq in Hi.
    rewrite (nth_indep _ (f m) (f 0%nat)) by (rewrite length_map, length_seq; exact Hi).
    rewrite map_nth, seq_nth by exact Hi. cbn [plus].
    destruct (Nat.lt_ge_cases i (List.length ds)) as [Hl | Hg].
    + rewrite app_nth1 by exact Hl. apply Hlo. exact Hl.
    + rewrite app_nth2 by exact Hg. rewrite nth_repeat. apply Hhi. exact Hg.
Qed.

(** What a write of [n] well-formed records leaves in the handler. *)
Lemma setDevicesBuffer_written (current : DeviceData) (ds : list EspNow.Device)
    (tail : list Z) :
  (List.length ds <= 10)%nat ->
  Forall EspNow.wellFormed ds ->
  setDevicesBuffer current
    (Z.of_nat (List.length ds) :: flat_map deviceBytes ds ++ tail)
  = mkDeviceData (Z.of_nat (List.length ds))
      (ds ++ repeat zeroDevice (10 - List.length ds)).
Proof.
  intros Hlen Hwf. unfold setDevicesBuffer.
  set (data := Z.of_nat (List.length ds) :: flat_map deviceBytes ds ++ tail).
  assert (Hfl : List.length (flat_map deviceBytes ds) = (30 * List.length ds)%nat).
  { clear data Hlen. induction Hwf as [|d ds Hd Hds IH]; [reflexivity|].
    cbn [flat_map List.length]. rewrite length_app, IH, (deviceBytes_length d Hd). lia. }
  assert (Hdl : List.length data
                = (1 + 30 * List.length ds + List.length tail)%nat).
  { subst data. cbn [List.length]. rewrite length_app, Hfl. lia. }
  cbv zeta. rewrite Hdl.
  destruct (Z.ltb_spec (Z.of_nat (1 + 30 * List.length ds + List.length tail)) 1); [lia|].
  change (nth 0 data 0) with (Z.of_nat (List.length ds)).
  change (Z.of_nat sizeofDevice) with 30.
  destruct (Z.ltb_spec (Z.of_nat (1 + 30 * List.length ds + List.length tail))
              (1 + Z.of_nat (List.length ds) * 30)); [lia|].
  unfold MAX_DEVICES_PER_MESSAGE. rewrite Z.min_l by lia. f_equal.
  change (Z.to_nat 10) with 10%nat.
  apply map_seq_split; [| |exact Hlen].
  - intros i Hi. destruct (Z.ltb_spec (Z.of_nat i) (Z.of_nat (List.length ds))); [|lia].
    subst data. apply deviceAt_record; assumption.
  - intros i Hi. destruct (Z.ltb_spec (Z.of_nat i) (Z.of_nat (List.length ds))); [lia|].
    reflexivity.
Qed.

(** X28.  Writing and reading the list of remotes.  A write that
    starts with a count [n <= 10] followed by [n] records of 30 bytes
    (anything may follow) stores exactly those records, in order,
    with the unused entries of the array zeroed.  A read then returns
    the count followed by all ten entries of the array, 301 bytes
    whatever the count, and writing those bytes back stores the same
    list again.  A write shorter than its count announces changes
    nothing. *)
Theorem setDevicesBuffer_roundtrip (current : DeviceData) (ds : list EspNow.Device)
    (tail : list Z) :
  (List.length ds <= 10)%nat ->
  Forall EspNow.wellFormed ds ->
  let n := Z.of_nat (List.length ds) in
  let written := setDevicesBuffer current (n :: flat_map deviceBytes ds ++ tail) in
  written = mkDeviceData n (ds ++ repeat zeroDevice (10 - List.length ds))
  /\ getDevicesBuffer written
     = n :: flat_map deviceBytes ds ++ repeat 0 (30 * (10 - List.length ds))
  /\ List.length (getDevicesBuffer written) = 301%nat
  /\ setDevicesBuffer emptyData (getDevicesBuffer written) = written
  /\ (forall data,
        Z.of_nat (List.length data) < 1 + nth 0 data 0 * 30 ->
        setDevicesBuffer written data = written).
Proof.
  intros Hlen Hwf n written.
  assert (Hw : written = mkDeviceData n (ds ++ repeat zeroDevice (10 - List.length ds))).
  { subst written n. apply setDevicesBuffer_written; assumption. }
  assert (Hg : getDevicesBuffer written
               = n :: flat_map deviceBytes ds ++ repeat 0 (30 * (10 - List.length ds))).
  { rewrite Hw. unfold getDevicesBuffer. cbn [deviceCount devices].
    rewrite flat_map_app, flat_map_zero. reflexivity. }
  split; [exact Hw|]. split; [exact Hg|]. split; [|split].
  - rewrite Hg. cbn [List.length]. rewrite length_app, repeat_length.
    assert (Hfl : List.length (flat_map deviceBytes ds) = (30 * List.length ds)%nat).
    { clear - Hwf. induction Hwf as [|d ds Hd Hds IH]; [reflexivity|].
      cbn [flat_map List.length]. rewrite length_app, IH, (deviceBytes_length d Hd). lia. }
    rewrite Hfl. lia.
  - rewrite Hg. subst n. rewrite (setDevicesBuffer_written emptyData ds _ Hlen Hwf).
    symmetry. exact Hw.
  - intros data Hshort. unfold setDevicesBuffer. cbv zeta.
    destruct (Z.ltb_spec (Z.of_nat (List.length data)) 1); [reflexivity|].
    change (Z.of_nat sizeofDevice) with 30.
    destruct (Z.ltb_spec (Z.of_nat (List.length data)) (1 + nth 0 data 0 * 30));
      [reflexivity | lia].
Qed.

Lemma setDevicesBuffer_roundtrip_witness :
  let remote := EspNow.device "Sofa" [36; 10; 196; 1; 2; 3] in
  let written :=
    setDevicesBuffer emptyData
      (Z.of_nat (List.length [remote]) :: flat_map deviceBytes [remote] ++ []) in
  deviceCount written = 1
  /\ nth 0 (devices written) zeroDevice = remote
  /\ List.length (getDevicesBuffer written) = 301%nat.
Proof.
  intros remote written.
  destruct (setDevicesBuffer_roundtrip emptyData [remote] [])
    as (Hw & _ & Hl & _).
  - simpl. lia.
  - constructor; [split; reflexivity | constructor].
  - fold written in Hw, Hl. split; [|split].
    + rewrite Hw. reflexivity.
    + rewrite Hw. reflexivity.
    + exact Hl.
Defined.

End Remotes.
(** ** Packets from a remote *)

Section Reception.

Import ControllerHandler Controller.

Variable powf : F32.t -> F32.t -> F32.t.

Lemma firstAmong_find (ds pad : list EspNow.Device) (p : EspNow.Device -> bool) :
  firstAmong (List.length ds) (ds ++ pad) p = find p ds.
Proof.
  induction ds as [|d ds IH]; [destruct pad; reflexivity|].
  cbn [List.length app firstAmong find]. destruct (p d); [reflexivity | exact IH].
Qed.

Lemma find_pointwise {A} (p q : A -> bool) (l : list A) :
  (forall a, p a = q a) -> find p l = find q l.
Proof.
  intros H. induction l as [|a l IH]; [reflexivity|]. cbn. rewrite H, IH. reflexivity.
Qed.

Lemma find_existsb {A} (p : A -> bool) (l : list A) :
  match find p l with Some _ => true | None => false end = existsb p l.
Proof.
  induction l as [|a l IH]; [reflexivity|]. cbn. destruct (p a); [reflexivity | exact IH].
Qed.

(** X29.  Which packets reach the lights.  After a write of [n]
    well-formed records, a sender is allowed exactly when its
    address is the address of one of those [n] records; the zeroed
    entries that pad the array allow nobody, and a controller with no
    remotes paired allows nobody.  A packet from a sender that is not
    allowed, or whose length is not one byte, or whose byte is above
    8, leaves the lights untouched; any other packet is the command
    its byte names. *)
Theorem onDataReceived_filter (current : DeviceData) (ds : list EspNow.Device)
    (tail : list Z) (om : Output.Manager) (mac data : list Z) :
  (List.length ds <= 10)%nat ->
  Forall EspNow.wellFormed ds ->
  List.length mac = 6%nat ->
  let remotes :=
    setDevicesBuffer current
      (Z.of_nat (List.length ds) :: flat_map deviceBytes ds ++ tail) in
  let sameAddress (d : EspNow.Device) := EspNow.array_eqb Z.eqb (EspNow.address d) mac in
  isMacAllowed remotes mac = existsb sameAddress ds
  /\ findDeviceByMac remotes mac = find sameAddress ds
  /\ onDataReceived powf emptyData om mac data = Some om
  /\ (existsb sameAddress ds = false ->
      onDataReceived powf remotes om mac data = Some om)
  /\ (List.length data <> 1%nat ->
      onDataReceived powf remotes om mac data = Some om)
  /\ (forall type, 8 < type ->
        onDataReceived powf remotes om mac [type] = Some om)
  /\ (existsb sameAddress ds = true ->
      forall type, onDataReceived powf remotes om mac [type]
                   = onEspNowMessage powf om type).
Proof.
  intros Hlen Hwf Hmac remotes sameAddress.
  assert (Hr : remotes = mkDeviceData (Z.of_nat (List.length ds))
                           (ds ++ repeat zeroDevice (10 - List.length ds))).
  { subst remotes. apply setDevicesBuffer_written; assumption. }
  assert (Hp : forall d, addressIs mac d = sameAddress d).
  { intros d. unfold addressIs, sameAddress. change EspNow.MAC_SIZE with 6%nat.
    rewrite firstn_all2 by lia. reflexivity. }
  assert (Hf : findDeviceByMac remotes mac = find sameAddress ds).
  { rewrite Hr. unfold findDeviceByMac. cbn [deviceCount devices].
    rewrite Nat2Z.id, firstAmong_find. apply find_pointwise. exact Hp. }
  assert (Ha : isMacAllowed remotes mac = existsb sameAddress ds).
  { rewrite <- find_existsb, <- Hf. reflexivity. }
  split; [exact Ha|]. split; [exact Hf|]. split; [reflexivity|].
  unfold onDataReceived. rewrite Ha. split; [|split; [|split]].
  - intros ->. reflexivity.
  - intros Hd. destruct (existsb sameAddress ds); [|reflexivity]. cbn [negb].
    unfold sizeofMessage.
    destruct (Z.eqb_spec (Z.of_nat (List.length data)) 1); [lia | reflexivity].
  - intros type Hty. destruct (existsb sameAddress ds); [|reflexivity].
    cbn [negb List.length Z.of_nat Pos.of_succ_nat sizeofMessage Z.eqb Pos.eqb nth].
    unfold onEspNowMessage.
    destruct type as [|p|p]; try lia.
    repeat (destruct p as [p|p|]; try lia; try reflexivity).
  - intros -> type. reflexivity.
Qed.

End Reception.

Lemma onDataReceived_filter_witness :
  let remote := EspNow.device "Sofa" [36; 10; 196; 1; 2; 3] in
  let remotes :=
    ControllerHandler.setDevicesBuffer ControllerHandler.emptyData
      (Z.of_nat (List.length [remote])
       :: flat_map ControllerHandler.deviceBytes [remote] ++ []) in
  let om := Output.makeManager 21 17 4 13 in
  Controller.onDataReceived (fun v _ => v) remotes om [36; 10; 196; 1; 2; 3] [0]
  = Output.toggle om Red
  /\ Controller.onDataReceived (fun v _ => v) remotes om [0; 0; 0; 0; 0; 0] [0] = Some om.
Proof.
  intros remote remotes om. split.
  - destruct (onDataReceived_filter (fun v _ => v) ControllerHandler.emptyData [remote] []
                om [36; 10; 196; 1; 2; 3] [0]) as (_ & _ & _ & _ & _ & _ & H).
    + simpl. lia.
    + constructor; [split; reflexivity | constructor].
    + reflexivity.
    + exact (H eq_refl 0).
  - destruct (onDataReceived_filter (fun v _ => v) ControllerHandler.emptyData [remote] []
                om [0; 0; 0; 0; 0; 0] [0]) as (_ & _ & _ & H & _).
    + simpl. lia.
    + constructor; [split; reflexivity | constructor].
    + reflexivity.
    + exact (H eq_refl).
Defined.
(** ** Colour messages on the websocket *)

Section WebSocketColour.

Import WebSocket.

(** X30.  Colour messages on the websocket.  A colour frame of at
    least 9 bytes sets the outputs to the state its bytes 1 to 8
    carry and records that state as sent, so the periodic broadcast
    sends nothing for it, at any later time: the other connected
    clients are not told.  A snapshot for one client then carries the
    type byte and those eight bytes as they were received.  A shorter
    frame changes nothing.  A snapshot for one client is sent
    whatever the gate says and is not recorded; a broadcast that
    could not be queued is not recorded either, so it is tried
    again. *)
Theorem websocket_colour_flow (h : Handler) (data : list Z) (millis now : Z)
    (enqueued : bool) :
  Output.wired (outputManager h) ->
  ThrottledValue.mutex (outputThrottle h) = false ->
  ((9 <= List.length data)%nat ->
   exists h',
     handleColorMessage h data millis = Some h'
     /\ Output.getState (outputManager h') = Output.State_of_bytes (skipn 1 data)
     /\ sendOutputColorMessage h' now false enqueued = (NotSent, h')
     /\ sendOutputColorMessage h' now true enqueued
        = (ToClient (ON_COLOR :: firstn 8 (skipn 1 data)), h'))
  /\ ((List.length data < 9)%nat -> handleColorMessage h data millis = Some h)
  /\ sendOutputColorMessage h now true enqueued
     = (ToClient (ColorMessage_bytes (Output.getState (outputManager h))), h)
  /\ snd (sendOutputColorMessage h now false false) = h.
Proof.
  intros Hw Hfree. split; [|split; [|split]].
  - intros Hlen. unfold handleColorMessage, sizeofColorMessage, Output.sizeofState.
    destruct (Z.ltb_spec (Z.of_nat (List.length data)) (1 + 8)); [lia|].
    destruct (setState_wired (outputManager h) (Output.State_of_bytes (skipn 1 data)) Hw)
      as (om' & E & Hs & _ & _).
    rewrite E. cbn [bind]. eexists. split; [reflexivity|].
    cbn [outputManager]. split; [exact Hs|].
    assert (Hb : ColorMessage_bytes (Output.State_of_bytes (skipn 1 data))
                 = ON_COLOR :: firstn 8 (skipn 1 data)).
    { unfold ColorMessage_bytes. rewrite State_bytes_of_bytes; [reflexivity|].
      rewrite length_skipn. lia. }
    rewrite <- Hb.
    unfold sendOutputColorMessage, sendThrottledMessage, ThrottledValue.shouldSend,
      ThrottledValue.setLastSent.
    cbn [outputManager outputThrottle ThrottledValue.mutex ThrottledValue.lock
         ThrottledValue.unlock ThrottledValue.lastValue ThrottledValue.lastSendTime
         ThrottledValue.throttleInterval].
    rewrite Hs, State_eqb_refl, orb_true_r. cbn [negb andb]. split; reflexivity.
  - intros Hlen. unfold handleColorMessage, sizeofColorMessage, Output.sizeofState.
    destruct (Z.ltb_spec (Z.of_nat (List.length data)) (1 + 8)); [reflexivity | lia].
  - unfold sendOutputColorMessage, sendThrottledMessage.
    pose proof (shouldSend_keeps _ Output.State_eqb (outputThrottle h) now
                  (Output.getState (outputManager h)) Hfree) as Hk.
    destruct (ThrottledValue.shouldSend _ _ _ _) as [send g']. cbn [snd] in Hk. subst g'.
    destruct send; cbn [negb andb]; destruct h; reflexivity.
  - unfold sendOutputColorMessage, sendThrottledMessage.
    pose proof (shouldSend_keeps _ Output.State_eqb (outputThrottle h) now
                  (Output.getState (outputManager h)) Hfree) as Hk.
    destruct (ThrottledValue.shouldSend _ _ _ _) as [send g']. cbn [snd] in Hk. subst g'.
    destruct send; cbn [negb andb snd]; destruct h; reflexivity.
Qed.

End WebSocketColour.

Lemma websocket_colour_flow_witness :
  let h := WebSocket.makeHandler (Output.makeManager 21 17 4 13) in
  exists h',
    WebSocket.handleColorMessage h [3; 2; 255; 0; 7; 255; 0; 0; 128] 40 = Some h'
    /\ WebSocket.sendOutputColorMessage h' 100000 false true = (WebSocket.NotSent, h')
    /\ WebSocket.sendOutputColorMessage h' 100000 true true
       = (WebSocket.ToClient [3; 2; 255; 0; 7; 255; 0; 0; 128], h').
Proof.
  intros h.
  destruct (websocket_colour_flow h [3; 2; 255; 0; 7; 255; 0; 0; 128] 40 100000 true)
    as (H & _).
  - intros c. destruct c; unfold Light.wired; simpl; discriminate.
  - reflexivity.
  - destruct (H ltac:(simpl; lia)) as (h' & E & _ & Hn & Hc).
    exists h'. split; [exact E|]. split; [exact Hn | exact Hc].
Defined.
